(** * Outdoor Boys knowledge-base builder: a shallow embedding of [main.py]

    The scraper is a single sequential procedure.  Its external
    collaborators (the video platform, the transcript service and the
    language model) are taken as data: a [Scraper] record holds what each
    of them answers.  Exceptions are explicit: every operation that can
    raise in Python returns a [result]. *)

From Stdlib Require Import String Ascii List ZArith Lia Bool Arith DecimalString.
Import ListNotations.
Local Open Scope Z_scope.
Set Warnings "-register-all".

(** ** Python strings

    A Python [str] is modelled as a Rocq [string] whose characters are the
    code points below 256.  The three string operations the program relies
    on ([lower], [in], [encode]) are given for that range.  A str of the
    language model's answer may also hold lone surrogates, which cannot be
    encoded: such a str is a [text]. *)

Module PyStr.

Definition code (c : ascii) : Z := Z.of_N (N_of_ascii c).
Definition chr (n : Z) : ascii := ascii_of_N (Z.to_N n).

(** [str.lower] on one code point below 256: the Latin capitals A..Z and
    the Latin-1 capitals 0xC0..0xDE (0xD7, the multiplication sign, apart)
    move up by 32. *)
Definition lower_char (c : ascii) : ascii :=
  let n := code c in
  if ((65 <=? n) && (n <=? 90)) || ((192 <=? n) && (n <=? 222) && negb (n =? 215))
  then chr (n + 32) else c.

Fixpoint lower (s : string) : string :=
  match s with
  | EmptyString => EmptyString
  | String c t => String (lower_char c) (lower t)
  end.

(** [s.startswith(p)] *)
Fixpoint startswith (p s : string) : bool :=
  match p, s with
  | EmptyString, _ => true
  | String a p', String b s' => Ascii.eqb a b && startswith p' s'
  | String _ _, EmptyString => false
  end.

(** [kw in text] *)
Fixpoint contains (kw text : string) : bool :=
  startswith kw text ||
  match text with
  | EmptyString => false
  | String _ t => contains kw t
  end.

(** What [kw in text] means: [kw] is a contiguous part of [text]. *)
Definition occurs (kw text : string) : Prop :=
  exists pre post, text = (pre ++ kw ++ post)%string.

(** [s[:n]] for a non-negative literal [n]. *)
Definition take (n : Z) (s : string) : string := substring 0 (Z.to_nat n) s.

(** The characters of a string, as [for c in s] yields them. *)
Fixpoint chars (s : string) : list string :=
  match s with
  | EmptyString => []
  | String c t => String c EmptyString :: chars t
  end.

(** [sep.join(parts)] *)
Fixpoint join (sep : string) (parts : list string) : string :=
  match parts with
  | [] => EmptyString
  | [p] => p
  | p :: rest => (p ++ sep ++ join sep rest)%string
  end.

(** [s.encode()]: UTF-8, one byte below 128 and two bytes from 128 to 255. *)
Definition encode_char (c : ascii) : list Z :=
  let n := code c in
  if n <? 128 then [n]
  else [Z.lor 192 (Z.shiftr n 6); Z.lor 128 (Z.land n 63)].

Fixpoint encode (s : string) : list Z :=
  match s with
  | EmptyString => []
  | String c t => encode_char c ++ encode t
  end.

Definition hex_digit (n : Z) : ascii :=
  if n <? 10 then chr (48 + n) else chr (87 + n).

Definition hex_byte (b : Z) : string :=
  String (hex_digit (b / 16)) (String (hex_digit (b mod 16)) EmptyString).

(** A lone surrogate: one of the 2048 code points from 0xD800 to 0xDFFF,
    by the eleven bits of its offset from 0xD800.  [json.loads] reads the
    escape of one, such as [\ud83d], into a str that holds the code
    point. *)
Record surrogate : Set :=
  Surrogate { low_bits : ascii; bit8 : bool; bit9 : bool; bit10 : bool }.

Definition surrogate_code (s : surrogate) : Z :=
  55296 + code (low_bits s)
  + (if bit8 s then 256 else 0) + (if bit9 s then 512 else 0)
  + (if bit10 s then 1024 else 0).

(** A character of a str that may hold surrogates, and such a str. *)
Inductive uchar : Set :=
| Char (c : ascii)
| Lone (s : surrogate).

Definition text : Set := list uchar.

Fixpoint of_string (s : string) : text :=
  match s with
  | EmptyString => []
  | String c t => Char c :: of_string t
  end.

End PyStr.

(** ** MD5 (RFC 1321), as [hashlib.md5(...).hexdigest()] computes it

    Words are 32-bit integers held in [Z]; every addition wraps modulo
    [2^32]. *)

Module MD5.

Definition w32 (x : Z) : Z := x mod 4294967296.

Definition rotl (x c : Z) : Z :=
  w32 (Z.lor (Z.shiftl x c) (Z.shiftr x (32 - c))).

Definition shifts : list Z :=
  [7; 12; 17; 22; 7; 12; 17; 22; 7; 12; 17; 22; 7; 12; 17; 22;
   5;  9; 14; 20; 5;  9; 14; 20; 5;  9; 14; 20; 5;  9; 14; 20;
   4; 11; 16; 23; 4; 11; 16; 23; 4; 11; 16; 23; 4; 11; 16; 23;
   6; 10; 15; 21; 6; 10; 15; 21; 6; 10; 15; 21; 6; 10; 15; 21].

Definition sines : list Z :=
  [3614090360; 3905402710; 606105819; 3250441966; 4118548399; 1200080426;
   2821735955; 4249261313; 1770035416; 2336552879; 4294925233; 2304563134;
   1804603682; 4254626195; 2792965006; 1236535329; 4129170786; 3225465664;
   643717713; 3921069994; 3593408605; 38016083; 3634488961; 3889429448;
   568446438; 3275163606; 4107603335; 1163531501; 2850285829; 4243563512;
   1735328473; 2368359562; 4294588738; 2272392833; 1839030562; 4259657740;
   2763975236; 1272893353; 4139469664; 3200236656; 681279174; 3936430074;
   3572445317; 76029189; 3654602809; 3873151461; 530742520; 3299628645;
   4096336452; 1126891415; 2878612391; 4237533241; 1700485571; 2399980690;
   4293915773; 2240044497; 1873313359; 4264355552; 2734768916; 1309151649;
   4149444226; 3174756917; 718787259; 3951481745].

Definition lnot32 (x : Z) : Z := Z.lxor x 4294967295.

Record regs := Regs { rA : Z; rB : Z; rC : Z; rD : Z }.

Definition init : regs :=
  Regs 1732584193 4023233417 2562383102 271733878.

(** One of the 64 operations on a block of sixteen words [m]. *)
Definition step (m : list Z) (r : regs) (i : Z) : regs :=
  let '(Regs a b c d) := r in
  let '(f, g) :=
    if i <? 16 then (Z.lor (Z.land b c) (Z.land (lnot32 b) d), i)
    else if i <? 32 then (Z.lor (Z.land d b) (Z.land (lnot32 d) c), (5 * i + 1) mod 16)
    else if i <? 48 then (Z.lxor b (Z.lxor c d), (3 * i + 5) mod 16)
    else (Z.lxor c (Z.lor b (lnot32 d)), (7 * i) mod 16) in
  let k := nth (Z.to_nat i) sines 0 in
  let s := nth (Z.to_nat i) shifts 0 in
  let f' := w32 (f + a + k + nth (Z.to_nat g) m 0) in
  Regs d (w32 (b + rotl f' s)) b c.

(** Little-endian 32-bit words of a run of bytes. *)
Fixpoint words (n : nat) (bytes : list Z) : list Z :=
  match n, bytes with
  | S n', b0 :: b1 :: b2 :: b3 :: rest =>
      (b0 + 256 * b1 + 65536 * b2 + 16777216 * b3) :: words n' rest
  | _, _ => []
  end.

Definition block (r : regs) (bytes : list Z) : regs :=
  let m := words 16 bytes in
  let r' := fold_left (step m) (map Z.of_nat (seq 0 64)) r in
  Regs (w32 (rA r + rA r')) (w32 (rB r + rB r'))
       (w32 (rC r + rC r')) (w32 (rD r + rD r')).

Definition le_bytes (n : nat) (x : Z) : list Z :=
  map (fun i => (x / 256 ^ Z.of_nat i) mod 256) (seq 0 n).

(** The message followed by 0x80, zeros up to 56 modulo 64, and the bit
    length on eight bytes. *)
Definition pad (msg : list Z) : list Z :=
  let len := Z.of_nat (length msg) in
  let zeros := Z.to_nat ((55 - len) mod 64) in
  msg ++ [128] ++ repeat 0 zeros ++ le_bytes 8 ((8 * len) mod 2 ^ 64).

Fixpoint blocks (n : nat) (r : regs) (bytes : list Z) : regs :=
  match n with
  | O => r
  | S n' => blocks n' (block r (firstn 64 bytes)) (skipn 64 bytes)
  end.

Definition digest (msg : list Z) : list Z :=
  let p := pad msg in
  let r := blocks (length p / 64) init p in
  le_bytes 4 (rA r) ++ le_bytes 4 (rB r) ++ le_bytes 4 (rC r) ++ le_bytes 4 (rD r).

Definition hexdigest (msg : list Z) : string :=
  fold_right (fun b acc => (PyStr.hex_byte b ++ acc)%string) EmptyString (digest msg).

End MD5.

(** [generate_id]: the first twelve hexadecimal digits of the MD5 of the
    UTF-8 encoding of the content. *)
Definition generate_id (content : string) : string :=
  PyStr.take 12 (MD5.hexdigest (PyStr.encode content)).


(** ** Python values and exceptions *)

Module Py.

Inductive exn : Set :=
| AttributeError   (* a method looked up on a value that lacks it *)
| TypeError        (* [for] over a value that is not iterable *)
| IndexError       (* [xs[0]] on an empty list *)
| KeyError         (* [d[key]] on a dict without the key *)
| UnicodeEncodeError   (* [s.encode()] on a str with a lone surrogate *)
| HttpError        (* a failed request to the video platform *)
| TranscriptsDisabled.   (* the transcript service has no captions *)

Inductive result (A : Type) : Type :=
| Ok (a : A)
| Raise (e : exn).
Arguments Ok {A} a.
Arguments Raise {A} e.

Definition bind {A B : Type} (m : result A) (k : A -> result B) : result B :=
  match m with
  | Ok a => k a
  | Raise e => Raise e
  end.

(** The body of a [for] loop run over the items in order; the first
    exception leaves the loop. *)
Fixpoint for_each {A S : Type} (body : S -> A -> result S) (items : list A) (s : S)
  : result S :=
  match items with
  | [] => Ok s
  | x :: rest => bind (body s x) (for_each body rest)
  end.

(** What [json.loads] returns.  A [VDict] lists the items of the dict in
    insertion order, each key once.  A float is known to the program only
    through [str] and truth value, so it carries these two.  A str is a
    [VStr] when it holds no surrogate, and a [VStrLone] when it holds one:
    the characters before the first lone surrogate, that surrogate, and the
    characters after it. *)
Inductive value : Type :=
| VNone
| VBool (b : bool)
| VInt (n : Z)
| VFloat (shown : string) (nonzero : bool)
| VStr (s : string)
| VList (items : list value)
| VDict (entries : list (string * value))
| VStrLone (before : string) (lone : PyStr.surrogate) (after : PyStr.text).

(** The characters of a str with a lone surrogate. *)
Definition lone_text (before : string) (lone : PyStr.surrogate) (after : PyStr.text)
  : PyStr.text :=
  (PyStr.of_string before ++ PyStr.Lone lone :: after)%list.

(** The str made of the characters of a text. *)
Fixpoint of_text (t : PyStr.text) : value :=
  match t with
  | [] => VStr EmptyString
  | PyStr.Char c :: rest =>
      match of_text rest with
      | VStrLone before lone after => VStrLone (String c before) lone after
      | VStr s => VStr (String c s)
      | other => other
      end
  | PyStr.Lone lone :: rest => VStrLone EmptyString lone rest
  end.

(** A str of one character. *)
Definition of_char (u : PyStr.uchar) : value :=
  match u with
  | PyStr.Char c => VStr (String c EmptyString)
  | PyStr.Lone lone => VStrLone EmptyString lone []
  end.

(** [d.get(key, default)] on a dict. *)
Fixpoint dict_get (entries : list (string * value)) (key : string) (default : value)
  : value :=
  match entries with
  | [] => default
  | (k, v) :: rest => if String.eqb k key then v else dict_get rest key default
  end.

(** [d.get(key)], unset keys giving [None]. *)
Definition dict_lookup (entries : list (string * value)) (key : string) : option value :=
  option_map snd (find (fun kv => String.eqb (fst kv) key) entries).

(** [x.get(key, default)] on any value: only a dict has the method. *)
Definition get (x : value) (key : string) (default : value) : result value :=
  match x with
  | VDict entries => Ok (dict_get entries key default)
  | _ => Raise AttributeError
  end.

(** [isinstance(x, dict)] *)
Definition is_dict (x : value) : bool :=
  match x with
  | VDict _ => true
  | _ => false
  end.

(** The items [for item in x] runs over. *)
Definition iter (x : value) : result (list value) :=
  match x with
  | VList items => Ok items
  | VStr s => Ok (map VStr (PyStr.chars s))
  | VDict entries => Ok (map (fun kv => VStr (fst kv)) entries)
  | VStrLone before lone after => Ok (map of_char (lone_text before lone after))
  | VNone | VBool _ | VInt _ | VFloat _ _ => Raise TypeError
  end.

(** Truth value, as [if x] and [a and b] test it. *)
Definition truthy (x : value) : bool :=
  match x with
  | VNone => false
  | VBool b => b
  | VInt n => negb (n =? 0)
  | VFloat _ nonzero => nonzero
  | VStr s => negb (String.eqb s EmptyString)
  | VList items => match items with [] => false | _ :: _ => true end
  | VDict entries => match entries with [] => false | _ :: _ => true end
  | VStrLone _ _ _ => true
  end.

Definition dquote : ascii := "034"%char.
Definition squote : ascii := "'"%char.
Definition backslash : ascii := "\"%char.

Definition has_char (c : ascii) (s : string) : bool :=
  PyStr.contains (String c EmptyString) s.

(** Code points [repr] writes as an escape: the controls, DEL, 0x80 to
    0xA0 and the soft hyphen. *)
Definition unprintable (n : Z) : bool :=
  (n <? 32) || (n =? 127) || ((128 <=? n) && (n <=? 160)) || (n =? 173).

Definition repr_char (quote c : ascii) : string :=
  let n := PyStr.code c in
  if Ascii.eqb c quote || Ascii.eqb c backslash then String backslash (String c EmptyString)
  else if n =? 9 then String backslash "t"
  else if n =? 10 then String backslash "n"
  else if n =? 13 then String backslash "r"
  else if unprintable n then (String backslash "x" ++ PyStr.hex_byte n)%string
  else String c EmptyString.

Fixpoint repr_chars (quote : ascii) (s : string) : string :=
  match s with
  | EmptyString => EmptyString
  | String c t => (repr_char quote c ++ repr_chars quote t)%string
  end.

(** [repr] of a string: single quotes, unless the string has a single
    quote and no double quote. *)
Definition repr_str (s : string) : string :=
  let quote := if has_char squote s && negb (has_char dquote s) then dquote else squote in
  String quote (repr_chars quote s ++ String quote EmptyString).

(** [repr] of a str with lone surrogates: a surrogate is written as the
    escape of its code point on four hexadecimal digits. *)
Definition text_has (c : ascii) (t : PyStr.text) : bool :=
  existsb (fun u => match u with
                    | PyStr.Char c' => Ascii.eqb c' c
                    | PyStr.Lone _ => false
                    end) t.

Definition repr_uchar (quote : ascii) (u : PyStr.uchar) : string :=
  match u with
  | PyStr.Char c => repr_char quote c
  | PyStr.Lone lone =>
      let n := PyStr.surrogate_code lone in
      (String backslash "u" ++ PyStr.hex_byte (n / 256) ++ PyStr.hex_byte (n mod 256))%string
  end.

Definition repr_text (t : PyStr.text) : string :=
  let quote := if text_has squote t && negb (text_has dquote t) then dquote else squote in
  String quote
    (fold_right (fun u acc => (repr_uchar quote u ++ acc)%string)
       (String quote EmptyString) t).

Fixpoint repr (x : value) : string :=
  match x with
  | VNone => "None"
  | VBool true => "True"
  | VBool false => "False"
  | VInt n => NilZero.string_of_int (Z.to_int n)
  | VFloat shown _ => shown
  | VStr s => repr_str s
  | VList items =>
      ("[" ++
       (fix go (l : list value) : string :=
          match l with
          | [] => ""
          | y :: rest =>
              match rest with
              | [] => repr y
              | _ :: _ => repr y ++ ", " ++ go rest
              end
          end) items ++ "]")%string
  | VDict entries =>
      ("{" ++
       (fix go (l : list (string * value)) : string :=
          match l with
          | [] => ""
          | (k, y) :: rest =>
              match rest with
              | [] => repr_str k ++ ": " ++ repr y
              | _ :: _ => repr_str k ++ ": " ++ repr y ++ ", " ++ go rest
              end
          end) entries ++ "}")%string
  | VStrLone before lone after => repr_text (lone_text before lone after)
  end.

(** [str(x)]: a str is itself, any other value is shown by [repr]. *)
Definition str (x : value) : value :=
  match x with
  | VStr s => VStr s
  | VStrLone before lone after => VStrLone before lone after
  | _ => VStr (repr x)
  end.

(** The characters of [str(x)], as a field [{x}] of an f-string adds
    them. *)
Definition text (x : value) : PyStr.text :=
  match x with
  | VStr s => PyStr.of_string s
  | VStrLone before lone after => lone_text before lone after
  | _ => PyStr.of_string (repr x)
  end.

(** [xs[:n]]: a negative bound counts from the end. *)
Definition slice_to {A : Type} (n : Z) (xs : list A) : list A :=
  if 0 <=? n then firstn (Z.to_nat n) xs
  else firstn (Z.to_nat (Z.of_nat (length xs) + n)) xs.

End Py.

Import Py.

Notation "x <- m ;; k" := (Py.bind m (fun x => k))
  (at level 61, m at next level, right associativity).


Local Open Scope string_scope.

(** ** Category inference *)

(** The keyword table; a Python dict is read in insertion order. *)
Definition CATEGORY_KEYWORDS : list (string * list string) :=
  [ ("winter_survival", ["winter"; "cold"; "snow"; "ice"; "freeze"; "survival"; "shelter"]);
    ("building", ["build"; "cabin"; "construction"; "sauna"; "house"; "shed"]);
    ("fishing", ["fish"; "fishing"; "catch"; "salmon"; "trout"; "halibut"]);
    ("camping", ["camp"; "camping"; "tent"; "outdoor"]);
    ("cooking", ["cook"; "recipe"; "food"; "meal"; "eat"]);
    ("gear", ["gear"; "equipment"; "review"; "tool"]);
    ("alaska", ["alaska"; "wild"; "wilderness"; "adventure"]);
    ("family", ["family"; "kids"; "boys"]) ].

(** The loop of [_infer_category] over the items of a table. *)
Fixpoint first_category (table : list (string * list string)) (text : string) : string :=
  match table with
  | [] => "general"
  | (category, keywords) :: rest =>
      if existsb (fun kw => PyStr.contains kw text) keywords then category
      else first_category rest text
  end.

Definition _infer_category (title description : string) : string :=
  let text := PyStr.lower (title ++ " " ++ description) in
  first_category CATEGORY_KEYWORDS text.

(** ** The external services *)

(** A paginated list request: [execute] raises, or answers a page of items
    and possibly a request for the next page. *)
Inductive listing (A : Type) : Type :=
| ListingFails (e : exn)
| ListingPage (items : list A) (next : option (listing A)).
Arguments ListingFails {A} e.
Arguments ListingPage {A} items next.

Module PlaylistResource.
Record t := Build {
  id : string;
  snippet_title : string;
  snippet_description : option string;
  contentDetails_itemCount : Z }.
End PlaylistResource.

Module PlaylistItemResource.
Record t := Build {
  contentDetails_videoId : string;
  snippet_title : string;
  snippet_description : option string;
  snippet_publishedAt : string }.
End PlaylistItemResource.

Module YouTube.
Record t := Build {
  (** [playlists().list(channelId=CHANNEL_ID)] *)
  playlists : listing PlaylistResource.t;
  (** [playlistItems().list(playlistId=...)] *)
  playlistItems : string -> listing PlaylistItemResource.t;
  (** [channels().list(id=CHANNEL_ID).execute()]: the response, by its
      ['items'] when it has the key ([None] when it has not, as for an id
      that matches no channel), each item by its uploads playlist *)
  channels : result (option (list string)) }.
End YouTube.

(** The two prompts sent to the language model, by the texts placed in
    them (the fixed wording around the texts is left out). *)
Inductive prompt : Type :=
| FactsPrompt (title description transcript : string)
| BusinessPrompt (description : string).

(** The outcome of the body of a [try] around a model call:
    [messages.create] raises or answers without text ([CallFails]), or it
    answers a text, which [json.loads] parses ([Some]) or rejects ([None]). *)
Inductive reply : Type :=
| CallFails
| Text (parsed : option value).

(** The language-model client: the reply to the [n]-th request of the run. *)
Definition Anthropic : Type := nat -> prompt -> reply.

(** [YouTubeTranscriptApi.get_transcript]: the texts of the timed segments. *)
Definition TranscriptApi : Type := string -> result (list string).

Module Scraper.
Record t := Build {
  youtube : YouTube.t;
  anthropic : option Anthropic;
  transcripts : TranscriptApi }.
End Scraper.

(** [OutdoorBoysScraper.__init__]: a client is made only for a key that is
    given and not empty. *)
Definition OutdoorBoysScraper (youtube : YouTube.t) (transcripts : TranscriptApi)
    (model : Anthropic) (anthropic_api_key : option string) : Scraper.t :=
  Scraper.Build youtube
    (match anthropic_api_key with
     | Some key => if String.eqb key "" then None else Some model
     | None => None
     end)
    transcripts.

(** ** The records the scraper builds *)

Module Playlist.
Record t := Build {
  id : string; title : string; description : string;
  video_count : Z; category : string }.
End Playlist.

Module Video.
Record t := Build {
  video_id : string; title : string; description : string;
  published_at : string; playlist_id : string }.
End Video.

Module Transcript.
Record t := Build { video_id : string; segments : list string; full_text : string }.
End Transcript.

Module Category.
Record t := Build {
  id : string; name : string; description : string;
  playlistId : string; category : string; factCount : Z }.
End Category.

Module Fact.
Record t := Build {
  id : string; type : string; content : value; category : string;
  videoId : string; videoTitle : string; tags : list string }.
End Fact.

Module Joke.
Record t := Build {
  id : string; punchline : value; context : string;
  videoId : string; videoTitle : string }.
End Joke.

Module Recipe.
Record t := Build {
  id : string; name : value; description : string;
  ingredients : value; steps : value; cookingMethod : value;
  videoId : string; videoTitle : string }.
End Recipe.

Module Business.
Record t := Build {
  id : string; name : value; type : value; location : value;
  contact : value; website : value;
  videoReferences : list (string * string); description : string }.
End Business.

Module Metadata.
Record t := Build {
  lastUpdated : string; totalVideos : Z; totalFacts : Z;
  version : string; channelName : string }.
End Metadata.

(** ** The scraper's methods *)

(** The [while request] loop of both list methods. *)
Fixpoint fetch_all {A B : Type} (convert : A -> B) (request : listing A) (acc : list B)
  : result (list B) :=
  match request with
  | ListingFails e => Raise e
  | ListingPage items next =>
      let acc' := (acc ++ map convert items)%list in
      match next with
      | Some request' => fetch_all convert request' acc'
      | None => Ok acc'
      end
  end.

Definition or_empty (o : option string) : string :=
  match o with
  | Some s => s
  | None => ""
  end.

Definition get_channel_playlists (self : Scraper.t) : result (list Playlist.t) :=
  fetch_all
    (fun item =>
       Playlist.Build (PlaylistResource.id item)
         (PlaylistResource.snippet_title item)
         (or_empty (PlaylistResource.snippet_description item))
         (PlaylistResource.contentDetails_itemCount item)
         (_infer_category (PlaylistResource.snippet_title item) ""))
    (YouTube.playlists (Scraper.youtube self)) [].

Definition get_playlist_videos (self : Scraper.t) (playlist_id : string)
  : result (list Video.t) :=
  fetch_all
    (fun item =>
       Video.Build (PlaylistItemResource.contentDetails_videoId item)
         (PlaylistItemResource.snippet_title item)
         (or_empty (PlaylistItemResource.snippet_description item))
         (PlaylistItemResource.snippet_publishedAt item)
         playlist_id)
    (YouTube.playlistItems (Scraper.youtube self) playlist_id) [].

Definition get_all_channel_videos (self : Scraper.t) : result (list Video.t) :=
  channel_response <- YouTube.channels (Scraper.youtube self) ;;
  match channel_response with
  | None => Raise KeyError   (* [channel_response['items']] *)
  | Some [] => Raise IndexError   (* [...[0]] *)
  | Some (uploads_playlist_id :: _) => get_playlist_videos self uploads_playlist_id
  end.

(** [get_transcript]: any exception is answered by [None]. *)
Definition get_transcript (self : Scraper.t) (video_id : string) : option Transcript.t :=
  match Scraper.transcripts self video_id with
  | Ok transcript_list =>
      Some (Transcript.Build video_id transcript_list (PyStr.join " " transcript_list))
  | Raise _ => None
  end.

(** The result both early exits of [extract_facts_with_llm] return. *)
Definition empty_extraction : value :=
  VDict [("facts", VList []); ("jokes", VList []);
         ("businesses", VList []); ("recipes", VList [])].

(** The prompt of [extract_facts_with_llm]: the title, the first 500
    characters of the description and the first 12000 of the transcript. *)
Definition facts_prompt (video : Video.t) (transcript : string) : prompt :=
  FactsPrompt (Video.title video)
    (PyStr.take 500 (Video.description video))
    (PyStr.take 12000 transcript).

(** [extract_facts_with_llm], with the number of requests sent so far; it
    answers the extraction and the new number of requests. *)
Definition extract_facts_with_llm (self : Scraper.t) (calls : nat)
    (video : Video.t) (transcript : string) : value * nat :=
  match Scraper.anthropic self with
  | None => (empty_extraction, calls)
  | Some client =>
      match client calls (facts_prompt video transcript) with
      | Text (Some parsed) => (parsed, S calls)
      | Text None | CallFails => (empty_extraction, S calls)
      end
  end.

Definition extract_businesses_from_description (self : Scraper.t) (calls : nat)
    (description : string) : value * nat :=
  match Scraper.anthropic self with
  | None => (VList [], calls)
  | Some client =>
      match client calls (BusinessPrompt description) with
      | Text (Some parsed) => (parsed, S calls)
      | Text None | CallFails => (VList [], S calls)
      end
  end.

(** [generate_id] applied to a value of unknown type: [content.encode]
    exists on strings only, and fails on a str with a lone surrogate. *)
Definition generate_id_of (content : value) : result string :=
  match content with
  | VStr s => Ok (generate_id s)
  | VStrLone _ _ _ => Raise UnicodeEncodeError
  | _ => Raise AttributeError
  end.

(** ** The aggregator *)

(** [d[key] = v] on a dict kept as its items in insertion order: a key
    already there keeps its place and takes the new value. *)
Fixpoint dict_set {V : Type} (d : list (string * V)) (key : string) (v : V)
  : list (string * V) :=
  match d with
  | [] => [(key, v)]
  | (k, old) :: rest =>
      if String.eqb k key then (k, v) :: rest else (k, old) :: dict_set rest key v
  end.

(** [list(d.values())] *)
Definition dict_values {V : Type} (d : list (string * V)) : list V := map snd d.

(** The four collections, and the number of requests sent to the language
    model so far. *)
Module KB.
Record t := Build {
  all_facts : list Fact.t;
  all_businesses : list Business.t;
  all_jokes : list Joke.t;
  all_recipes : list Recipe.t;
  calls : nat }.
End KB.

(** [for item in source: body], where evaluating [source] may raise. *)
Definition loop_over {S : Type} (source : result value)
    (body : S -> value -> result S) (s : S) : result S :=
  x <- source ;;
  items <- Py.iter x ;;
  for_each body items s.

Section PerVideo.

Variable video : Video.t.

Definition add_survival_tip (category : string) (all_facts : list Fact.t) (tip : value)
  : result (list Fact.t) :=
  id <- generate_id_of tip ;;
  Ok (all_facts ++
      [Fact.Build id "survival_tip" tip category
         (Video.video_id video) (Video.title video) ["survival"; category]])%list.

Definition add_building_technique (all_facts : list Fact.t) (tech : value)
  : result (list Fact.t) :=
  id <- generate_id_of tech ;;
  Ok (all_facts ++
      [Fact.Build id "building_technique" tech "building"
         (Video.video_id video) (Video.title video) ["building"; "construction"]])%list.

Definition add_life_lesson (all_facts : list Fact.t) (lesson : value)
  : result (list Fact.t) :=
  id <- generate_id_of lesson ;;
  Ok (all_facts ++
      [Fact.Build id "life_lesson" lesson "life_lessons"
         (Video.video_id video) (Video.title video) ["wisdom"; "philosophy"]])%list.

Definition add_fishing_tip (all_facts : list Fact.t) (tip : value)
  : result (list Fact.t) :=
  id <- generate_id_of tip ;;
  Ok (all_facts ++
      [Fact.Build id "fishing_tip" tip "fishing"
         (Video.video_id video) (Video.title video) ["fishing"]])%list.

(** The content of a gear fact: the f-string over three fields of a
    mapping, [str] of anything else.  It is a str in both cases. *)
Definition gear_content (gear : value) : value :=
  match gear with
  | VDict d =>
      Py.of_text
        (Py.text (dict_get d "name" (VStr "Unknown")) ++ PyStr.of_string ": " ++
         Py.text (dict_get d "use" (VStr "")) ++ PyStr.of_string " - " ++
         Py.text (dict_get d "recommendation" (VStr "")))%list
  | _ => Py.str gear
  end.

Definition add_gear (all_facts : list Fact.t) (gear : value) : result (list Fact.t) :=
  let content := gear_content gear in
  id <- generate_id_of content ;;
  Ok (all_facts ++
      [Fact.Build id "gear" content "gear"
         (Video.video_id video) (Video.title video) ["gear"; "equipment"]])%list.

Definition add_joke (all_jokes : list Joke.t) (joke : value) : result (list Joke.t) :=
  id <- generate_id_of joke ;;
  Ok (all_jokes ++
      [Joke.Build id joke (Video.title video)
         (Video.video_id video) (Video.title video)])%list.

Definition add_recipe (all_recipes : list Recipe.t) (recipe : value)
  : result (list Recipe.t) :=
  match recipe with
  | VDict d =>
      id <- generate_id_of (dict_get d "name" (VStr "")) ;;
      Ok (all_recipes ++
          [Recipe.Build id
             (dict_get d "name" (VStr "Unknown Recipe"))
             ("From " ++ Video.title video)
             (dict_get d "ingredients" (VList []))
             (dict_get d "steps" (VList []))
             (dict_get d "cooking_method" (VStr "campfire"))
             (Video.video_id video) (Video.title video)])%list
  | _ => Ok all_recipes
  end.

(** The body shared by the two business loops; they differ in the
    description text only. *)
Definition add_business (described : string) (all_businesses : list Business.t)
    (biz : value) : result (list Business.t) :=
  match biz with
  | VDict d =>
      if Py.truthy (dict_get d "name" VNone) then
        id <- generate_id_of (dict_get d "name" (VStr "")) ;;
        Ok (all_businesses ++
            [Business.Build id
               (dict_get d "name" (VStr ""))
               (dict_get d "type" (VStr "other"))
               (dict_get d "location" (VStr ""))
               (dict_get d "contact" (VStr ""))
               (dict_get d "website" (VStr ""))
               [(Video.video_id video, Video.title video)]
               (described ++ Video.title video)])%list
      else Ok all_businesses
  | _ => Ok all_businesses
  end.

Definition add_mentioned_business := add_business "Mentioned in ".
Definition add_description_business := add_business "From video description: ".

(** Everything the loop body does with the extraction of one video. *)
Definition aggregate_extracted (extracted : value) (category : string) (kb : KB.t)
  : result KB.t :=
  facts1 <- loop_over (Py.get extracted "survival_tips" (VList []))
              (add_survival_tip category) (KB.all_facts kb) ;;
  facts2 <- loop_over (Py.get extracted "building_techniques" (VList []))
              add_building_technique facts1 ;;
  facts3 <- loop_over (Py.get extracted "life_lessons" (VList []))
              add_life_lesson facts2 ;;
  facts4 <- loop_over (Py.get extracted "fishing_tips" (VList []))
              add_fishing_tip facts3 ;;
  facts5 <- loop_over (Py.get extracted "gear_recommendations" (VList []))
              add_gear facts4 ;;
  jokes <- loop_over (Py.get extracted "dad_jokes" (VList []))
             add_joke (KB.all_jokes kb) ;;
  recipes <- loop_over (Py.get extracted "recipes" (VList []))
               add_recipe (KB.all_recipes kb) ;;
  businesses <- loop_over (Py.get extracted "businesses_mentioned" (VList []))
                  add_mentioned_business (KB.all_businesses kb) ;;
  Ok (KB.Build facts5 businesses jokes recipes (KB.calls kb)).

(** The loop over the businesses found in the description. *)
Definition aggregate_description (desc_businesses : value) (kb : KB.t) : result KB.t :=
  businesses <- loop_over (Ok desc_businesses)
                  add_description_business (KB.all_businesses kb) ;;
  Ok (KB.Build (KB.all_facts kb) businesses (KB.all_jokes kb) (KB.all_recipes kb)
        (KB.calls kb)).

Definition set_calls (kb : KB.t) (n : nat) : KB.t :=
  KB.Build (KB.all_facts kb) (KB.all_businesses kb) (KB.all_jokes kb)
    (KB.all_recipes kb) n.

(** One turn of the loop over the videos. *)
Definition process_video (scraper : Scraper.t) (kb : KB.t) : result KB.t :=
  match get_transcript scraper (Video.video_id video) with
  | None => Ok kb   (* [continue] *)
  | Some transcript_data =>
      let '(extracted, calls1) :=
        extract_facts_with_llm scraper (KB.calls kb) video
          (Transcript.full_text transcript_data) in
      let category := _infer_category (Video.title video) (Video.description video) in
      kb1 <- aggregate_extracted extracted category (set_calls kb calls1) ;;
      let '(desc_businesses, calls2) :=
        extract_businesses_from_description scraper calls1 (Video.description video) in
      aggregate_description desc_businesses (set_calls kb1 calls2)
  end.

End PerVideo.

Module Output.
Record t := Build {
  metadata : Metadata.t;
  categories : list Category.t;
  facts : list Fact.t;
  businesses : list Business.t;
  jokes : list Joke.t;
  recipes : list Recipe.t }.
End Output.

Definition category_of_playlist (p : Playlist.t) : Category.t :=
  Category.Build (Playlist.id p) (Playlist.title p) (Playlist.description p)
    (Playlist.id p) (Playlist.category p) 0.

(** The loop filling [categories], a dict keyed by playlist id. *)
Definition collect_categories (playlists : list Playlist.t)
  : list (string * Category.t) :=
  fold_left (fun categories p => dict_set categories (Playlist.id p) (category_of_playlist p))
    playlists [].

Definition empty_kb : KB.t := KB.Build [] [] [] [] 0%nat.

(** The videos the run works on: [get_all_channel_videos()[:max_videos]]. *)
Definition selected_videos (scraper : Scraper.t) (max_videos : Z) : result (list Video.t) :=
  uploads <- get_all_channel_videos scraper ;;
  Ok (Py.slice_to max_videos uploads).

(** [build_knowledge_base]; [now] is the time of the run as
    [datetime.now().isoformat()] shows it, and the result holds the contents
    of the six files written. *)
Definition build_knowledge_base (scraper : Scraper.t) (now : string) (max_videos : Z)
  : result Output.t :=
  playlists <- get_channel_playlists scraper ;;
  let categories := collect_categories playlists in
  videos <- selected_videos scraper max_videos ;;
  kb <- for_each (fun kb video => process_video video scraper kb) videos empty_kb ;;
  let metadata :=
    Metadata.Build now (Z.of_nat (length videos)) (Z.of_nat (length (KB.all_facts kb)))
      "1.0.0" "Outdoor Boys" in
  Ok (Output.Build metadata (dict_values categories)
        (KB.all_facts kb) (KB.all_businesses kb) (KB.all_jokes kb) (KB.all_recipes kb)).

(** ** Notions used in the statements *)

(** A category of the table has a hit when one of its keywords occurs. *)
Definition hit (keywords : list string) (text : string) : Prop :=
  exists kw, In kw keywords /\ PyStr.occurs kw text.

Section Gather.

Context {R : Type}.

(** The records a loop adds for its items, item by item. *)
Fixpoint gather (emit : value -> result (list R)) (items : list value)
  : result (list R) :=
  match items with
  | [] => Ok []
  | x :: rest =>
      rs <- emit x ;;
      rs' <- gather emit rest ;;
      Ok (rs ++ rs')%list
  end.

(** A loop body appends when all it does to the collection is to add the
    records [emit] answers for the item. *)
Definition appends (body : list R -> value -> result (list R))
    (emit : value -> result (list R)) : Prop :=
  forall acc x, body acc x = (rs <- emit x ;; Ok (acc ++ rs)%list).

End Gather.

(** The records each loop body appends for one item of a video, apart from
    the collection they are appended to. *)
Section Emitters.

Variable video : Video.t.

Definition survival_tip_of (category : string) (tip : string) : Fact.t :=
  Fact.Build (generate_id tip) "survival_tip" (VStr tip) category
    (Video.video_id video) (Video.title video) ["survival"; category].

Definition emit_fact (type category : string) (tags : list string) (item : value)
  : result (list Fact.t) :=
  id <- generate_id_of item ;;
  Ok [Fact.Build id type item category (Video.video_id video) (Video.title video) tags].

Definition emit_gear (gear : value) : result (list Fact.t) :=
  id <- generate_id_of (gear_content gear) ;;
  Ok [Fact.Build id "gear" (gear_content gear) "gear"
        (Video.video_id video) (Video.title video) ["gear"; "equipment"]].

Definition emit_joke (joke : value) : result (list Joke.t) :=
  id <- generate_id_of joke ;;
  Ok [Joke.Build id joke (Video.title video) (Video.video_id video) (Video.title video)].

Definition emit_recipe (recipe : value) : result (list Recipe.t) :=
  add_recipe video [] recipe.

Definition emit_business (described : string) (biz : value) : result (list Business.t) :=
  add_business video described [] biz.

End Emitters.

(** The loop over the selected videos. *)
Definition run_videos (scraper : Scraper.t) (videos : list Video.t) (kb : KB.t)
  : result KB.t :=
  for_each (fun kb video => process_video video scraper kb) videos kb.

(** The record a business loop makes of a mapping named [name]. *)
Definition business_of (video : Video.t) (described : string)
    (d : list (string * value)) (name : string) : Business.t :=
  Business.Build (generate_id name) (VStr name)
    (dict_get d "type" (VStr "other")) (dict_get d "location" (VStr ""))
    (dict_get d "contact" (VStr "")) (dict_get d "website" (VStr ""))
    [(Video.video_id video, Video.title video)] (described ++ Video.title video).

(** The records a loop over the field [key] of an extraction adds. *)
Definition gathered {R : Type} (d : list (string * value)) (key : string)
    (emit : value -> result (list R)) : result (list R) :=
  items <- Py.iter (dict_get d key (VList [])) ;;
  gather emit items.

(** Whether a value is a str that holds a lone surrogate, which
    [encode] refuses. *)
Definition has_lone_surrogate (x : value) : bool :=
  match x with
  | VStrLone _ _ _ => true
  | _ => false
  end.

(** The gear fact made of an item. *)
Definition gear_fact_of (video : Video.t) (content : string) : Fact.t :=
  Fact.Build (generate_id content) "gear" (VStr content) "gear"
    (Video.video_id video) (Video.title video) ["gear"; "equipment"].

(** A reply from which nothing can be parsed: the call failed, or its text
    is not JSON. *)
Definition unusable (r : reply) : Prop := r = CallFails \/ r = Text None.

(** The loop filling [categories], from any dict to start with. *)
Definition fill_categories (categories : list (string * Category.t))
    (playlists : list Playlist.t) : list (string * Category.t) :=
  fold_left (fun categories p => dict_set categories (Playlist.id p) (category_of_playlist p))
    playlists categories.

(** Every entry of the categories dict sits under its own id. *)
Definition keyed_by_id (d : list (string * Category.t)) : Prop :=
  Forall (fun kv => Category.id (snd kv) = fst kv) d.

(** ** A sample channel

    Two playlists and three uploads; the third upload has no captions.
    The language models below differ in what they answer. *)

Module Sample.

Definition playlists_page : listing PlaylistResource.t :=
  ListingPage
    [PlaylistResource.Build "PL1" "Winter camping trips" (Some "Cold nights out") 12]
    (Some (ListingPage
       [PlaylistResource.Build "PL2" "Catch and cook" None 7] None)).

Definition uploads_page : listing PlaylistItemResource.t :=
  ListingPage
    [PlaylistItemResource.Build "vid1" "Ice fishing for trout"
       (Some "With Acme Charters") "2024-01-05T10:00:00Z";
     PlaylistItemResource.Build "vid2" "Trip report"
       (Some "How we build a cabin") "2024-02-09T10:00:00Z";
     PlaylistItemResource.Build "vid3" "Quiet day" None "2024-03-01T10:00:00Z"]
    None.

Definition youtube : YouTube.t :=
  YouTube.Build playlists_page
    (fun playlist_id => if String.eqb playlist_id "UU1" then uploads_page
                        else ListingFails HttpError)
    (Ok (Some ["UU1"])).

Definition transcripts : TranscriptApi :=
  fun video_id =>
    if String.eqb video_id "vid3" then Raise TranscriptsDisabled
    else Ok ["when the lake is frozen"; "drink the first melt"].

Definition video1 : Video.t :=
  Video.Build "vid1" "Ice fishing for trout" "With Acme Charters"
    "2024-01-05T10:00:00Z" "UU1".
Definition video2 : Video.t :=
  Video.Build "vid2" "Trip report" "How we build a cabin" "2024-02-09T10:00:00Z" "UU1".
Definition video3 : Video.t :=
  Video.Build "vid3" "Quiet day" "" "2024-03-01T10:00:00Z" "UU1".

Definition one_tip : value :=
  VDict [("survival_tips", VList [VStr "drink the first melt, not the ice"])].

Definition acme : value :=
  VDict [("name", VStr "Acme Charters"); ("type", VStr "charter")].

(** Answers one survival tip per video and no business. *)
Definition model_tips : Anthropic :=
  fun _ prompt =>
    match prompt with
    | FactsPrompt _ _ _ => Text (Some one_tip)
    | BusinessPrompt _ => Text (Some (VList []))
    end.

(** Answers text that is not JSON to the transcript prompt, and one
    business to the description prompt. *)
Definition model_malformed : Anthropic :=
  fun _ prompt =>
    match prompt with
    | FactsPrompt _ _ _ => Text None
    | BusinessPrompt _ => Text (Some (VList [acme]))
    end.

(** Fails on every request. *)
Definition model_down : Anthropic := fun _ _ => CallFails.

(** Answers the JSON text [[]] to every prompt. *)
Definition model_array : Anthropic := fun _ _ => Text (Some (VList [])).

(** Answers the same business to both prompts. *)
Definition model_business_twice : Anthropic :=
  fun _ prompt =>
    match prompt with
    | FactsPrompt _ _ _ => Text (Some (VDict [("businesses_mentioned", VList [acme])]))
    | BusinessPrompt _ => Text (Some (VList [acme]))
    end.

(** Answers gear and recipe lists holding a string and a mapping each. *)
Definition mixed_items : value :=
  VDict [("gear_recommendations",
          VList [VStr "wool socks";
                 VDict [("name", VStr "Axe"); ("use", VStr "splitting wood")]]);
         ("recipes",
          VList [VStr "pancakes";
                 VDict [("name", VStr "Trout chowder")]])].

Definition model_mixed : Anthropic :=
  fun _ prompt =>
    match prompt with
    | FactsPrompt _ _ _ => Text (Some mixed_items)
    | BusinessPrompt _ => Text (Some (VList []))
    end.

(** Answers a business whose name is the number 5. *)
Definition model_numeric_name : Anthropic :=
  fun _ prompt =>
    match prompt with
    | FactsPrompt _ _ _ =>
        Text (Some (VDict [("businesses_mentioned", VList [VDict [("name", VInt 5)]])]))
    | BusinessPrompt _ => Text (Some (VList []))
    end.

Definition scraper (model : Anthropic) : Scraper.t :=
  OutdoorBoysScraper youtube transcripts model (Some "sk-test").

Definition scraper_without_key : Scraper.t :=
  OutdoorBoysScraper youtube transcripts model_tips None.

Definition now : string := "2024-03-02T08:00:00".

(** A knowledge base that already holds one joke from an earlier video. *)
Definition earlier : KB.t :=
  KB.Build [] []
    [Joke.Build (generate_id "lettuce pray") (VStr "lettuce pray")
       "Garden tour" "vid0" "Garden tour"]
    [] 2%nat.

End Sample.

(** ** Notions used for the rest of the code *)

(** The items of the pages of a list request, up to its end or to the
    first page that fails. *)
Fixpoint listing_items {A : Type} (request : listing A) : list A :=
  match request with
  | ListingFails _ => []
  | ListingPage items next =>
      (items ++ match next with
                | Some request' => listing_items request'
                | None => []
                end)%list
  end.

(** The exception of the first page that fails, if one does. *)
Fixpoint listing_error {A : Type} (request : listing A) : option exn :=
  match request with
  | ListingFails e => Some e
  | ListingPage _ next =>
      match next with
      | Some request' => listing_error request'
      | None => None
      end
  end.

(** [isinstance(x, str)] *)
Definition is_str (x : value) : bool :=
  match x with
  | VStr _ | VStrLone _ _ _ => true
  | _ => false
  end.

(** Whether a transcript is found for a video. *)
Definition has_transcript (scraper : Scraper.t) (video : Video.t) : bool :=
  match get_transcript scraper (Video.video_id video) with
  | Some _ => true
  | None => false
  end.

(** The characters of lower-case hexadecimal numerals. *)
Definition hex_char (c : ascii) : Prop :=
  In c (list_ascii_of_string "0123456789abcdef").

(** [d.get(key)] on a dict of any values, [None] for a key not set. *)
Definition dict_find {V : Type} (d : list (string * V)) (key : string) : option V :=
  option_map snd (find (fun kv => String.eqb (fst kv) key) d).

(** The keyword table without the keywords that contain another keyword
    of their own category. *)
Definition effective_keywords : list (string * list string) :=
  [ ("winter_survival", ["winter"; "cold"; "snow"; "ice"; "freeze"; "survival"; "shelter"]);
    ("building", ["build"; "cabin"; "construction"; "sauna"; "house"; "shed"]);
    ("fishing", ["fish"; "catch"; "salmon"; "trout"; "halibut"]);
    ("camping", ["camp"; "tent"; "outdoor"]);
    ("cooking", ["cook"; "recipe"; "food"; "meal"; "eat"]);
    ("gear", ["gear"; "equipment"; "review"; "tool"]);
    ("alaska", ["alaska"; "wild"; "adventure"]);
    ("family", ["family"; "kids"; "boys"]) ].

(** The five kinds of fact: the type with the category and the tags that
    go with it (the category of a survival tip is that of its video). *)
Definition fact_shape (type category : string) (tags : list string) : Prop :=
  (type = "survival_tip" /\ tags = ["survival"; category]) \/
  (type = "building_technique" /\ category = "building" /\
   tags = ["building"; "construction"]) \/
  (type = "life_lesson" /\ category = "life_lessons" /\ tags = ["wisdom"; "philosophy"]) \/
  (type = "fishing_tip" /\ category = "fishing" /\ tags = ["fishing"]) \/
  (type = "gear" /\ category = "gear" /\ tags = ["gear"; "equipment"]).

Section Provenance.

Variable scraper : Scraper.t.
Variable video : Video.t.

(** A fact as the turn for [video] makes it. *)
Definition fact_of_video (f : Fact.t) : Prop :=
  has_transcript scraper video = true /\
  Fact.videoId f = Video.video_id video /\
  Fact.videoTitle f = Video.title video /\
  (exists content, Fact.content f = VStr content /\ Fact.id f = generate_id content) /\
  fact_shape (Fact.type f) (Fact.category f) (Fact.tags f) /\
  (Fact.type f = "survival_tip" ->
   Fact.category f = _infer_category (Video.title video) (Video.description video)).

Definition joke_of_video (j : Joke.t) : Prop :=
  has_transcript scraper video = true /\
  Joke.videoId j = Video.video_id video /\
  Joke.videoTitle j = Video.title video /\
  Joke.context j = Video.title video /\
  exists punchline, Joke.punchline j = VStr punchline /\ Joke.id j = generate_id punchline.

(** A recipe of [video]: named by a string and identified by it, or
    without a name in the model's answer. *)
Definition recipe_of_video (r : Recipe.t) : Prop :=
  has_transcript scraper video = true /\
  Recipe.videoId r = Video.video_id video /\
  Recipe.videoTitle r = Video.title video /\
  Recipe.description r = "From " ++ Video.title video /\
  ((exists name, Recipe.name r = VStr name /\ Recipe.id r = generate_id name) \/
   (Recipe.name r = VStr "Unknown Recipe" /\ Recipe.id r = generate_id "")).

Definition business_of_video (b : Business.t) : Prop :=
  has_transcript scraper video = true /\
  Business.videoReferences b = [(Video.video_id video, Video.title video)] /\
  (exists name, name <> "" /\ Business.name b = VStr name /\
                Business.id b = generate_id name) /\
  (Business.description b = "Mentioned in " ++ Video.title video \/
   Business.description b = "From video description: " ++ Video.title video).

End Provenance.

(** What two knowledge bases differ by when the second extends the
    first. *)
Module Added.
Record t := Build {
  facts : list Fact.t;
  businesses : list Business.t;
  jokes : list Joke.t;
  recipes : list Recipe.t }.
End Added.

Definition extends (kb kb' : KB.t) (added : Added.t) : Prop :=
  KB.all_facts kb' = (KB.all_facts kb ++ Added.facts added)%list /\
  KB.all_businesses kb' = (KB.all_businesses kb ++ Added.businesses added)%list /\
  KB.all_jokes kb' = (KB.all_jokes kb ++ Added.jokes added)%list /\
  KB.all_recipes kb' = (KB.all_recipes kb ++ Added.recipes added)%list.

(** Every added record is one of a video of the list. *)
Definition added_from (scraper : Scraper.t) (videos : list Video.t) (added : Added.t)
  : Prop :=
  Forall (fun f => exists v, In v videos /\ fact_of_video scraper v f)
         (Added.facts added) /\
  Forall (fun b => exists v, In v videos /\ business_of_video scraper v b)
         (Added.businesses added) /\
  Forall (fun j => exists v, In v videos /\ joke_of_video scraper v j)
         (Added.jokes added) /\
  Forall (fun r => exists v, In v videos /\ recipe_of_video scraper v r)
         (Added.recipes added).

(** The requests a run sends to the language model for a list of videos:
    two for each video with a transcript, when a client is configured. *)
Definition requests_for (scraper : Scraper.t) (videos : list Video.t) : nat :=
  match Scraper.anthropic scraper with
  | Some _ => (2 * length (filter (has_transcript scraper) videos))%nat
  | None => 0%nat
  end.

(** ** More sample answers *)

Module Cases.

(** An answer with a joke, two recipes (the second without a name) and a
    business. *)
Definition full : value :=
  VDict [("dad_jokes", VList [VStr "lettuce pray"]);
         ("recipes", VList [VDict [("name", VStr "Trout chowder");
                                   ("ingredients", VList [VStr "trout"; VStr "cream"])];
                            VDict [("steps", VList [VStr "fry"])]]);
         ("businesses_mentioned", VList [Sample.acme])].

Definition model_full : Anthropic :=
  fun _ prompt =>
    match prompt with
    | FactsPrompt _ _ _ => Text (Some full)
    | BusinessPrompt _ => Text (Some (VList [Sample.acme]))
    end.

(** An answer whose tips hold a number among the strings. *)
Definition model_number_tip : Anthropic :=
  fun _ prompt =>
    match prompt with
    | FactsPrompt _ _ _ =>
        Text (Some (VDict [("survival_tips", VList [VStr "stay dry"; VInt 3])]))
    | BusinessPrompt _ => Text (Some (VList []))
    end.

(** The lone surrogate U+D83D, as [json.loads] reads the escape
    [\ud83d]. *)
Definition d83d : PyStr.surrogate := PyStr.Surrogate "061"%char false false false.

(** An answer whose only tip is the str of that one surrogate. *)
Definition model_lone_tip : Anthropic :=
  fun _ prompt =>
    match prompt with
    | FactsPrompt _ _ _ =>
        Text (Some (VDict [("survival_tips", VList [VStrLone "" d83d []])]))
    | BusinessPrompt _ => Text (Some (VList []))
    end.

(** An answer whose jokes are [null]. *)
Definition model_null_jokes : Anthropic :=
  fun _ prompt =>
    match prompt with
    | FactsPrompt _ _ _ => Text (Some (VDict [("dad_jokes", VNone)]))
    | BusinessPrompt _ => Text (Some (VList []))
    end.

(** A channel whose playlists request fails on its second page, and one
    with two playlists of the same id. *)
Definition youtube_failing : YouTube.t :=
  YouTube.Build
    (ListingPage [PlaylistResource.Build "PL1" "Winter camping trips" None 12]
       (Some (ListingFails HttpError)))
    (YouTube.playlistItems Sample.youtube) (YouTube.channels Sample.youtube).

Definition scraper_failing : Scraper.t :=
  OutdoorBoysScraper youtube_failing Sample.transcripts Sample.model_tips (Some "sk-test").

(** A model whose first two answers are fine and whose later answers are
    the JSON array [[]]. *)
Definition model_fails_later : Anthropic :=
  fun n prompt =>
    if (n <? 2)%nat then Sample.model_tips n prompt else Text (Some (VList [])).

(** A channel id that matches nothing: the response has no ['items']. *)
Definition scraper_no_channel : Scraper.t :=
  OutdoorBoysScraper
    (YouTube.Build Sample.playlists_page (YouTube.playlistItems Sample.youtube) (Ok None))
    Sample.transcripts Sample.model_tips (Some "sk-test").

Definition twice : list Playlist.t :=
  [Playlist.Build "PL1" "Winter camping trips" "" 12 "winter_survival";
   Playlist.Build "PL2" "Catch and cook" "" 7 "fishing";
   Playlist.Build "PL1" "Cabin builds" "renamed" 3 "building"].

End Cases.

(** The fields of an extraction whose items must be strings, and all the
    fields the turn reads. *)
Definition text_fields : list string :=
  ["survival_tips"; "building_techniques"; "life_lessons"; "fishing_tips"; "dad_jokes"].

Definition read_fields : list string :=
  (text_fields ++ ["gear_recommendations"; "recipes"; "businesses_mentioned"])%list.

(** The exceptions the making of one record raises, and those a turn
    of the video loop raises. *)
Definition item_exception (e : exn) : Prop :=
  e = AttributeError \/ e = UnicodeEncodeError.

Definition turn_exception (e : exn) : Prop :=
  e = AttributeError \/ e = TypeError \/ e = UnicodeEncodeError.

(** Whether [for item in x] can start. *)
Definition iterable (x : value) : bool :=
  match Py.iter x with
  | Ok _ => true
  | Raise _ => false
  end.

(** * Properties *)

(** ** Checks of the string and hash functions against Python *)

Example md5_empty : MD5.hexdigest [] = "d41d8cd98f00b204e9800998ecf8427e"%string.
Proof. vm_compute. reflexivity. Qed.

Example md5_abc : MD5.hexdigest (PyStr.encode "abc") = "900150983cd24fb0d6963f7d28e17f72"%string.
Proof. vm_compute. reflexivity. Qed.

Example generate_id_Acme : generate_id "Acme" = "79d894520f4f"%string.
Proof. vm_compute. reflexivity. Qed.

Example generate_id_tip :
  generate_id "drink the first melt, not the ice" = "955c16aeb86a"%string.
Proof. vm_compute. reflexivity. Qed.

Example generate_id_latin1 :
  generate_id (String (PyStr.chr 233) EmptyString) = "66ddcd97cfde"%string.
Proof. vm_compute. reflexivity. Qed.

Example str_of_list :
  Py.str (VList [VInt 1; VStr "a"; VNone; VBool true; VDict [("k"%string, VList [VInt (-2)])]])
  = VStr "[1, 'a', None, True, {'k': [-2]}]".
Proof. reflexivity. Qed.

Example repr_quotes :
  Py.repr (VStr "it's") = String Py.dquote ("it's" ++ String Py.dquote "")%string.
Proof. reflexivity. Qed.

(** ** Substring search *)

Lemma startswith_append (p s : string) :
  PyStr.startswith p s = true <-> exists post, s = p ++ post.
Proof.
  revert s. induction p as [| a p IH]; intros s; simpl.
  - split; [intros _; exists s; reflexivity | reflexivity].
  - destruct s as [| b s].
    + split; [discriminate | intros [post H]; discriminate].
    + rewrite andb_true_iff, Ascii.eqb_eq, IH. split.
      * intros [-> [post ->]]. exists post. reflexivity.
      * intros [post H]. injection H as -> ->. split; [reflexivity | eauto].
Qed.

Lemma contains_occurs (kw text : string) :
  PyStr.contains kw text = true <-> PyStr.occurs kw text.
Proof.
  unfold PyStr.occurs. induction text as [| c t IH].
  - simpl. rewrite orb_false_r, startswith_append. split.
    + intros [post H]. exists "", post. exact H.
    + intros [pre [post H]]. destruct pre; [eauto | discriminate].
  - change (PyStr.contains kw (String c t))
      with (PyStr.startswith kw (String c t) || PyStr.contains kw t)%bool.
    rewrite orb_true_iff, startswith_append, IH. split.
    + intros [[post H] | [pre [post H]]].
      * exists "", post. exact H.
      * exists (String c pre), post. simpl. rewrite H. reflexivity.
    + intros [pre [post H]]. destruct pre as [| c' pre]; simpl in H.
      * left. eauto.
      * right. injection H as _ H. eauto.
Qed.

Lemma existsb_hit (keywords : list string) (text : string) :
  existsb (fun kw => PyStr.contains kw text) keywords = true <-> hit keywords text.
Proof.
  unfold hit. rewrite existsb_exists. split; intros [kw [Hin H]]; exists kw;
    (split; [exact Hin | apply contains_occurs; exact H]).
Qed.

(** The loop over a table answers the first entry with a hit, and
    ["general"] when no entry has one. *)
Lemma first_category_spec (table : list (string * list string)) (text : string) :
  (exists before category keywords after,
      table = (before ++ (category, keywords) :: after)%list /\
      hit keywords text /\
      (forall c ks, In (c, ks) before -> ~ hit ks text) /\
      first_category table text = category)
  \/ ((forall c ks, In (c, ks) table -> ~ hit ks text) /\
      first_category table text = "general").
Proof.
  induction table as [| [category keywords] rest IH]; simpl.
  - right. split; [intros c ks [] | reflexivity].
  - destruct (existsb (fun kw => PyStr.contains kw text) keywords) eqn:E.
    + left. exists [], category, keywords, rest. simpl.
      apply existsb_hit in E. repeat split; try assumption. intros c ks [].
    + assert (Hno : ~ hit keywords text).
      { intros H. apply existsb_hit in H. congruence. }
      destruct IH as [(before & c' & ks' & after & -> & Hhit & Hbefore & Hres) | [Hnone Hres]].
      * left. exists ((category, keywords) :: before), c', ks', after. simpl.
        repeat split; try assumption.
        intros c ks [H | H]; [injection H as <- <-; exact Hno | eauto].
      * right. split; [| exact Hres].
        intros c ks [H | H]; [injection H as <- <-; exact Hno | eauto].
Qed.

(** A hit in some entry bounds the answer: it is the category of that
    entry or of an earlier one. *)
Lemma first_category_not_later (before after : list (string * list string))
    (category : string) (keywords : list string) (text : string) :
  hit keywords text ->
  In (first_category (before ++ (category, keywords) :: after) text)
     (map fst before ++ [category]).
Proof.
  intros Hhit. induction before as [| [c ks] before IH]; simpl.
  - apply existsb_hit in Hhit. rewrite Hhit. left. reflexivity.
  - destruct (existsb (fun kw => PyStr.contains kw text) ks).
    + left. reflexivity.
    + right. exact IH.
Qed.

(** C3.  [_infer_category] lower-cases the title, a space and the
    description, and answers the first category of the keyword table one of
    whose keywords occurs in that text, or ["general"] when no keyword of
    any category occurs.  It is a total function, so equal inputs give
    equal answers; and when a keyword of some category occurs, no category
    listed after it in the table is answered. *)
Theorem infer_category_first_match (title description : string) :
  let text := PyStr.lower (title ++ " " ++ description) in
  ((exists before category keywords after,
       CATEGORY_KEYWORDS = (before ++ (category, keywords) :: after)%list /\
       hit keywords text /\
       (forall c ks, In (c, ks) before -> ~ hit ks text) /\
       _infer_category title description = category)
   \/ ((forall c ks, In (c, ks) CATEGORY_KEYWORDS -> ~ hit ks text) /\
       _infer_category title description = "general"))
  /\ (forall before category keywords after,
       CATEGORY_KEYWORDS = (before ++ (category, keywords) :: after)%list ->
       hit keywords text ->
       In (_infer_category title description) (map fst before ++ [category]))
  /\ NoDup (map fst CATEGORY_KEYWORDS)
  /\ _infer_category "Winter fishing trip" "" = "winter_survival"
  /\ _infer_category "Fishing in winter" "" = "winter_survival"
  /\ _infer_category "ALASKA" "Big Salmon" = "fishing"
  /\ _infer_category "Quiet day" "" = "general".
Proof.
  intros text. split; [| split; [| split]].
  - exact (first_category_spec CATEGORY_KEYWORDS text).
  - intros before category keywords after Htable Hhit.
    unfold _infer_category. fold text. rewrite Htable.
    apply first_category_not_later. exact Hhit.
  - simpl. repeat constructor; simpl; intuition discriminate.
  - repeat split; reflexivity.
Qed.

(** ** Loops that append *)

Section Appending.

Context {R : Type}.

Lemma for_each_appends body emit (items : list value) (acc : list R) :
  appends body emit ->
  for_each body items acc = (rs <- gather emit items ;; Ok (acc ++ rs)%list).
Proof.
  intros Happ. revert acc. induction items as [| x rest IH]; intros acc; simpl.
  - rewrite app_nil_r. reflexivity.
  - rewrite Happ. destruct (emit x) as [rs | e]; simpl; [| reflexivity].
    rewrite IH. destruct (gather emit rest) as [rs' | e]; simpl; [| reflexivity].
    rewrite app_assoc. reflexivity.
Qed.

Lemma loop_over_appends body emit (source : result value) (acc : list R) :
  appends body emit ->
  loop_over source body acc =
  (x <- source ;; items <- Py.iter x ;; rs <- gather emit items ;; Ok (acc ++ rs)%list).
Proof.
  intros Happ. unfold loop_over. destruct source as [x | e]; simpl; [| reflexivity].
  destruct (Py.iter x) as [items | e]; simpl; [| reflexivity].
  apply for_each_appends. exact Happ.
Qed.

Lemma gather_Forall (P : R -> Prop) (emit : value -> result (list R))
    (items : list value) (rs : list R) :
  (forall x r, emit x = Ok r -> Forall P r) ->
  gather emit items = Ok rs -> Forall P rs.
Proof.
  intros Hemit. revert rs. induction items as [| x rest IH]; intros rs; simpl.
  - intros H. injection H as <-. constructor.
  - destruct (emit x) as [r | e] eqn:E; simpl; [| discriminate].
    destruct (gather emit rest) as [r' | e]; simpl; [| discriminate].
    intros H. injection H as <-. apply Forall_app. split; eauto.
Qed.

End Appending.

Lemma dict_get_lookup (d : list (string * value)) (key : string) (default : value) :
  dict_get d key default =
  match dict_lookup d key with
  | Some v => v
  | None => default
  end.
Proof.
  unfold dict_lookup. induction d as [| [k v] rest IH]; simpl; [reflexivity |].
  destruct (String.eqb k key); [reflexivity | exact IH].
Qed.

Lemma append_one_neq {A : Type} (l : list A) (x : A) : (l ++ [x])%list <> l.
Proof.
  intros H. apply (f_equal (@length A)) in H. rewrite length_app in H. simpl in H. lia.
Qed.

(** ** What each loop body emits *)

Section EmitterFacts.

Variable video : Video.t.

Lemma add_survival_tip_appends category :
  appends (add_survival_tip video category)
          (emit_fact video "survival_tip" category ["survival"; category]).
Proof. intros acc x. unfold add_survival_tip, emit_fact. destruct (generate_id_of x); reflexivity. Qed.

Lemma add_building_technique_appends :
  appends (add_building_technique video)
          (emit_fact video "building_technique" "building" ["building"; "construction"]).
Proof. intros acc x. unfold add_building_technique, emit_fact. destruct (generate_id_of x); reflexivity. Qed.

Lemma add_life_lesson_appends :
  appends (add_life_lesson video)
          (emit_fact video "life_lesson" "life_lessons" ["wisdom"; "philosophy"]).
Proof. intros acc x. unfold add_life_lesson, emit_fact. destruct (generate_id_of x); reflexivity. Qed.

Lemma add_fishing_tip_appends :
  appends (add_fishing_tip video) (emit_fact video "fishing_tip" "fishing" ["fishing"]).
Proof. intros acc x. unfold add_fishing_tip, emit_fact. destruct (generate_id_of x); reflexivity. Qed.

Lemma add_gear_appends : appends (add_gear video) (emit_gear video).
Proof.
  intros acc x. unfold add_gear, emit_gear.
  destruct (generate_id_of (gear_content x)); reflexivity.
Qed.

Lemma add_joke_appends : appends (add_joke video) (emit_joke video).
Proof. intros acc x. unfold add_joke, emit_joke. destruct (generate_id_of x); reflexivity. Qed.

Lemma add_recipe_appends : appends (add_recipe video) (emit_recipe video).
Proof.
  intros acc x. unfold emit_recipe, add_recipe. destruct x; simpl;
    try (rewrite app_nil_r; reflexivity).
  destruct (generate_id_of _); reflexivity.
Qed.

Lemma add_business_appends described :
  appends (add_business video described) (emit_business video described).
Proof.
  intros acc x. unfold emit_business, add_business. destruct x; simpl;
    try (rewrite app_nil_r; reflexivity).
  destruct (Py.truthy _); simpl; [| rewrite app_nil_r; reflexivity].
  destruct (generate_id_of _); reflexivity.
Qed.

End EmitterFacts.

(** ** The video loop *)



(** ** Business items *)

Lemma add_business_named video described acc d name :
  dict_lookup d "name" = Some (VStr name) -> name <> "" ->
  add_business video described acc (VDict d)
  = Ok (acc ++ [business_of video described d name])%list.
Proof.
  intros Hname Hne. unfold add_business, business_of.
  rewrite !(dict_get_lookup d "name"), Hname. simpl.
  destruct (String.eqb_spec name ""); [contradiction | reflexivity].
Qed.

Lemma add_business_cases video described acc biz :
  (exists d name, biz = VDict d /\ dict_lookup d "name" = Some (VStr name) /\
     name <> "" /\
     add_business video described acc biz
     = Ok (acc ++ [business_of video described d name])%list)
  \/ add_business video described acc biz = Ok acc
  \/ (exists d v, biz = VDict d /\ dict_lookup d "name" = Some v /\
        Py.truthy v = true /\ (forall s, v <> VStr s) /\
        exists e, generate_id_of v = Raise e /\
                  add_business video described acc biz = Raise e).
Proof.
  destruct biz as [| b | n | shown nz | s | items | d | sb sl sa];
    try (right; left; reflexivity).
  unfold add_business. rewrite !(dict_get_lookup d "name").
  destruct (dict_lookup d "name") as [v |] eqn:Hname; [| right; left; reflexivity].
  destruct (Py.truthy v) eqn:Htruthy; [| right; left; reflexivity].
  destruct v as [| b | n | shown nz | s | items | d' | sb sl sa]; simpl in Htruthy; try discriminate;
    try (right; right; eexists; eexists;
         split; [reflexivity |]; split; [exact Hname |];
         split; [first [reflexivity | exact Htruthy] |];
         split; [intros s' Hs'; discriminate |];
         eexists; split; reflexivity).
  left. exists d, s. split; [reflexivity |]. split; [exact Hname |].
  split; [intros ->; discriminate |].
  reflexivity.
Qed.

(** C10, as the code has it.  In both business loops a record is
    appended for an item exactly when the item is a mapping whose ['name']
    is a str that is not empty and can be encoded (a [VStr]: it holds no
    lone surrogate); an item that is not a mapping, and a mapping whose name
    is missing or false ([null], [false], zero, an empty str, list or
    mapping), leaves the collection as it was. *)
Theorem business_appended_iff_named (video : Video.t) (acc : list Business.t)
    (biz : value) :
  let named := exists d name, biz = VDict d /\
                 dict_lookup d "name" = Some (VStr name) /\ name <> "" in
  let dropped := Py.is_dict biz = false \/
                 exists d, biz = VDict d /\
                   (dict_lookup d "name" = None \/
                    exists v, dict_lookup d "name" = Some v /\ Py.truthy v = false) in
  ((exists b, add_mentioned_business video acc biz = Ok (acc ++ [b])%list) <-> named) /\
  ((exists b, add_description_business video acc biz = Ok (acc ++ [b])%list) <-> named) /\
  (dropped -> add_mentioned_business video acc biz = Ok acc /\
              add_description_business video acc biz = Ok acc).
Proof.
  intros named dropped. subst named dropped.
  assert (Hiff : forall described,
             (exists b, add_business video described acc biz = Ok (acc ++ [b])%list) <->
             (exists d name, biz = VDict d /\
                dict_lookup d "name" = Some (VStr name) /\ name <> "")).
  { intros described. split.
    - intros [b Hb].
      destruct (add_business_cases video described acc biz)
        as [(d & name & -> & Hname & Hne & _) | [Hsame | (d & v & _ & _ & _ & _ & e' & _ & Hraise)]].
      + exists d, name. auto.
      + rewrite Hsame in Hb. injection Hb as Hb. symmetry in Hb.
        apply append_one_neq in Hb. contradiction.
      + rewrite Hraise in Hb. discriminate.
    - intros (d & name & Hbiz & Hname & Hne). rewrite Hbiz.
      exists (business_of video described d name).
      apply add_business_named; assumption. }
  split; [apply Hiff | split; [apply Hiff |]].
  assert (Hdrop : forall described,
             Py.is_dict biz = false \/
             (exists d, biz = VDict d /\
                (dict_lookup d "name" = None \/
                 exists v, dict_lookup d "name" = Some v /\ Py.truthy v = false)) ->
             add_business video described acc biz = Ok acc).
  { intros described [Hnot | (d & -> & Hname)].
    - destruct biz; try reflexivity. discriminate.
    - unfold add_business. rewrite !(dict_get_lookup d "name").
      destruct Hname as [-> | (v & -> & ->)]; reflexivity. }
  intros H. split; apply Hdrop; exact H.
Qed.

Lemma business_appended_iff_named_witness :
  add_mentioned_business Sample.video1 [] (VStr "Acme Charters") = Ok [] /\
  add_description_business Sample.video1 [] (VDict [("name", VList [])]) = Ok [].
Proof.
  split.
  - apply (business_appended_iff_named Sample.video1 [] (VStr "Acme Charters")).
    left. reflexivity.
  - apply (business_appended_iff_named Sample.video1 [] (VDict [("name", VList [])])).
    right. exists [("name", VList [])]. split; [reflexivity |].
    right. exists (VList []). split; reflexivity.
Defined.

(** C10 does not hold as stated: a mapping whose name is the number 5 has
    a name that is present and not empty, but no record is appended for it
    and it is not dropped either: the id generator raises, in both loops,
    and the run ends there. *)
Lemma numeric_name_counterexample :
  Py.is_dict (VDict [("name", VInt 5)]) = true /\
  dict_lookup [("name", VInt 5)] "name" = Some (VInt 5) /\
  Py.truthy (VInt 5) = true /\
  add_mentioned_business Sample.video1 [] (VDict [("name", VInt 5)])
  = Raise AttributeError /\
  add_description_business Sample.video1 [] (VDict [("name", VInt 5)])
  = Raise AttributeError /\
  build_knowledge_base (Sample.scraper Sample.model_numeric_name) Sample.now 3
  = Raise AttributeError.
Proof. repeat split. Qed.

(** ** Gear and recipe items *)

(** C2, as the code has it.  A gear item that is not a mapping is turned
    into its [str], and when that str can be encoded (it holds no lone
    surrogate) a gear fact is appended for it; a recipe item that is not a
    mapping is skipped, and the recipes collection stays as it was. *)
Theorem non_mapping_gear_kept_recipe_skipped (video : Video.t)
    (all_facts : list Fact.t) (all_recipes : list Recipe.t) (item : value) :
  Py.is_dict item = false ->
  (has_lone_surrogate item = false ->
   exists content,
     Py.str item = VStr content /\
     add_gear video all_facts item
     = Ok (all_facts ++ [gear_fact_of video content])%list) /\
  add_recipe video all_recipes item = Ok all_recipes.
Proof.
  intros Hnot. split.
  - intros Hplain.
    destruct item as [| b | n | shown nz | s | l | d | sb sl sa]; try discriminate;
      eexists; split; reflexivity.
  - destruct item; try discriminate; reflexivity.
Qed.

Lemma non_mapping_gear_kept_recipe_skipped_witness :
  add_gear Sample.video1 [] (VList [VStr "wool"; VInt 2])
  = Ok [gear_fact_of Sample.video1 "['wool', 2]"] /\
  add_recipe Sample.video1 [] (VList [VStr "wool"; VInt 2]) = Ok [].
Proof.
  destruct (non_mapping_gear_kept_recipe_skipped Sample.video1 [] []
              (VList [VStr "wool"; VInt 2]) eq_refl) as [Hgear Hrecipe].
  split; [| exact Hrecipe].
  destruct (Hgear eq_refl) as (content & Hstr & Hadd).
  injection Hstr as <-. exact Hadd.
Defined.

(** C2 does not hold for recipes: the model answers the recipes
    ["pancakes"] (a string) and a mapping named "Trout chowder"; the string
    is not a mapping, and no recipe record is made of it. *)
Lemma string_recipe_is_dropped :
  Py.is_dict (VStr "pancakes") = false /\
  add_recipe Sample.video1 [] (VStr "pancakes") = Ok [] /\
  dict_get [("recipes", VList [VStr "pancakes"; VDict [("name", VStr "Trout chowder")]])]
    "recipes" (VList [])
  = VList [VStr "pancakes"; VDict [("name", VStr "Trout chowder")]] /\
  exists out,
    build_knowledge_base (Sample.scraper Sample.model_mixed) Sample.now 1 = Ok out /\
    map Recipe.name (Output.recipes out) = [VStr "Trout chowder"] /\
    map Fact.content (Output.facts out)
    = [VStr "wool socks"; VStr "Axe: splitting wood - "].
Proof.
  split; [reflexivity |]. split; [reflexivity |]. split; [reflexivity |].
  eexists. split; [vm_compute; reflexivity |]. split; reflexivity.
Qed.

(** ** Record ids *)

(** C4.  [generate_id] is a function of the content: equal contents have
    equal ids.  A record appended by the loop over the businesses of the
    transcript and one appended by the loop over the businesses of the
    description have equal ids whenever their names are equal, so their ids
    differ only if their names do; and the second loop appends its record
    whatever the collection already holds: records of the same name are
    not merged. *)
Theorem business_ids_follow_names (video1 video2 : Video.t)
    (acc1 acc2 : list Business.t) (biz1 biz2 : value) (b1 b2 : Business.t) :
  add_mentioned_business video1 acc1 biz1 = Ok (acc1 ++ [b1])%list ->
  add_description_business video2 acc2 biz2 = Ok (acc2 ++ [b2])%list ->
  (forall c1 c2 : string, c1 = c2 -> generate_id c1 = generate_id c2) /\
  (exists name1 name2,
      Business.name b1 = VStr name1 /\ Business.id b1 = generate_id name1 /\
      Business.name b2 = VStr name2 /\ Business.id b2 = generate_id name2) /\
  (Business.name b1 = Business.name b2 -> Business.id b1 = Business.id b2) /\
  (Business.id b1 <> Business.id b2 -> Business.name b1 <> Business.name b2) /\
  (forall acc, add_description_business video2 (acc ++ [b1]) biz2
               = Ok ((acc ++ [b1]) ++ [b2])%list).
Proof.
  unfold add_mentioned_business, add_description_business. intros H1 H2.
  assert (Hshape : forall video described acc biz b,
             add_business video described acc biz = Ok (acc ++ [b])%list ->
             exists d name, biz = VDict d /\ dict_lookup d "name" = Some (VStr name) /\
               name <> "" /\ b = business_of video described d name).
  { intros video described acc biz b Hb.
    destruct (add_business_cases video described acc biz)
      as [(d & name & -> & Hname & Hne & Heq) | [Hsame | (d & v & _ & _ & _ & _ & e' & _ & Hraise)]].
    - exists d, name. repeat split; try assumption.
      rewrite Heq in Hb. injection Hb as Hb. apply app_inv_head in Hb.
      injection Hb as <-. reflexivity.
    - rewrite Hsame in Hb. injection Hb as Hb. symmetry in Hb.
      apply append_one_neq in Hb. contradiction.
    - rewrite Hraise in Hb. discriminate. }
  destruct (Hshape _ _ _ _ _ H1) as (d1 & name1 & -> & Hname1 & Hne1 & ->).
  destruct (Hshape _ _ _ _ _ H2) as (d2 & name2 & -> & Hname2 & Hne2 & ->).
  split; [intros c1 c2 ->; reflexivity |].
  split; [exists name1, name2; repeat split |].
  assert (Hnames : Business.name (business_of video1 "Mentioned in " d1 name1)
                   = Business.name (business_of video2 "From video description: " d2 name2) ->
                   Business.id (business_of video1 "Mentioned in " d1 name1)
                   = Business.id (business_of video2 "From video description: " d2 name2)).
  { simpl. intros H. injection H as ->. reflexivity. }
  split; [exact Hnames |]. split; [intros Hid Hn; apply Hid, Hnames, Hn |].
  intros acc. apply add_business_named; assumption.
Qed.

Lemma business_ids_follow_names_witness :
  exists b1 b2,
    add_mentioned_business Sample.video1 [] Sample.acme = Ok [b1] /\
    add_description_business Sample.video2 [] Sample.acme = Ok [b2] /\
    Business.id b1 = Business.id b2 /\
    add_description_business Sample.video2 [b1] Sample.acme = Ok [b1; b2].
Proof.
  exists (business_of Sample.video1 "Mentioned in "
            [("name", VStr "Acme Charters"); ("type", VStr "charter")] "Acme Charters"),
         (business_of Sample.video2 "From video description: "
            [("name", VStr "Acme Charters"); ("type", VStr "charter")] "Acme Charters").
  split; [reflexivity |]. split; [reflexivity |].
  pose proof (business_ids_follow_names Sample.video1 Sample.video2 [] []
                Sample.acme Sample.acme _ _ eq_refl eq_refl) as (_ & _ & Hsame & _ & Hmerge).
  split; [apply Hsame; reflexivity | apply (Hmerge [])].
Defined.

(** ** One turn of the video loop *)

Lemma loop_over_field {R : Type} (body : list R -> value -> result (list R))
    (emit : value -> result (list R)) (d : list (string * value)) (key : string)
    (acc : list R) :
  appends body emit ->
  loop_over (Py.get (VDict d) key (VList [])) body acc
  = (rs <- gathered d key emit ;; Ok (acc ++ rs)%list).
Proof.
  intros Happ. rewrite (loop_over_appends body emit _ acc Happ).
  unfold gathered. simpl. destruct (Py.iter _); reflexivity.
Qed.

(** What a turn does with an extraction that is a mapping: each of the
    eight loops adds the records gathered from its field. *)
Lemma aggregate_extracted_mapping (video : Video.t) (d : list (string * value))
    (category : string) (kb : KB.t) :
  aggregate_extracted video (VDict d) category kb =
  (tips <- gathered d "survival_tips"
             (emit_fact video "survival_tip" category ["survival"; category]) ;;
   techs <- gathered d "building_techniques"
              (emit_fact video "building_technique" "building" ["building"; "construction"]) ;;
   lessons <- gathered d "life_lessons"
                (emit_fact video "life_lesson" "life_lessons" ["wisdom"; "philosophy"]) ;;
   fishing <- gathered d "fishing_tips"
                (emit_fact video "fishing_tip" "fishing" ["fishing"]) ;;
   gear <- gathered d "gear_recommendations" (emit_gear video) ;;
   jokes <- gathered d "dad_jokes" (emit_joke video) ;;
   recipes <- gathered d "recipes" (emit_recipe video) ;;
   businesses <- gathered d "businesses_mentioned"
                   (emit_business video "Mentioned in ") ;;
   Ok (KB.Build
         (KB.all_facts kb ++ tips ++ techs ++ lessons ++ fishing ++ gear)
         (KB.all_businesses kb ++ businesses)
         (KB.all_jokes kb ++ jokes)
         (KB.all_recipes kb ++ recipes)
         (KB.calls kb))%list).
Proof.
  unfold aggregate_extracted.
  rewrite (loop_over_field _ _ d "survival_tips" _ (add_survival_tip_appends video category)).
  destruct (gathered d "survival_tips" _) as [tips | e]; cbn [Py.bind]; [| reflexivity].
  rewrite (loop_over_field _ _ d "building_techniques" _ (add_building_technique_appends video)).
  destruct (gathered d "building_techniques" _) as [techs | e]; cbn [Py.bind]; [| reflexivity].
  rewrite (loop_over_field _ _ d "life_lessons" _ (add_life_lesson_appends video)).
  destruct (gathered d "life_lessons" _) as [lessons | e]; cbn [Py.bind]; [| reflexivity].
  rewrite (loop_over_field _ _ d "fishing_tips" _ (add_fishing_tip_appends video)).
  destruct (gathered d "fishing_tips" _) as [fishing | e]; cbn [Py.bind]; [| reflexivity].
  rewrite (loop_over_field _ _ d "gear_recommendations" _ (add_gear_appends video)).
  destruct (gathered d "gear_recommendations" _) as [gear | e]; cbn [Py.bind]; [| reflexivity].
  rewrite (loop_over_field _ _ d "dad_jokes" _ (add_joke_appends video)).
  destruct (gathered d "dad_jokes" _) as [jokes | e]; cbn [Py.bind]; [| reflexivity].
  rewrite (loop_over_field _ _ d "recipes" _ (add_recipe_appends video)).
  destruct (gathered d "recipes" _) as [recipes | e]; cbn [Py.bind]; [| reflexivity].
  unfold add_mentioned_business.
  rewrite (loop_over_field _ _ d "businesses_mentioned" _
             (add_business_appends video "Mentioned in ")).
  destruct (gathered d "businesses_mentioned" _) as [businesses | e]; cbn [Py.bind]; [| reflexivity].
  rewrite <- !app_assoc. reflexivity.
Qed.

(** An extraction that is not a mapping stops the run at the first field
    read. *)
Lemma aggregate_extracted_not_mapping (video : Video.t) (extracted : value)
    (category : string) (kb : KB.t) :
  Py.is_dict extracted = false ->
  aggregate_extracted video extracted category kb = Raise AttributeError.
Proof. intros H. destruct extracted; try discriminate; reflexivity. Qed.

Lemma aggregate_description_gathered (video : Video.t) (desc_businesses : value)
    (kb : KB.t) :
  aggregate_description video desc_businesses kb =
  (items <- Py.iter desc_businesses ;;
   businesses <- gather (emit_business video "From video description: ") items ;;
   Ok (KB.Build (KB.all_facts kb) (KB.all_businesses kb ++ businesses)
         (KB.all_jokes kb) (KB.all_recipes kb) (KB.calls kb))%list).
Proof.
  unfold aggregate_description, add_description_business.
  rewrite (loop_over_appends _ _ _ _
             (add_business_appends video "From video description: ")).
  simpl. destruct (Py.iter desc_businesses); simpl; [| reflexivity].
  destruct (gather _ _); reflexivity.
Qed.

Lemma aggregate_empty_extraction (video : Video.t) (category : string) (kb : KB.t) :
  aggregate_extracted video empty_extraction category kb = Ok kb.
Proof. destruct kb. reflexivity. Qed.

Lemma aggregate_no_description_business (video : Video.t) (kb : KB.t) :
  aggregate_description video (VList []) kb = Ok kb.
Proof. destruct kb. reflexivity. Qed.

Lemma set_calls_same (kb : KB.t) : set_calls kb (KB.calls kb) = kb.
Proof. destruct kb. reflexivity. Qed.

Lemma emit_business_described (video : Video.t) (described : string) (biz : value)
    (rs : list Business.t) :
  emit_business video described biz = Ok rs ->
  Forall (fun b => Business.description b = described ++ Video.title video) rs.
Proof.
  unfold emit_business. intros H.
  destruct (add_business_cases video described [] biz)
    as [(d & name & _ & _ & _ & Heq) | [Hsame | (d & v & _ & _ & _ & _ & e' & _ & Hraise)]].
  - rewrite Heq in H. injection H as <-. repeat constructor.
  - rewrite Hsame in H. injection H as <-. constructor.
  - rewrite Hraise in H. discriminate.
Qed.

(** ** Failed and malformed model replies *)

(** C1, as the code has it.  Take a video with a transcript and a
    configured language model whose reply to the transcript prompt is a
    failure or text that is not JSON.  Then [extract_facts_with_llm]
    answers the empty default, and the turn for the video is the loop over
    the businesses of the description alone: it adds no fact, joke or
    recipe, the collections built from earlier videos are kept in front,
    and every business it adds is one drawn from the description.  When the
    reply to the description prompt is a failure or not JSON either, no
    collection changes and the loop goes on with the next video. *)
Theorem unusable_reply_gives_empty_extraction (scraper : Scraper.t)
    (client : Anthropic) (video : Video.t) (kb : KB.t) (td : Transcript.t)
    (rest : list Video.t) :
  Scraper.anthropic scraper = Some client ->
  get_transcript scraper (Video.video_id video) = Some td ->
  unusable (client (KB.calls kb) (facts_prompt video (Transcript.full_text td))) ->
  let calls1 := S (KB.calls kb) in
  let description_reply := client calls1 (BusinessPrompt (Video.description video)) in
  extract_facts_with_llm scraper (KB.calls kb) video (Transcript.full_text td)
  = (empty_extraction, calls1) /\
  process_video video scraper kb
  = aggregate_description video
      (fst (extract_businesses_from_description scraper calls1 (Video.description video)))
      (set_calls kb (S calls1)) /\
  (forall kb', process_video video scraper kb = Ok kb' ->
     KB.all_facts kb' = KB.all_facts kb /\
     KB.all_jokes kb' = KB.all_jokes kb /\
     KB.all_recipes kb' = KB.all_recipes kb /\
     exists added,
       KB.all_businesses kb' = (KB.all_businesses kb ++ added)%list /\
       Forall (fun b => Business.description b
                        = "From video description: " ++ Video.title video) added) /\
  (unusable description_reply ->
     process_video video scraper kb = Ok (set_calls kb (S calls1)) /\
     run_videos scraper (video :: rest) kb
     = run_videos scraper rest (set_calls kb (S calls1))).
Proof.
  intros Hclient Htd Hreply calls1 description_reply.
  assert (Hextract :
            extract_facts_with_llm scraper (KB.calls kb) video (Transcript.full_text td)
            = (empty_extraction, calls1)).
  { unfold extract_facts_with_llm. rewrite Hclient.
    destruct Hreply as [-> | ->]; reflexivity. }
  assert (Hsnd : snd (extract_businesses_from_description scraper calls1
                        (Video.description video)) = S calls1).
  { unfold extract_businesses_from_description. rewrite Hclient.
    destruct (client calls1 _) as [| [parsed |]]; reflexivity. }
  assert (Hturn :
            process_video video scraper kb
            = aggregate_description video
                (fst (extract_businesses_from_description scraper calls1
                        (Video.description video)))
                (set_calls kb (S calls1))).
  { unfold process_video. rewrite Htd, Hextract, aggregate_empty_extraction.
    cbn [Py.bind].
    destruct (extract_businesses_from_description scraper calls1 (Video.description video))
      as [desc_businesses calls2] eqn:E.
    simpl in Hsnd. subst calls2. destruct kb. reflexivity. }
  split; [exact Hextract |]. split; [exact Hturn |]. split.
  - intros kb' Hok. rewrite Hturn, aggregate_description_gathered in Hok.
    destruct (Py.iter _) as [items | e]; [| discriminate]. cbn [Py.bind] in Hok.
    destruct (gather _ items) as [added | e] eqn:Hadded; [| discriminate].
    injection Hok as <-. destruct kb. simpl. repeat split.
    exists added. split; [reflexivity |].
    apply (gather_Forall _ _ _ _ (emit_business_described video _) Hadded).
  - intros Hdesc.
    assert (Hnone : fst (extract_businesses_from_description scraper calls1
                           (Video.description video)) = VList []).
    { unfold extract_businesses_from_description. rewrite Hclient.
      fold description_reply. destruct Hdesc as [-> | ->]; reflexivity. }
    assert (Hok : process_video video scraper kb = Ok (set_calls kb (S calls1))).
    { rewrite Hturn, Hnone. apply aggregate_no_description_business. }
    split; [exact Hok |]. unfold run_videos. simpl. rewrite Hok. reflexivity.
Qed.

Lemma unusable_reply_gives_empty_extraction_witness :
  process_video Sample.video1 (Sample.scraper Sample.model_down) Sample.earlier
  = Ok (set_calls Sample.earlier 4).
Proof.
  destruct (get_transcript (Sample.scraper Sample.model_down) "vid1") as [td |] eqn:Htd;
    [| discriminate].
  apply (unusable_reply_gives_empty_extraction (Sample.scraper Sample.model_down)
           Sample.model_down Sample.video1 Sample.earlier td []).
  - reflexivity.
  - exact Htd.
  - left. reflexivity.
  - left. reflexivity.
Defined.

(** C1 does not hold as stated.  With a model whose reply to the
    transcript prompt is not JSON, the turn for the first sample video
    still adds a business, taken from the description.  And with a model
    whose reply parses as the JSON array [[]], which is not a mapping,
    reading the first field raises and the run ends without a result. *)
Lemma malformed_reply_counterexample :
  let prompt := facts_prompt Sample.video1
                  "when the lake is frozen drink the first melt" in
  (Sample.model_malformed 0%nat prompt = Text None /\
   exists b,
     process_video Sample.video1 (Sample.scraper Sample.model_malformed) empty_kb
     = Ok (KB.Build [] [b] [] [] 2%nat) /\
     Business.name b = VStr "Acme Charters") /\
  (Sample.model_array 0%nat prompt = Text (Some (VList [])) /\
   Py.is_dict (VList []) = false /\
   process_video Sample.video1 (Sample.scraper Sample.model_array) empty_kb
   = Raise AttributeError /\
   build_knowledge_base (Sample.scraper Sample.model_array) Sample.now 3
   = Raise AttributeError).
Proof.
  split.
  - split; [reflexivity |]. eexists. split; [vm_compute; reflexivity | reflexivity].
  - repeat split; vm_compute; reflexivity.
Qed.

(** ** Survival tips *)

Lemma gather_emit_fact (video : Video.t) (type category : string) (tags : list string)
    (items : list value) (rs : list Fact.t) :
  gather (emit_fact video type category tags) items = Ok rs ->
  exists contents,
    items = map VStr contents /\
    rs = map (fun s => Fact.Build (generate_id s) type (VStr s) category
                         (Video.video_id video) (Video.title video) tags) contents.
Proof.
  revert rs. induction items as [| x rest IH]; intros rs; simpl.
  - intros H. injection H as <-. exists []. split; reflexivity.
  - destruct x as [| b | n | shown nz | s | l | d | sb sl sa]; simpl; try discriminate.
    destruct (gather _ rest) as [rs' |] eqn:E; simpl; [| discriminate].
    intros H. injection H as <-.
    destruct (IH rs' eq_refl) as (contents & -> & ->).
    exists (s :: contents). split; reflexivity.
Qed.

Lemma gather_strings (video : Video.t) (type category : string) (tags : list string)
    (contents : list string) :
  gather (emit_fact video type category tags) (map VStr contents)
  = Ok (map (fun s => Fact.Build (generate_id s) type (VStr s) category
                        (Video.video_id video) (Video.title video) tags) contents).
Proof.
  induction contents as [| s rest IH]; simpl; [reflexivity |].
  rewrite IH. reflexivity.
Qed.

Lemma emit_fact_type (video : Video.t) (type category : string) (tags : list string)
    (item : value) (rs : list Fact.t) :
  emit_fact video type category tags item = Ok rs ->
  Forall (fun f => Fact.type f = type) rs.
Proof.
  unfold emit_fact. destruct (generate_id_of item); simpl; [| discriminate].
  intros H. injection H as <-. repeat constructor.
Qed.

Lemma emit_gear_type (video : Video.t) (item : value) (rs : list Fact.t) :
  emit_gear video item = Ok rs -> Forall (fun f => Fact.type f = "gear") rs.
Proof.
  unfold emit_gear. destruct (generate_id_of (gear_content item)); simpl; [| discriminate].
  intros H. injection H as <-. repeat constructor.
Qed.

Lemma gathered_other_type {emit : value -> result (list Fact.t)} {type : string}
    (d : list (string * value)) (key : string) (rs : list Fact.t) :
  (forall item r, emit item = Ok r -> Forall (fun f => Fact.type f = type) r) ->
  type <> "survival_tip" ->
  gathered d key emit = Ok rs ->
  Forall (fun f => Fact.type f <> "survival_tip") rs.
Proof.
  intros Hemit Hne. unfold gathered.
  destruct (Py.iter _) as [items | e]; simpl; [| discriminate].
  intros H. apply (gather_Forall _ emit items rs); [| exact H].
  intros x r Hr. specialize (Hemit x r Hr).
  eapply Forall_impl; [| exact Hemit]. simpl. intros f -> . exact Hne.
Qed.

(** C7, as the code has it.  When the turn for a video with a transcript
    ends without an exception, the extraction is a mapping, the items of
    its ['survival_tips'] are strs that can be encoded, and the facts
    collection grows by one record per tip, in order, followed by the facts
    of other types: each of these records has type ['survival_tip'], the
    category inferred from the title and the description of the video, and
    the tags ['survival'] and that category.  The loop over the tips itself
    returns whenever the tips are a list of strs that can be encoded (each a
    [VStr], which holds no lone surrogate). *)
Theorem survival_tip_records (scraper : Scraper.t) (video : Video.t)
    (kb kb' : KB.t) (td : Transcript.t) :
  get_transcript scraper (Video.video_id video) = Some td ->
  process_video video scraper kb = Ok kb' ->
  let extracted :=
    fst (extract_facts_with_llm scraper (KB.calls kb) video (Transcript.full_text td)) in
  let category := _infer_category (Video.title video) (Video.description video) in
  (exists d tips others,
     extracted = VDict d /\
     Py.iter (dict_get d "survival_tips" (VList [])) = Ok (map VStr tips) /\
     KB.all_facts kb'
     = (KB.all_facts kb ++ map (survival_tip_of video category) tips ++ others)%list /\
     Forall (fun f => Fact.type f <> "survival_tip") others) /\
  (forall tip, Fact.type (survival_tip_of video category tip) = "survival_tip" /\
               Fact.category (survival_tip_of video category tip) = category /\
               Fact.tags (survival_tip_of video category tip) = ["survival"; category] /\
               Fact.content (survival_tip_of video category tip) = VStr tip) /\
  (forall d tips acc,
     dict_get d "survival_tips" (VList []) = VList (map VStr tips) ->
     loop_over (Py.get (VDict d) "survival_tips" (VList []))
       (add_survival_tip video category) acc
     = Ok (acc ++ map (survival_tip_of video category) tips)%list).
Proof.
  intros Htd Hok extracted category. split; [| split].
  - unfold process_video in Hok. rewrite Htd in Hok. subst extracted.
    destruct (extract_facts_with_llm scraper (KB.calls kb) video (Transcript.full_text td))
      as [extracted calls1].
    fold category in Hok. simpl fst.
    destruct extracted as [| b | n | shown nz | s | l | d | sb sl sa]; try discriminate.
    rewrite aggregate_extracted_mapping in Hok.
    destruct (gathered d "survival_tips" _) as [tips |] eqn:Htips; [| discriminate].
    destruct (gathered d "building_techniques" _) as [techs |] eqn:Htechs; [| discriminate].
    destruct (gathered d "life_lessons" _) as [lessons |] eqn:Hlessons; [| discriminate].
    destruct (gathered d "fishing_tips" _) as [fishing |] eqn:Hfishing; [| discriminate].
    destruct (gathered d "gear_recommendations" _) as [gear |] eqn:Hgear; [| discriminate].
    destruct (gathered d "dad_jokes" _) as [jokes |]; [| discriminate].
    destruct (gathered d "recipes" _) as [recipes |]; [| discriminate].
    destruct (gathered d "businesses_mentioned" _) as [businesses |]; [| discriminate].
    cbn [Py.bind] in Hok.
    destruct (extract_businesses_from_description scraper calls1 (Video.description video))
      as [desc_businesses calls2].
    rewrite aggregate_description_gathered in Hok.
    destruct (Py.iter desc_businesses) as [items |]; [| discriminate].
    cbn [Py.bind] in Hok.
    destruct (gather _ items) as [added |]; [| discriminate].
    injection Hok as <-. simpl.
    unfold gathered in Htips.
    destruct (Py.iter (dict_get d "survival_tips" (VList []))) as [tip_items |] eqn:Hiter;
      [| discriminate].
    cbn [Py.bind] in Htips.
    destruct (gather_emit_fact _ _ _ _ _ _ Htips) as (contents & -> & ->).
    exists d, contents, (techs ++ lessons ++ fishing ++ gear)%list.
    split; [reflexivity |]. split; [exact Hiter |]. split; [reflexivity |].
    repeat (apply Forall_app; split).
    + apply (gathered_other_type d _ _ (emit_fact_type video _ _ _)) in Htechs;
        [exact Htechs | discriminate].
    + apply (gathered_other_type d _ _ (emit_fact_type video _ _ _)) in Hlessons;
        [exact Hlessons | discriminate].
    + apply (gathered_other_type d _ _ (emit_fact_type video _ _ _)) in Hfishing;
        [exact Hfishing | discriminate].
    + apply (gathered_other_type d _ _ (emit_gear_type video)) in Hgear;
        [exact Hgear | discriminate].
  - intros tip. repeat split.
  - intros d tips acc Hfield.
    rewrite (loop_over_field _ _ d "survival_tips" _ (add_survival_tip_appends video category)).
    unfold gathered. rewrite Hfield. simpl Py.iter. cbn [Py.bind].
    rewrite gather_strings. reflexivity.
Qed.

Lemma survival_tip_records_witness :
  let video := Sample.video2 in
  let scraper := Sample.scraper Sample.model_tips in
  let kb' := KB.Build
               [survival_tip_of video "building" "drink the first melt, not the ice"]
               [] [] [] 2%nat in
  let category := _infer_category (Video.title video) (Video.description video) in
  process_video video scraper empty_kb = Ok kb' /\
  exists d tips others,
    fst (extract_facts_with_llm scraper 0%nat video
           "when the lake is frozen drink the first melt") = VDict d /\
    Py.iter (dict_get d "survival_tips" (VList [])) = Ok (map VStr tips) /\
    KB.all_facts kb'
    = (KB.all_facts empty_kb ++ map (survival_tip_of video category) tips ++ others)%list /\
    Forall (fun f => Fact.type f <> "survival_tip") others.
Proof.
  intros video scraper kb' category.
  assert (Hok : process_video video scraper empty_kb = Ok kb')
    by (vm_compute; reflexivity).
  split; [exact Hok |].
  exact (proj1 (survival_tip_records scraper video empty_kb kb'
                  (Transcript.Build "vid2"
                     ["when the lake is frozen"; "drink the first melt"]
                     "when the lake is frozen drink the first melt")
                  eq_refl Hok)).
Defined.

(** C7 does not hold as stated: the second sample video is titled "Trip
    report", for which the inferred category is ["general"], but its
    description mentions building a cabin, and the survival tip of that
    video is filed under ["building"]. *)
Lemma description_decides_category :
  _infer_category "Trip report" "" = "general" /\
  exists out,
    build_knowledge_base (Sample.scraper Sample.model_tips) Sample.now 3 = Ok out /\
    map (fun f => (Fact.videoTitle f, Fact.type f, Fact.category f)) (Output.facts out)
    = [("Ice fishing for trout", "survival_tip", "winter_survival");
       ("Trip report", "survival_tip", "building")].
Proof.
  split; [reflexivity |]. eexists. split; [vm_compute; reflexivity | reflexivity].
Qed.

(** ** The categories dict *)

Lemma dict_set_keys {V : Type} (d : list (string * V)) (key : string) (v : V) :
  map fst (dict_set d key v)
  = if existsb (String.eqb key) (map fst d) then map fst d
    else (map fst d ++ [key])%list.
Proof.
  induction d as [| [k old] rest IH]; simpl; [reflexivity |].
  rewrite (String.eqb_sym key k).
  destruct (String.eqb k key); simpl; [reflexivity |].
  rewrite IH. destruct (existsb _ _); reflexivity.
Qed.

Lemma existsb_eqb_In (key : string) (keys : list string) :
  existsb (String.eqb key) keys = true <-> In key keys.
Proof.
  rewrite existsb_exists. split.
  - intros [k [Hin Heq]]. apply String.eqb_eq in Heq. subst. exact Hin.
  - intros Hin. exists key. split; [exact Hin | apply String.eqb_refl].
Qed.

Lemma dict_set_fresh {V : Type} (d : list (string * V)) (key : string) (v : V) :
  ~ In key (map fst d) -> dict_set d key v = (d ++ [(key, v)])%list.
Proof.
  induction d as [| [k old] rest IH]; simpl; intros Hnot; [reflexivity |].
  destruct (String.eqb_spec k key) as [-> | Hne]; [tauto |].
  rewrite IH; [reflexivity | tauto].
Qed.

Lemma dict_set_values {V : Type} (P : V -> Prop) (d : list (string * V))
    (key : string) (v : V) :
  P v -> Forall P (map snd d) -> Forall P (map snd (dict_set d key v)).
Proof.
  intros Hv. induction d as [| [k old] rest IH]; simpl; intros Hd.
  - repeat constructor. exact Hv.
  - inversion Hd as [| ? ? Hold Hrest]; subst.
    destruct (String.eqb k key); simpl; constructor; auto.
Qed.

Lemma fill_categories_keys (playlists : list Playlist.t)
    (categories : list (string * Category.t)) :
  NoDup (map fst categories) ->
  NoDup (map fst (fill_categories categories playlists)) /\
  (forall key, In key (map fst (fill_categories categories playlists)) <->
               In key (map fst categories) \/ In key (map Playlist.id playlists)).
Proof.
  revert categories. induction playlists as [| p rest IH]; intros categories Hnodup; simpl.
  - split; [exact Hnodup | intros key; tauto].
  - assert (Hstep : NoDup (map fst (dict_set categories (Playlist.id p)
                                      (category_of_playlist p))) /\
                    forall key, In key (map fst (dict_set categories (Playlist.id p)
                                                   (category_of_playlist p)))
                                <-> In key (map fst categories) \/ key = Playlist.id p).
    { rewrite dict_set_keys.
      destruct (existsb _ _) eqn:E.
      - apply existsb_eqb_In in E. split; [exact Hnodup |].
        intros key. split; [tauto | intros [H | ->]; assumption].
      - assert (Hnot : ~ In (Playlist.id p) (map fst categories)).
        { intros H. apply existsb_eqb_In in H. congruence. }
        split.
        + apply NoDup_app; [exact Hnodup | repeat constructor; intros [] |].
          intros key Hin [<- | []]. exact (Hnot Hin).
        + intros key. rewrite in_app_iff. simpl. intuition congruence. }
    destruct Hstep as [Hnodup' Hkeys].
    destruct (IH _ Hnodup') as [Hn Hk]. split; [exact Hn |].
    intros key. rewrite Hk, Hkeys. intuition congruence.
Qed.

Lemma fill_categories_values (playlists : list Playlist.t)
    (categories : list (string * Category.t)) :
  Forall (fun c => Category.factCount c = 0%Z) (map snd categories) ->
  Forall (fun c => Category.factCount c = 0%Z)
         (map snd (fill_categories categories playlists)).
Proof.
  revert categories. induction playlists as [| p rest IH]; intros categories H; simpl.
  - exact H.
  - apply IH. apply dict_set_values; [reflexivity | exact H].
Qed.

Lemma fill_categories_distinct (playlists : list Playlist.t)
    (categories : list (string * Category.t)) :
  NoDup (map fst categories ++ map Playlist.id playlists) ->
  fill_categories categories playlists
  = (categories ++ map (fun p => (Playlist.id p, category_of_playlist p)) playlists)%list.
Proof.
  revert categories. induction playlists as [| p rest IH]; intros categories Hnodup; simpl.
  - rewrite app_nil_r. reflexivity.
  - apply NoDup_remove in Hnodup as Hrem. destruct Hrem as [Hrest Hnot].
    rewrite dict_set_fresh.
    + rewrite IH.
      * rewrite <- app_assoc. reflexivity.
      * rewrite map_app, <- app_assoc. simpl. exact Hnodup.
    + intros Hin. apply Hnot. apply in_or_app. left. exact Hin.
Qed.

Lemma keyed_by_id_ids (d : list (string * Category.t)) :
  keyed_by_id d -> map Category.id (dict_values d) = map fst d.
Proof.
  intros Hd. unfold dict_values. rewrite map_map.
  induction Hd as [| kv rest Hkv _ IH]; simpl; [reflexivity |].
  rewrite Hkv, IH. reflexivity.
Qed.

Lemma dict_set_keyed (d : list (string * Category.t)) (p : Playlist.t) :
  keyed_by_id d -> keyed_by_id (dict_set d (Playlist.id p) (category_of_playlist p)).
Proof.
  intros Hd. induction Hd as [| [k c] d' Hkc Hd' IH]; simpl.
  - repeat constructor.
  - destruct (String.eqb_spec k (Playlist.id p)) as [-> | Hne].
    + constructor; [reflexivity | exact Hd'].
    + constructor; [exact Hkc | exact IH].
Qed.

Lemma fill_categories_keyed (playlists : list Playlist.t)
    (d : list (string * Category.t)) :
  keyed_by_id d -> keyed_by_id (fill_categories d playlists).
Proof.
  revert d. induction playlists as [| p rest IH]; intros d Hd; simpl; [exact Hd |].
  apply IH, dict_set_keyed, Hd.
Qed.

(** ** The whole run *)

(** What a run that ends without an exception has gone through. *)
Lemma build_knowledge_base_Ok (scraper : Scraper.t) (now : string) (max_videos : Z)
    (out : Output.t) :
  build_knowledge_base scraper now max_videos = Ok out ->
  exists playlists uploads kb,
    get_channel_playlists scraper = Ok playlists /\
    get_all_channel_videos scraper = Ok uploads /\
    run_videos scraper (Py.slice_to max_videos uploads) empty_kb = Ok kb /\
    out = Output.Build
            (Metadata.Build now
               (Z.of_nat (length (Py.slice_to max_videos uploads)))
               (Z.of_nat (length (KB.all_facts kb))) "1.0.0" "Outdoor Boys")
            (dict_values (collect_categories playlists))
            (KB.all_facts kb) (KB.all_businesses kb) (KB.all_jokes kb)
            (KB.all_recipes kb).
Proof.
  unfold build_knowledge_base, selected_videos, run_videos.
  destruct (get_channel_playlists scraper) as [playlists |]; [| discriminate].
  destruct (get_all_channel_videos scraper) as [uploads |]; [| discriminate].
  cbn [Py.bind].
  destruct (for_each _ _ empty_kb) as [kb |] eqn:Hloop; [| discriminate].
  cbn [Py.bind]. intros H. injection H as <-.
  exists playlists, uploads, kb. repeat split. exact Hloop.
Qed.

Lemma slice_to_length {A : Type} (n : Z) (xs : list A) :
  0 <= n ->
  Z.of_nat (length (Py.slice_to n xs)) = Z.min n (Z.of_nat (length xs)).
Proof.
  intros Hn. unfold Py.slice_to.
  destruct (Z.leb_spec 0 n); [| lia].
  rewrite length_firstn. lia.
Qed.

(** C8.  The metadata of a run report as [totalVideos] the number of
    videos selected, which is the length of the uploads list cut by
    [[:max_videos]] whether or not a transcript is found for them, and as
    [totalFacts] the length of the facts collection.  For a count that is
    not negative the cut keeps the first [max_videos] uploads, so the number
    of videos is the smaller of the count and the number of uploads, and at
    most the count. *)
Theorem metadata_counts (scraper : Scraper.t) (now : string) (max_videos : Z)
    (out : Output.t) :
  build_knowledge_base scraper now max_videos = Ok out ->
  exists uploads,
    get_all_channel_videos scraper = Ok uploads /\
    selected_videos scraper max_videos = Ok (Py.slice_to max_videos uploads) /\
    Metadata.totalVideos (Output.metadata out)
    = Z.of_nat (length (Py.slice_to max_videos uploads)) /\
    Metadata.totalFacts (Output.metadata out) = Z.of_nat (length (Output.facts out)) /\
    (0 <= max_videos ->
     Py.slice_to max_videos uploads = firstn (Z.to_nat max_videos) uploads /\
     Metadata.totalVideos (Output.metadata out)
     = Z.min max_videos (Z.of_nat (length uploads)) /\
     Metadata.totalVideos (Output.metadata out) <= max_videos).
Proof.
  intros Hok.
  destruct (build_knowledge_base_Ok _ _ _ _ Hok)
    as (playlists & uploads & kb & _ & Huploads & _ & ->).
  exists uploads. simpl. split; [exact Huploads |].
  split; [unfold selected_videos; rewrite Huploads; reflexivity |].
  split; [reflexivity |]. split; [reflexivity |].
  intros Hmax.
  split; [unfold Py.slice_to; destruct (Z.leb_spec 0 max_videos); [reflexivity | lia] |].
  rewrite slice_to_length by exact Hmax. lia.
Qed.

Lemma metadata_counts_witness :
  exists out,
    build_knowledge_base (Sample.scraper Sample.model_tips) Sample.now 3 = Ok out /\
    get_transcript (Sample.scraper Sample.model_tips) "vid3" = None /\
    Metadata.totalVideos (Output.metadata out) = 3 /\
    Metadata.totalFacts (Output.metadata out) = Z.of_nat (length (Output.facts out)).
Proof.
  destruct (build_knowledge_base (Sample.scraper Sample.model_tips) Sample.now 3)
    as [out |] eqn:Hok; [| vm_compute in Hok; discriminate].
  exists out. split; [reflexivity |]. split; [reflexivity |].
  destruct (metadata_counts _ _ _ _ Hok)
    as (uploads & Huploads & _ & _ & Hfacts & Hbound).
  destruct (Hbound ltac:(lia)) as (_ & Hmin & _).
  split; [| exact Hfacts].
  rewrite Hmin. vm_compute in Huploads. injection Huploads as <-. reflexivity.
Defined.

(** C9.  Every category is made with [factCount] 0, nothing in the run
    changes it, and so every entry of the categories written has
    [factCount] 0, whatever the number of facts. *)
Theorem categories_factCount_zero (scraper : Scraper.t) (now : string)
    (max_videos : Z) (out : Output.t) :
  build_knowledge_base scraper now max_videos = Ok out ->
  (forall p, Category.factCount (category_of_playlist p) = 0) /\
  (exists playlists,
     get_channel_playlists scraper = Ok playlists /\
     Output.categories out = dict_values (collect_categories playlists)) /\
  Forall (fun c => Category.factCount c = 0) (Output.categories out).
Proof.
  intros Hok.
  destruct (build_knowledge_base_Ok _ _ _ _ Hok)
    as (playlists & uploads & kb & Hplaylists & _ & _ & ->).
  split; [reflexivity |]. split; [exists playlists; split; [exact Hplaylists | reflexivity] |].
  simpl. unfold dict_values.
  apply (fill_categories_values playlists []). constructor.
Qed.

Lemma categories_factCount_zero_witness :
  exists out,
    build_knowledge_base (Sample.scraper Sample.model_tips) Sample.now 3 = Ok out /\
    length (Output.facts out) = 2%nat /\
    length (Output.categories out) = 2%nat /\
    Forall (fun c => Category.factCount c = 0) (Output.categories out).
Proof.
  destruct (build_knowledge_base (Sample.scraper Sample.model_tips) Sample.now 3)
    as [out |] eqn:Hok; [| vm_compute in Hok; discriminate].
  exists out.
  pose proof (categories_factCount_zero _ _ _ _ Hok) as (_ & _ & Hzero).
  vm_compute in Hok. injection Hok as <-.
  split; [reflexivity |]. split; [reflexivity |]. split; [reflexivity | exact Hzero].
Defined.

(** ** A run without a language-model key *)

Lemma process_video_without_client (scraper : Scraper.t) (video : Video.t) (kb : KB.t) :
  Scraper.anthropic scraper = None ->
  process_video video scraper kb = Ok kb.
Proof.
  intros Hnone. unfold process_video.
  destruct (get_transcript scraper (Video.video_id video)); [| reflexivity].
  unfold extract_facts_with_llm, extract_businesses_from_description. rewrite Hnone.
  rewrite set_calls_same, aggregate_empty_extraction. cbn [Py.bind].
  rewrite set_calls_same. apply aggregate_no_description_business.
Qed.

Lemma run_videos_without_client (scraper : Scraper.t) (videos : list Video.t) (kb : KB.t) :
  Scraper.anthropic scraper = None ->
  run_videos scraper videos kb = Ok kb.
Proof.
  intros Hnone. unfold run_videos. induction videos as [| video rest IH]; simpl.
  - reflexivity.
  - rewrite process_video_without_client by exact Hnone. exact IH.
Qed.

(** C6.  With no client for the language model, both extraction methods
    answer their empty defaults without sending a request.  If the playlists
    and the uploads can be fetched, the run ends with empty facts, jokes,
    recipes and businesses, a video count that is the number of videos
    selected, and categories holding one entry for each playlist id: the
    ids of the entries are those of the playlists, each once, and when the
    playlist ids are distinct the entries are those of the playlists in
    order. *)
Theorem run_without_credential (scraper : Scraper.t) (now : string) (max_videos : Z)
    (playlists : list Playlist.t) (uploads : list Video.t) :
  Scraper.anthropic scraper = None ->
  get_channel_playlists scraper = Ok playlists ->
  get_all_channel_videos scraper = Ok uploads ->
  (forall calls video transcript,
     extract_facts_with_llm scraper calls video transcript = (empty_extraction, calls)) /\
  (forall calls description,
     extract_businesses_from_description scraper calls description = (VList [], calls)) /\
  exists out,
    build_knowledge_base scraper now max_videos = Ok out /\
    Output.facts out = [] /\ Output.jokes out = [] /\
    Output.recipes out = [] /\ Output.businesses out = [] /\
    Metadata.totalVideos (Output.metadata out)
    = Z.of_nat (length (Py.slice_to max_videos uploads)) /\
    NoDup (map Category.id (Output.categories out)) /\
    (forall id, In id (map Category.id (Output.categories out)) <->
                In id (map Playlist.id playlists)) /\
    (NoDup (map Playlist.id playlists) ->
     Output.categories out = map category_of_playlist playlists).
Proof.
  intros Hnone Hplaylists Huploads.
  split; [intros; unfold extract_facts_with_llm; rewrite Hnone; reflexivity |].
  split; [intros; unfold extract_businesses_from_description; rewrite Hnone; reflexivity |].
  unfold build_knowledge_base, selected_videos.
  rewrite Hplaylists, Huploads. cbn [Py.bind].
  fold (run_videos scraper (Py.slice_to max_videos uploads) empty_kb).
  rewrite run_videos_without_client by exact Hnone. cbn [Py.bind].
  eexists. split; [reflexivity |]. simpl.
  repeat (split; [reflexivity |]).
  change (collect_categories playlists) with (fill_categories [] playlists).
  rewrite keyed_by_id_ids by (apply fill_categories_keyed; constructor).
  destruct (fill_categories_keys playlists [] (NoDup_nil _)) as [Hnodup Hkeys].
  split; [exact Hnodup |]. split.
  - intros id. rewrite Hkeys. simpl. tauto.
  - intros Hdistinct. rewrite fill_categories_distinct by exact Hdistinct.
    simpl. unfold dict_values. rewrite map_map. reflexivity.
Qed.

Lemma run_without_credential_witness :
  exists out,
    build_knowledge_base Sample.scraper_without_key Sample.now 10 = Ok out /\
    Output.facts out = [] /\ Output.businesses out = [] /\
    Metadata.totalVideos (Output.metadata out) = 3 /\
    map Category.id (Output.categories out) = ["PL1"; "PL2"].
Proof.
  destruct (get_channel_playlists Sample.scraper_without_key) as [playlists |] eqn:Hp;
    [| discriminate].
  destruct (get_all_channel_videos Sample.scraper_without_key) as [uploads |] eqn:Hu;
    [| discriminate].
  destruct (run_without_credential Sample.scraper_without_key Sample.now 10
              playlists uploads eq_refl Hp Hu)
    as (_ & _ & out & Hok & Hfacts & _ & _ & Hbiz & Hvideos & _ & _ & Hcats).
  exists out. split; [exact Hok |]. split; [exact Hfacts |]. split; [exact Hbiz |].
  vm_compute in Hp. injection Hp as <-. vm_compute in Hu. injection Hu as <-.
  split; [exact Hvideos |].
  rewrite Hcats; [reflexivity |].
  simpl. repeat constructor; simpl; intuition discriminate.
Defined.

(** * Further properties of the scraper *)

(** ** Paginated requests *)

Lemma fetch_all_pages {A B : Type} (convert : A -> B) (request : listing A)
    (acc : list B) :
  fetch_all convert request acc =
  match listing_error request with
  | Some e => Raise e
  | None => Ok (acc ++ map convert (listing_items request))%list
  end.
Proof.
  revert request acc. fix IH 1. intros [e | items [next |]] acc; simpl.
  - reflexivity.
  - rewrite IH. destruct (listing_error next); [reflexivity |].
    rewrite map_app, app_assoc. reflexivity.
  - rewrite app_nil_r. reflexivity.
Qed.

(** X1.  [get_channel_playlists] goes through the pages in order: when no
    page fails it answers one playlist per item of all the pages, in the
    order of the pages, each with the category inferred from its title
    alone and with the empty string for a description that is missing; when
    a page fails, the exception of that page is raised and the playlists of
    the pages before it are lost. *)
Theorem playlists_follow_pages (self : Scraper.t) :
  let request := YouTube.playlists (Scraper.youtube self) in
  (forall e, listing_error request = Some e -> get_channel_playlists self = Raise e) /\
  (listing_error request = None ->
   exists playlists,
     get_channel_playlists self = Ok playlists /\
     length playlists = length (listing_items request) /\
     map Playlist.id playlists = map PlaylistResource.id (listing_items request) /\
     map Playlist.title playlists
     = map PlaylistResource.snippet_title (listing_items request) /\
     map Playlist.description playlists
     = map (fun item => or_empty (PlaylistResource.snippet_description item))
           (listing_items request) /\
     Forall (fun p => Playlist.category p = _infer_category (Playlist.title p) "")
            playlists).
Proof.
  intros request. unfold get_channel_playlists. fold request.
  rewrite fetch_all_pages. split.
  - intros e ->. reflexivity.
  - intros ->. eexists. split; [reflexivity |]. simpl.
    rewrite length_map, !map_map. simpl.
    repeat split. apply Forall_map, Forall_forall. reflexivity.
Qed.

Lemma playlists_follow_pages_witness :
  exists playlists,
    get_channel_playlists (Sample.scraper Sample.model_tips) = Ok playlists /\
    map Playlist.id playlists = ["PL1"; "PL2"] /\
    map Playlist.description playlists = ["Cold nights out"; ""].
Proof.
  destruct (proj2 (playlists_follow_pages (Sample.scraper Sample.model_tips)) eq_refl)
    as (playlists & Hok & _ & Hids & _ & Hdesc & _).
  exists playlists. split; [exact Hok |]. split; [exact Hids | exact Hdesc].
Defined.

(** X2.  [get_playlist_videos] answers one video per item of the pages of
    the playlist, in order, each carrying the playlist id that was asked
    for; a page that fails raises its exception. *)
Theorem videos_follow_pages (self : Scraper.t) (playlist_id : string) :
  let request := YouTube.playlistItems (Scraper.youtube self) playlist_id in
  (forall e, listing_error request = Some e ->
             get_playlist_videos self playlist_id = Raise e) /\
  (listing_error request = None ->
   exists videos,
     get_playlist_videos self playlist_id = Ok videos /\
     map Video.video_id videos
     = map PlaylistItemResource.contentDetails_videoId (listing_items request) /\
     map Video.title videos
     = map PlaylistItemResource.snippet_title (listing_items request) /\
     map Video.description videos
     = map (fun item => or_empty (PlaylistItemResource.snippet_description item))
           (listing_items request) /\
     Forall (fun v => Video.playlist_id v = playlist_id) videos).
Proof.
  intros request. unfold get_playlist_videos. fold request.
  rewrite fetch_all_pages. split.
  - intros e ->. reflexivity.
  - intros ->. eexists. split; [reflexivity |]. simpl.
    rewrite !map_map. simpl.
    repeat split. apply Forall_map, Forall_forall. reflexivity.
Qed.

Lemma videos_follow_pages_witness :
  exists videos,
    get_playlist_videos (Sample.scraper Sample.model_tips) "UU1" = Ok videos /\
    map Video.video_id videos = ["vid1"; "vid2"; "vid3"] /\
    get_playlist_videos (Sample.scraper Sample.model_tips) "PL9" = Raise HttpError.
Proof.
  destruct (proj2 (videos_follow_pages (Sample.scraper Sample.model_tips) "UU1") eq_refl)
    as (videos & Hok & Hids & _).
  exists videos. split; [exact Hok |]. split; [exact Hids |].
  apply (proj1 (videos_follow_pages (Sample.scraper Sample.model_tips) "PL9")).
  reflexivity.
Defined.

(** X3.  [get_all_channel_videos] lists the uploads playlist of the first
    channel item only.  A failed channel request raises its own exception,
    a channel response without the key ['items'] raises [KeyError], one
    with an empty list of items raises [IndexError], and every video of a
    successful call carries the id of that uploads playlist. *)
Theorem uploads_of_first_channel (self : Scraper.t) :
  (forall e, YouTube.channels (Scraper.youtube self) = Raise e ->
             get_all_channel_videos self = Raise e) /\
  (YouTube.channels (Scraper.youtube self) = Ok None ->
   get_all_channel_videos self = Raise KeyError) /\
  (YouTube.channels (Scraper.youtube self) = Ok (Some []) ->
   get_all_channel_videos self = Raise IndexError) /\
  (forall uploads others,
     YouTube.channels (Scraper.youtube self) = Ok (Some (uploads :: others)) ->
     get_all_channel_videos self = get_playlist_videos self uploads) /\
  (forall videos,
     get_all_channel_videos self = Ok videos ->
     exists uploads others,
       YouTube.channels (Scraper.youtube self) = Ok (Some (uploads :: others)) /\
       listing_error (YouTube.playlistItems (Scraper.youtube self) uploads) = None /\
       map Video.video_id videos
       = map PlaylistItemResource.contentDetails_videoId
           (listing_items (YouTube.playlistItems (Scraper.youtube self) uploads)) /\
       Forall (fun v => Video.playlist_id v = uploads) videos).
Proof.
  unfold get_all_channel_videos.
  split; [intros e ->; reflexivity |].
  split; [intros ->; reflexivity |].
  split; [intros ->; reflexivity |].
  split; [intros uploads others ->; reflexivity |].
  intros videos Hok.
  destruct (YouTube.channels (Scraper.youtube self)) as [[[| uploads others] |] | e];
    try discriminate.
  simpl in Hok. exists uploads, others. split; [reflexivity |].
  destruct (videos_follow_pages self uploads) as [Hfail Hpages].
  destruct (listing_error (YouTube.playlistItems (Scraper.youtube self) uploads))
    as [e |] eqn:Herr.
  - rewrite (Hfail e eq_refl) in Hok. discriminate.
  - destruct (Hpages eq_refl) as (videos' & Hok' & Hids & _ & _ & Hpl).
    rewrite Hok' in Hok. injection Hok as <-. repeat split; assumption.
Qed.

Lemma uploads_of_first_channel_witness :
  exists videos,
    get_all_channel_videos (Sample.scraper Sample.model_tips) = Ok videos /\
    Forall (fun v => Video.playlist_id v = "UU1") videos.
Proof.
  destruct (get_all_channel_videos (Sample.scraper Sample.model_tips))
    as [videos |] eqn:Hok; [| discriminate].
  exists videos. split; [reflexivity |].
  destruct (proj2 (proj2 (proj2 (proj2 (uploads_of_first_channel
                                   (Sample.scraper Sample.model_tips))))) videos Hok)
    as (uploads & others & Hchannels & _ & _ & Hpl).
  injection Hchannels as <- _. exact Hpl.
Defined.

(** ** Strings *)

Lemma string_app_assoc (a b c : string) : (a ++ b) ++ c = a ++ b ++ c.
Proof. induction a as [| x a IH]; simpl; [reflexivity | rewrite IH; reflexivity]. Qed.

Lemma string_app_nil_r (a : string) : a ++ "" = a.
Proof. induction a as [| x a IH]; simpl; [reflexivity | rewrite IH; reflexivity]. Qed.

Lemma occurs_refl (s : string) : PyStr.occurs s s.
Proof. exists "", "". simpl. rewrite string_app_nil_r. reflexivity. Qed.

Lemma occurs_app_l (kw a b : string) : PyStr.occurs kw a -> PyStr.occurs kw (a ++ b).
Proof.
  intros [pre [post ->]]. exists pre, (post ++ b).
  rewrite !string_app_assoc. reflexivity.
Qed.

Lemma occurs_app_r (kw a b : string) : PyStr.occurs kw b -> PyStr.occurs kw (a ++ b).
Proof.
  intros [pre [post ->]]. exists (a ++ pre), post.
  rewrite !string_app_assoc. reflexivity.
Qed.

Lemma occurs_part (a b text : string) :
  PyStr.occurs (a ++ b) text -> PyStr.occurs a text.
Proof.
  intros [pre [post ->]]. exists pre, (b ++ post).
  rewrite !string_app_assoc. reflexivity.
Qed.

Lemma join_occurs (sep seg : string) (parts : list string) :
  In seg parts -> PyStr.occurs seg (PyStr.join sep parts).
Proof.
  induction parts as [| p rest IH]; intros Hin; [destruct Hin |].
  destruct rest as [| q rest].
  - destruct Hin as [-> | []]. apply occurs_refl.
  - change (PyStr.join sep (p :: q :: rest)) with (p ++ sep ++ PyStr.join sep (q :: rest)).
    destruct Hin as [-> | Hin].
    + apply occurs_app_l, occurs_refl.
    + apply occurs_app_r, occurs_app_r, IH, Hin.
Qed.

Lemma join_length (sep : string) (parts : list string) :
  String.length (PyStr.join sep parts)
  = (list_sum (map String.length parts)
     + String.length sep * (length parts - 1))%nat.
Proof.
  assert (Happ : forall a b, String.length (a ++ b)
                             = (String.length a + String.length b)%nat).
  { intros a b. induction a as [| x a IH]; simpl; [reflexivity | rewrite IH; reflexivity]. }
  induction parts as [| p rest IH]; [simpl; lia |].
  destruct rest as [| q rest].
  - simpl. lia.
  - change (PyStr.join sep (p :: q :: rest)) with (p ++ sep ++ PyStr.join sep (q :: rest)).
    rewrite !Happ, IH. simpl. lia.
Qed.

(** ** Transcripts *)

(** X4.  [get_transcript] answers [None] exactly when the request for the
    transcript raises.  Otherwise it answers a transcript for the video id
    asked, keeping the segments as received, with a full text in which
    every segment occurs and whose length is that of the segments plus one
    space between neighbours; a transcript without segments is still
    answered, with an empty full text. *)
Theorem transcript_full_text (self : Scraper.t) (video_id : string) :
  (get_transcript self video_id = None <->
   exists e, Scraper.transcripts self video_id = Raise e) /\
  (forall segments,
     Scraper.transcripts self video_id = Ok segments ->
     exists td,
       get_transcript self video_id = Some td /\
       Transcript.video_id td = video_id /\
       Transcript.segments td = segments /\
       (forall seg, In seg segments -> PyStr.occurs seg (Transcript.full_text td)) /\
       String.length (Transcript.full_text td)
       = (list_sum (map String.length segments) + (length segments - 1))%nat /\
       (segments = [] -> Transcript.full_text td = "")).
Proof.
  unfold get_transcript. split.
  - destruct (Scraper.transcripts self video_id) as [segments | e].
    + split; [discriminate | intros [e H]; discriminate].
    + split; [intros _; exists e; reflexivity | reflexivity].
  - intros segments ->. eexists. split; [reflexivity |]. simpl.
    split; [reflexivity |]. split; [reflexivity |].
    split; [intros seg; apply join_occurs |].
    split; [rewrite join_length; simpl; lia | intros ->; reflexivity].
Qed.

Lemma transcript_full_text_witness :
  exists td,
    get_transcript (Sample.scraper Sample.model_tips) "vid1" = Some td /\
    PyStr.occurs "drink the first melt" (Transcript.full_text td) /\
    String.length (Transcript.full_text td) = 44%nat.
Proof.
  destruct (proj2 (transcript_full_text (Sample.scraper Sample.model_tips) "vid1")
              ["when the lake is frozen"; "drink the first melt"] eq_refl)
    as (td & Hok & _ & _ & Hocc & Hlen & _).
  exists td. split; [exact Hok |].
  split; [apply Hocc; right; left; reflexivity | exact Hlen].
Defined.

(** ** More on category inference *)

Lemma lower_char_idempotent (c : ascii) :
  PyStr.lower_char (PyStr.lower_char c) = PyStr.lower_char c.
Proof. destruct c as [[] [] [] [] [] [] [] []]; reflexivity. Qed.

Lemma lower_idempotent (s : string) : PyStr.lower (PyStr.lower s) = PyStr.lower s.
Proof.
  induction s as [| c s IH]; simpl; [reflexivity |].
  rewrite lower_char_idempotent, IH. reflexivity.
Qed.

Lemma lower_app (a b : string) : PyStr.lower (a ++ b) = PyStr.lower a ++ PyStr.lower b.
Proof. induction a as [| c a IH]; simpl; [reflexivity | rewrite IH; reflexivity]. Qed.

Lemma infer_category_text (title description : string) :
  _infer_category title description
  = first_category CATEGORY_KEYWORDS
      (PyStr.lower title ++ " " ++ PyStr.lower description).
Proof. unfold _infer_category. rewrite !lower_app. reflexivity. Qed.

(** X5.  The category depends on the letters of the title and of the
    description, not on their case: two videos whose titles and
    descriptions are equal once lower-cased get the same category, and the
    category of the lower-cased texts is that of the texts. *)
Theorem infer_category_ignores_case (title1 description1 title2 description2 : string) :
  PyStr.lower title1 = PyStr.lower title2 ->
  PyStr.lower description1 = PyStr.lower description2 ->
  _infer_category title1 description1 = _infer_category title2 description2 /\
  _infer_category (PyStr.lower title1) (PyStr.lower description1)
  = _infer_category title1 description1.
Proof.
  intros Ht Hd. rewrite !infer_category_text, !lower_idempotent, Ht, Hd.
  split; reflexivity.
Qed.

Lemma infer_category_ignores_case_witness :
  _infer_category "SALMON Run" "By The River" = _infer_category "salmon run" "by the river".
Proof.
  apply (infer_category_ignores_case "SALMON Run" "By The River"
           "salmon run" "by the river"); reflexivity.
Defined.

Lemma first_category_range (table : list (string * list string)) (text : string) :
  In (first_category table text) (map fst table ++ ["general"]).
Proof.
  induction table as [| [category keywords] rest IH]; simpl.
  - left. reflexivity.
  - destruct (existsb _ keywords); [left; reflexivity | right; exact IH].
Qed.

(** X6.  [_infer_category] answers one of nine labels: a category of the
    table or ["general"].  A keyword of the first category wins over
    everything else: when one of them occurs in the lower-cased title or in
    the lower-cased description, the answer is ["winter_survival"],
    whatever other keywords the texts hold. *)
Theorem infer_category_range_and_priority (title description : string) :
  In (_infer_category title description)
     ["winter_survival"; "building"; "fishing"; "camping"; "cooking"; "gear";
      "alaska"; "family"; "general"] /\
  (forall kw,
     In kw ["winter"; "cold"; "snow"; "ice"; "freeze"; "survival"; "shelter"] ->
     PyStr.occurs kw (PyStr.lower title) \/ PyStr.occurs kw (PyStr.lower description) ->
     _infer_category title description = "winter_survival").
Proof.
  split.
  - exact (first_category_range CATEGORY_KEYWORDS _).
  - intros kw Hkw Hocc. rewrite infer_category_text.
    set (text := PyStr.lower title ++ " " ++ PyStr.lower description).
    assert (Htext : PyStr.occurs kw text).
    { destruct Hocc as [H | H]; [apply occurs_app_l, H | apply occurs_app_r, occurs_app_r, H]. }
    assert (Hhit : existsb (fun k => PyStr.contains k text)
                     ["winter"; "cold"; "snow"; "ice"; "freeze"; "survival"; "shelter"]
                   = true).
    { apply existsb_exists. exists kw. split; [exact Hkw | apply contains_occurs, Htext]. }
    unfold CATEGORY_KEYWORDS. cbn [first_category]. rewrite Hhit. reflexivity.
Qed.

Lemma infer_category_range_and_priority_witness :
  _infer_category "Catch and cook" "Salmon on the ice" = "winter_survival".
Proof.
  apply (proj2 (infer_category_range_and_priority "Catch and cook" "Salmon on the ice")
           "ice"); [simpl; tauto |].
  right. exists "salmon on the ", "". reflexivity.
Defined.

Lemma contains_part (a b text : string) :
  PyStr.contains (a ++ b) text = true -> PyStr.contains a text = true.
Proof. rewrite !contains_occurs. apply occurs_part. Qed.

(** X7.  Three keywords of the table never decide: ["fishing"],
    ["camping"] and ["wilderness"] each contain an earlier keyword of their
    own category (["fish"], ["camp"], ["wild"]), so the table without them
    infers the same category for every title and description. *)
Theorem redundant_keywords (title description : string) :
  _infer_category title description
  = first_category effective_keywords (PyStr.lower (title ++ " " ++ description)).
Proof.
  unfold _infer_category. set (text := PyStr.lower (title ++ " " ++ description)).
  pose proof (contains_part "fish" "ing" text) as Hfish.
  pose proof (contains_part "camp" "ing" text) as Hcamp.
  pose proof (contains_part "wild" "erness" text) as Hwild.
  cbn [append] in Hfish, Hcamp, Hwild.
  unfold CATEGORY_KEYWORDS, effective_keywords. cbn [first_category existsb].
  destruct (PyStr.contains "fishing" text);
    [rewrite (Hfish eq_refl) | clear Hfish];
    (destruct (PyStr.contains "camping" text);
       [rewrite (Hcamp eq_refl) | clear Hcamp]);
    (destruct (PyStr.contains "wilderness" text);
       [rewrite (Hwild eq_refl) | clear Hwild]);
    cbn [orb]; rewrite ?orb_true_r; reflexivity.
Qed.

(** ** The shape of an id *)

Lemma hex_digit_char (n : Z) : 0 <= n < 16 -> hex_char (PyStr.hex_digit n).
Proof.
  intros Hn. rewrite <- (Z2Nat.id n) by lia.
  assert (Hk : (Z.to_nat n < 16)%nat) by lia.
  revert Hk. generalize (Z.to_nat n). clear Hn. intros k Hk. unfold hex_char.
  do 16 (destruct k as [| k]; [vm_compute; tauto |]). lia.
Qed.

Lemma hex_byte_chars (b : Z) :
  0 <= b < 256 ->
  exists hi lo, PyStr.hex_byte b = String hi (String lo "") /\ hex_char hi /\ hex_char lo.
Proof.
  intros Hb. exists (PyStr.hex_digit (b / 16)), (PyStr.hex_digit (b mod 16)).
  split; [reflexivity |]. split; apply hex_digit_char.
  - split; [apply Z.div_pos; lia | apply Z.div_lt_upper_bound; lia].
  - apply Z.mod_pos_bound. lia.
Qed.

Lemma le_bytes_4 (x : Z) :
  exists b0 b1 b2 b3,
    MD5.le_bytes 4 x = [b0; b1; b2; b3] /\
    0 <= b0 < 256 /\ 0 <= b1 < 256 /\ 0 <= b2 < 256 /\ 0 <= b3 < 256.
Proof.
  unfold MD5.le_bytes. cbn [seq map].
  do 4 eexists. split; [reflexivity |].
  repeat split; apply Z.mod_pos_bound; lia.
Qed.

(** X8.  Every id is twelve characters long, each one a digit or a letter
    from [a] to [f], whatever the content. *)
Theorem generate_id_shape (content : string) :
  String.length (generate_id content) = 12%nat /\
  Forall hex_char (list_ascii_of_string (generate_id content)).
Proof.
  unfold generate_id, MD5.hexdigest, MD5.digest.
  set (r := MD5.blocks _ _ _).
  destruct (le_bytes_4 (MD5.rA r)) as (a0 & a1 & a2 & a3 & -> & Ha0 & Ha1 & Ha2 & Ha3).
  destruct (le_bytes_4 (MD5.rB r)) as (b0 & b1 & b2 & b3 & -> & Hb0 & Hb1 & Hb2 & Hb3).
  destruct (le_bytes_4 (MD5.rC r)) as (c0 & c1 & c2 & c3 & -> & _).
  destruct (le_bytes_4 (MD5.rD r)) as (d0 & d1 & d2 & d3 & -> & _).
  cbn [app fold_right].
  destruct (hex_byte_chars a0 Ha0) as (h0 & l0 & -> & ? & ?).
  destruct (hex_byte_chars a1 Ha1) as (h1 & l1 & -> & ? & ?).
  destruct (hex_byte_chars a2 Ha2) as (h2 & l2 & -> & ? & ?).
  destruct (hex_byte_chars a3 Ha3) as (h3 & l3 & -> & ? & ?).
  destruct (hex_byte_chars b0 Hb0) as (h4 & l4 & -> & ? & ?).
  destruct (hex_byte_chars b1 Hb1) as (h5 & l5 & -> & ? & ?).
  unfold PyStr.take. change (Z.to_nat 12) with 12%nat.
  cbn [append substring]. cbn [String.length list_ascii_of_string].
  split; [reflexivity |]. repeat (constructor; [assumption |]). constructor.
Qed.

(** ** What a turn adds *)

Lemma process_video_steps (video : Video.t) (scraper : Scraper.t) (kb : KB.t) :
  process_video video scraper kb =
  match get_transcript scraper (Video.video_id video) with
  | None => Ok kb
  | Some td =>
      let extraction :=
        extract_facts_with_llm scraper (KB.calls kb) video (Transcript.full_text td) in
      let described :=
        extract_businesses_from_description scraper (snd extraction)
          (Video.description video) in
      kb1 <- aggregate_extracted video (fst extraction)
               (_infer_category (Video.title video) (Video.description video))
               (set_calls kb (snd extraction)) ;;
      aggregate_description video (fst described) (set_calls kb1 (snd described))
  end.
Proof.
  unfold process_video.
  destruct (get_transcript scraper (Video.video_id video)) as [td |]; [| reflexivity].
  destruct (extract_facts_with_llm _ _ _ _) as [extracted calls1]. simpl.
  destruct (aggregate_extracted _ _ _ _) as [kb1 |]; [| reflexivity]. simpl.
  destruct (extract_businesses_from_description _ _ _). reflexivity.
Qed.

Lemma emit_fact_of_video (scraper : Scraper.t) (video : Video.t)
    (type category : string) (tags : list string) (item : value) (rs : list Fact.t) :
  has_transcript scraper video = true ->
  fact_shape type category tags ->
  (type = "survival_tip" ->
   category = _infer_category (Video.title video) (Video.description video)) ->
  emit_fact video type category tags item = Ok rs ->
  Forall (fact_of_video scraper video) rs.
Proof.
  intros Htd Hshape Hcat. unfold emit_fact.
  destruct item as [| b | n | shown nz | s | l | d | sb sl sa]; simpl; try discriminate.
  intros H. injection H as <-. constructor; [| constructor].
  unfold fact_of_video. simpl. repeat split; try assumption.
  exists s. split; reflexivity.
Qed.

Lemma emit_gear_of_video (scraper : Scraper.t) (video : Video.t) (item : value)
    (rs : list Fact.t) :
  has_transcript scraper video = true ->
  emit_gear video item = Ok rs -> Forall (fact_of_video scraper video) rs.
Proof.
  intros Htd. unfold emit_gear.
  destruct (gear_content item) as [| b | n | shown nz | s | l | d | sb sl sa];
    simpl; try discriminate.
  intros H. injection H as <-. constructor; [| constructor].
  unfold fact_of_video. simpl. split; [exact Htd |].
  split; [reflexivity |]. split; [reflexivity |].
  split; [exists s; split; reflexivity |].
  split; [unfold fact_shape; tauto | discriminate].
Qed.

Lemma emit_joke_of_video (scraper : Scraper.t) (video : Video.t) (item : value)
    (rs : list Joke.t) :
  has_transcript scraper video = true ->
  emit_joke video item = Ok rs -> Forall (joke_of_video scraper video) rs.
Proof.
  intros Htd. unfold emit_joke.
  destruct item as [| b | n | shown nz | s | l | d | sb sl sa]; simpl; try discriminate.
  intros H. injection H as <-. constructor; [| constructor].
  unfold joke_of_video. simpl. repeat split; try assumption.
  exists s. split; reflexivity.
Qed.

Lemma emit_recipe_of_video (scraper : Scraper.t) (video : Video.t) (item : value)
    (rs : list Recipe.t) :
  has_transcript scraper video = true ->
  emit_recipe video item = Ok rs -> Forall (recipe_of_video scraper video) rs.
Proof.
  intros Htd. unfold emit_recipe, add_recipe.
  destruct item as [| b | n | shown nz | s | l | d | sb sl sa];
    try (intros H; injection H as <-; constructor).
  rewrite !(dict_get_lookup d "name").
  destruct (dict_lookup d "name") as [v |].
  - destruct v as [| b | n | shown nz | s | l | d' | sb sl sa]; simpl; try discriminate.
    intros H. injection H as <-. constructor; [| constructor].
    unfold recipe_of_video. simpl. repeat split; try assumption.
    left. exists s. split; reflexivity.
  - simpl. intros H. injection H as <-. constructor; [| constructor].
    unfold recipe_of_video. simpl. repeat split; try assumption.
    right. split; reflexivity.
Qed.

Lemma emit_business_of_video (scraper : Scraper.t) (video : Video.t)
    (described : string) (item : value) (rs : list Business.t) :
  has_transcript scraper video = true ->
  described = "Mentioned in " \/ described = "From video description: " ->
  emit_business video described item = Ok rs ->
  Forall (business_of_video scraper video) rs.
Proof.
  intros Htd Hdescribed. unfold emit_business. intros H.
  destruct (add_business_cases video described [] item)
    as [(d & name & _ & _ & Hne & Heq) | [Hsame | (d & v & _ & _ & _ & _ & e' & _ & Hraise)]].
  - rewrite Heq in H. injection H as <-. constructor; [| constructor].
    unfold business_of_video. simpl. split; [exact Htd |]. split; [reflexivity |].
    split.
    + exists name. repeat split. exact Hne.
    + destruct Hdescribed as [-> | ->]; [left | right]; reflexivity.
  - rewrite Hsame in H. injection H as <-. constructor.
  - rewrite Hraise in H. discriminate.
Qed.

Lemma gathered_Forall {R : Type} (P : R -> Prop) (emit : value -> result (list R))
    (d : list (string * value)) (key : string) (rs : list R) :
  (forall x r, emit x = Ok r -> Forall P r) ->
  gathered d key emit = Ok rs -> Forall P rs.
Proof.
  intros Hemit. unfold gathered.
  destruct (Py.iter _) as [items | e]; simpl; [| discriminate].
  apply gather_Forall. exact Hemit.
Qed.

(** A turn that ends without an exception extends the four collections,
    and with records of its own video only. *)
Lemma process_video_extends (video : Video.t) (scraper : Scraper.t) (kb kb' : KB.t) :
  process_video video scraper kb = Ok kb' ->
  exists added, extends kb kb' added /\ added_from scraper [video] added.
Proof.
  rewrite process_video_steps. unfold has_transcript.
  assert (Hlift : forall (R : Type) (P : Video.t -> R -> Prop) (rs : list R),
             Forall (P video) rs ->
             Forall (fun r => exists v, In v [video] /\ P v r) rs).
  { intros R P rs H. eapply Forall_impl; [| exact H].
    intros r Hr. exists video. split; [left; reflexivity | exact Hr]. }
  destruct (get_transcript scraper (Video.video_id video)) as [td |] eqn:Htd.
  - assert (Hhas : has_transcript scraper video = true)
      by (unfold has_transcript; rewrite Htd; reflexivity).
    cbv zeta.
    destruct (extract_facts_with_llm _ _ _ _) as [extracted calls1]. cbn [fst snd].
    destruct extracted as [| b | n | shown nz | s | l | d | sb sl sa]; try discriminate.
    rewrite aggregate_extracted_mapping.
    destruct (gathered d "survival_tips" _) as [tips |] eqn:Htips; [| discriminate].
    destruct (gathered d "building_techniques" _) as [techs |] eqn:Htechs; [| discriminate].
    destruct (gathered d "life_lessons" _) as [lessons |] eqn:Hlessons; [| discriminate].
    destruct (gathered d "fishing_tips" _) as [fishing |] eqn:Hfishing; [| discriminate].
    destruct (gathered d "gear_recommendations" _) as [gear |] eqn:Hgear; [| discriminate].
    destruct (gathered d "dad_jokes" _) as [jokes |] eqn:Hjokes; [| discriminate].
    destruct (gathered d "recipes" _) as [recipes |] eqn:Hrecipes; [| discriminate].
    destruct (gathered d "businesses_mentioned" _) as [mentioned |] eqn:Hmentioned;
      [| discriminate].
    cbn [Py.bind].
    destruct (extract_businesses_from_description _ _ _) as [desc_businesses calls2].
    cbn [fst snd]. rewrite aggregate_description_gathered.
    destruct (Py.iter desc_businesses) as [items |]; [| discriminate]. cbn [Py.bind].
    destruct (gather _ items) as [described |] eqn:Hdescribed; [| discriminate].
    cbn [Py.bind]. intros H. injection H as <-.
    exists (Added.Build (tips ++ techs ++ lessons ++ fishing ++ gear)
              (mentioned ++ described) jokes recipes).
    split.
    + unfold extends. simpl. rewrite <- !app_assoc. repeat split.
    + unfold added_from. simpl. repeat split; apply Hlift.
      * repeat (apply Forall_app; split).
        -- eapply gathered_Forall; [| exact Htips]. intros x r.
           apply emit_fact_of_video; [exact Hhas | unfold fact_shape; tauto | reflexivity].
        -- eapply gathered_Forall; [| exact Htechs]. intros x r.
           apply emit_fact_of_video; [exact Hhas | unfold fact_shape; tauto | discriminate].
        -- eapply gathered_Forall; [| exact Hlessons]. intros x r.
           apply emit_fact_of_video; [exact Hhas | unfold fact_shape; tauto | discriminate].
        -- eapply gathered_Forall; [| exact Hfishing]. intros x r.
           apply emit_fact_of_video; [exact Hhas | unfold fact_shape; tauto | discriminate].
        -- eapply gathered_Forall; [| exact Hgear]. intros x r.
           apply emit_gear_of_video. exact Hhas.
      * apply Forall_app. split.
        -- eapply gathered_Forall; [| exact Hmentioned]. intros x r.
           apply emit_business_of_video; [exact Hhas | left; reflexivity].
        -- eapply gather_Forall; [| exact Hdescribed]. intros x r.
           apply emit_business_of_video; [exact Hhas | right; reflexivity].
      * eapply gathered_Forall; [| exact Hjokes]. intros x r.
        apply emit_joke_of_video. exact Hhas.
      * eapply gathered_Forall; [| exact Hrecipes]. intros x r.
        apply emit_recipe_of_video. exact Hhas.
  - intros H. injection H as <-. exists (Added.Build [] [] [] []).
    split.
    + unfold extends. simpl. rewrite !app_nil_r. repeat split.
    + unfold added_from. simpl. repeat split; constructor.
Qed.

(** ** What a run adds *)

Lemma run_videos_app (scraper : Scraper.t) (before after : list Video.t) (kb : KB.t) :
  run_videos scraper (before ++ after) kb
  = (kb1 <- run_videos scraper before kb ;; run_videos scraper after kb1).
Proof.
  unfold run_videos. revert kb. induction before as [| v rest IH]; intros kb; simpl.
  - reflexivity.
  - destruct (process_video v scraper kb) as [kb1 |]; simpl; [apply IH | reflexivity].
Qed.

Lemma added_from_incl (scraper : Scraper.t) (videos videos' : list Video.t)
    (added : Added.t) :
  incl videos videos' -> added_from scraper videos added -> added_from scraper videos' added.
Proof.
  intros Hincl (Hf & Hb & Hj & Hr).
  unfold added_from. repeat split;
    (eapply Forall_impl; [| eassumption]);
    intros x (v & Hv & Hx); exists v; (split; [apply Hincl, Hv | exact Hx]).
Qed.

Lemma run_videos_extends (scraper : Scraper.t) (videos : list Video.t) (kb kb' : KB.t) :
  run_videos scraper videos kb = Ok kb' ->
  exists added, extends kb kb' added /\ added_from scraper videos added.
Proof.
  revert kb. induction videos as [| video rest IH]; intros kb.
  - intros H. injection H as <-. exists (Added.Build [] [] [] []). split.
    + unfold extends. simpl. rewrite !app_nil_r. repeat split.
    + unfold added_from. simpl. repeat split; constructor.
  - unfold run_videos. simpl.
    destruct (process_video video scraper kb) as [kb1 |] eqn:Hturn; [| discriminate].
    simpl. intros Hrest.
    destruct (process_video_extends _ _ _ _ Hturn)
      as ([f1 b1 j1 r1] & (Hf1 & Hb1 & Hj1 & Hr1) & Hfrom1).
    destruct (IH kb1 Hrest) as ([f2 b2 j2 r2] & (Hf2 & Hb2 & Hj2 & Hr2) & Hfrom2).
    simpl in *.
    exists (Added.Build (f1 ++ f2) (b1 ++ b2) (j1 ++ j2) (r1 ++ r2)). split.
    + unfold extends. simpl. rewrite Hf2, Hb2, Hj2, Hr2, Hf1, Hb1, Hj1, Hr1.
      rewrite <- !app_assoc. repeat split.
    + apply (added_from_incl scraper [video] (video :: rest)) in Hfrom1;
        [| intros v [<- | []]; left; reflexivity].
      apply (added_from_incl scraper rest (video :: rest)) in Hfrom2;
        [| intros v Hv; right; exact Hv].
      destruct Hfrom1 as (Hf & Hb & Hj & Hr). destruct Hfrom2 as (Hf' & Hb' & Hj' & Hr').
      unfold added_from. simpl in *. repeat split; apply Forall_app; split; assumption.
Qed.

(** X9.  The loop over the videos only appends: when it ends without an
    exception, each of the four collections is the collection it started
    from followed by new records, so no collection gets shorter, and every
    new record is one made in the turn of a video of the list for which a
    transcript was found. *)
Theorem run_only_appends (scraper : Scraper.t) (videos : list Video.t) (kb kb' : KB.t) :
  run_videos scraper videos kb = Ok kb' ->
  exists added,
    extends kb kb' added /\ added_from scraper videos added /\
    (length (KB.all_facts kb) <= length (KB.all_facts kb'))%nat /\
    (length (KB.all_businesses kb) <= length (KB.all_businesses kb'))%nat /\
    (length (KB.all_jokes kb) <= length (KB.all_jokes kb'))%nat /\
    (length (KB.all_recipes kb) <= length (KB.all_recipes kb'))%nat.
Proof.
  intros Hrun. destruct (run_videos_extends _ _ _ _ Hrun) as (added & Hext & Hfrom).
  exists added. split; [exact Hext |]. split; [exact Hfrom |].
  destruct Hext as (-> & -> & -> & ->). rewrite !length_app. repeat split; lia.
Qed.

Lemma run_only_appends_witness :
  exists kb' added,
    run_videos (Sample.scraper Sample.model_tips) [Sample.video1; Sample.video3]
      Sample.earlier = Ok kb' /\
    extends Sample.earlier kb' added /\
    (length (KB.all_jokes Sample.earlier) <= length (KB.all_jokes kb'))%nat.
Proof.
  destruct (run_videos (Sample.scraper Sample.model_tips) [Sample.video1; Sample.video3]
              Sample.earlier) as [kb' |] eqn:Hrun; [| vm_compute in Hrun; discriminate].
  destruct (run_only_appends _ _ _ _ Hrun) as (added & Hext & _ & _ & _ & Hjokes & _).
  exists kb', added. split; [reflexivity |]. split; [exact Hext | exact Hjokes].
Defined.

(** The records of a run that ends without an exception. *)
Lemma build_records (scraper : Scraper.t) (now : string) (max_videos : Z)
    (out : Output.t) :
  build_knowledge_base scraper now max_videos = Ok out ->
  exists videos,
    selected_videos scraper max_videos = Ok videos /\
    added_from scraper videos
      (Added.Build (Output.facts out) (Output.businesses out)
         (Output.jokes out) (Output.recipes out)).
Proof.
  intros Hok.
  destruct (build_knowledge_base_Ok _ _ _ _ Hok)
    as (playlists & uploads & kb & _ & Huploads & Hrun & ->).
  exists (Py.slice_to max_videos uploads).
  split; [unfold selected_videos; rewrite Huploads; reflexivity |].
  destruct (run_videos_extends _ _ _ _ Hrun) as ([f b j r] & (Hf & Hb & Hj & Hr) & Hfrom).
  simpl in *. rewrite Hf, Hb, Hj, Hr. exact Hfrom.
Qed.

(** X10.  In the facts written by a run, every fact belongs to a selected
    video that has a transcript and carries its id and title; its content
    is a string and its id is the id generated from that content; its type
    is one of the five kinds with the category and tags of the kind, the
    category of a survival tip being the one inferred for the video.  Facts
    of equal content have equal ids, also across videos. *)
Theorem facts_written (scraper : Scraper.t) (now : string) (max_videos : Z)
    (out : Output.t) :
  build_knowledge_base scraper now max_videos = Ok out ->
  exists videos,
    selected_videos scraper max_videos = Ok videos /\
    Forall (fun f => exists v, In v videos /\ fact_of_video scraper v f)
           (Output.facts out) /\
    (forall f1 f2, In f1 (Output.facts out) -> In f2 (Output.facts out) ->
                   Fact.content f1 = Fact.content f2 -> Fact.id f1 = Fact.id f2).
Proof.
  intros Hok. destruct (build_records _ _ _ _ Hok) as (videos & Hsel & Hf & _).
  simpl in Hf. exists videos. split; [exact Hsel |]. split; [exact Hf |].
  rewrite Forall_forall in Hf. intros f1 f2 H1 H2 Heq.
  destruct (Hf f1 H1) as (v1 & _ & _ & _ & _ & (s1 & Hc1 & ->) & _).
  destruct (Hf f2 H2) as (v2 & _ & _ & _ & _ & (s2 & Hc2 & ->) & _).
  rewrite Hc1, Hc2 in Heq. injection Heq as ->. reflexivity.
Qed.

Lemma facts_written_witness :
  exists out,
    build_knowledge_base (Sample.scraper Sample.model_tips) Sample.now 3 = Ok out /\
    map Fact.id (Output.facts out) = ["955c16aeb86a"; "955c16aeb86a"] /\
    Forall (fun f => exists v, In v [Sample.video1; Sample.video2; Sample.video3] /\
                               fact_of_video (Sample.scraper Sample.model_tips) v f)
           (Output.facts out).
Proof.
  destruct (build_knowledge_base (Sample.scraper Sample.model_tips) Sample.now 3)
    as [out |] eqn:Hok; [| vm_compute in Hok; discriminate].
  exists out. split; [reflexivity |].
  destruct (facts_written _ _ _ _ Hok) as (videos & Hsel & Hfacts & _).
  vm_compute in Hsel. injection Hsel as <-.
  split; [| exact Hfacts].
  vm_compute in Hok. injection Hok as <-. reflexivity.
Defined.

(** X11.  Every joke written belongs to a selected video with a
    transcript: it carries the id and the title of the video, the title
    again as its context, and a punchline that is a string, from which its
    id is generated. *)
Theorem jokes_written (scraper : Scraper.t) (now : string) (max_videos : Z)
    (out : Output.t) :
  build_knowledge_base scraper now max_videos = Ok out ->
  exists videos,
    selected_videos scraper max_videos = Ok videos /\
    Forall (fun j => exists v, In v videos /\ joke_of_video scraper v j)
           (Output.jokes out).
Proof.
  intros Hok. destruct (build_records _ _ _ _ Hok) as (videos & Hsel & _ & _ & Hj & _).
  exists videos. split; assumption.
Qed.

(** X12.  Every recipe written belongs to a selected video with a
    transcript and is described as coming from it.  Its name is a string
    and its id is generated from the name, or it is named
    ["Unknown Recipe"] and its id is the one generated from the empty
    string. *)
Theorem recipes_written (scraper : Scraper.t) (now : string) (max_videos : Z)
    (out : Output.t) :
  build_knowledge_base scraper now max_videos = Ok out ->
  exists videos,
    selected_videos scraper max_videos = Ok videos /\
    Forall (fun r => exists v, In v videos /\ recipe_of_video scraper v r)
           (Output.recipes out).
Proof.
  intros Hok. destruct (build_records _ _ _ _ Hok) as (videos & Hsel & _ & _ & _ & Hr).
  exists videos. split; assumption.
Qed.

(** X13.  Every business written belongs to a selected video with a
    transcript, which is its single video reference; its name is a string
    that is not empty, its id is generated from the name, and its
    description says which of the two loops made it. *)
Theorem businesses_written (scraper : Scraper.t) (now : string) (max_videos : Z)
    (out : Output.t) :
  build_knowledge_base scraper now max_videos = Ok out ->
  exists videos,
    selected_videos scraper max_videos = Ok videos /\
    Forall (fun b => exists v, In v videos /\ business_of_video scraper v b)
           (Output.businesses out).
Proof.
  intros Hok. destruct (build_records _ _ _ _ Hok) as (videos & Hsel & _ & Hb & _).
  exists videos. split; assumption.
Qed.

Lemma records_written_witness_run :
  exists out,
    build_knowledge_base (Sample.scraper Cases.model_full) Sample.now 1 = Ok out /\
    map Joke.punchline (Output.jokes out) = [VStr "lettuce pray"] /\
    map Recipe.name (Output.recipes out) = [VStr "Trout chowder"; VStr "Unknown Recipe"] /\
    map Recipe.id (Output.recipes out) = ["e2233918bbe2"; "d41d8cd98f00"] /\
    map Business.description (Output.businesses out)
    = ["Mentioned in Ice fishing for trout";
       "From video description: Ice fishing for trout"].
Proof.
  eexists. split; [vm_compute; reflexivity |]. repeat split.
Defined.

Lemma jokes_written_witness :
  exists out,
    build_knowledge_base (Sample.scraper Cases.model_full) Sample.now 1 = Ok out /\
    Forall (fun j => exists v, In v [Sample.video1] /\
                               joke_of_video (Sample.scraper Cases.model_full) v j)
           (Output.jokes out).
Proof.
  destruct records_written_witness_run as (out & Hok & _).
  exists out. split; [exact Hok |].
  destruct (jokes_written _ _ _ _ Hok) as (videos & Hsel & Hjokes).
  vm_compute in Hsel. injection Hsel as <-. exact Hjokes.
Defined.

Lemma recipes_written_witness :
  exists out,
    build_knowledge_base (Sample.scraper Cases.model_full) Sample.now 1 = Ok out /\
    Forall (fun r => exists v, In v [Sample.video1] /\
                               recipe_of_video (Sample.scraper Cases.model_full) v r)
           (Output.recipes out).
Proof.
  destruct records_written_witness_run as (out & Hok & _).
  exists out. split; [exact Hok |].
  destruct (recipes_written _ _ _ _ Hok) as (videos & Hsel & Hrecipes).
  vm_compute in Hsel. injection Hsel as <-. exact Hrecipes.
Defined.

Lemma businesses_written_witness :
  exists out,
    build_knowledge_base (Sample.scraper Cases.model_full) Sample.now 1 = Ok out /\
    Forall (fun b => exists v, In v [Sample.video1] /\
                               business_of_video (Sample.scraper Cases.model_full) v b)
           (Output.businesses out).
Proof.
  destruct records_written_witness_run as (out & Hok & _).
  exists out. split; [exact Hok |].
  destruct (businesses_written _ _ _ _ Hok) as (videos & Hsel & Hbiz).
  vm_compute in Hsel. injection Hsel as <-. exact Hbiz.
Defined.

(** ** Requests to the language model *)

Lemma aggregate_extracted_calls (video : Video.t) (extracted : value)
    (category : string) (kb kb1 : KB.t) :
  aggregate_extracted video extracted category kb = Ok kb1 ->
  KB.calls kb1 = KB.calls kb.
Proof.
  destruct extracted as [| b | n | shown nz | s | l | d | sb sl sa]; try discriminate.
  rewrite aggregate_extracted_mapping.
  repeat (match goal with
          | |- context [gathered d ?key ?emit] =>
              destruct (gathered d key emit); cbn [Py.bind]; [| discriminate]
          end).
  intros H. injection H as <-. reflexivity.
Qed.

Lemma aggregate_description_calls (video : Video.t) (desc_businesses : value)
    (kb kb1 : KB.t) :
  aggregate_description video desc_businesses kb = Ok kb1 ->
  KB.calls kb1 = KB.calls kb.
Proof.
  rewrite aggregate_description_gathered.
  destruct (Py.iter desc_businesses); cbn [Py.bind]; [| discriminate].
  destruct (gather _ _); cbn [Py.bind]; [| discriminate].
  intros H. injection H as <-. reflexivity.
Qed.

Lemma process_video_calls (video : Video.t) (scraper : Scraper.t) (kb kb' : KB.t) :
  process_video video scraper kb = Ok kb' ->
  KB.calls kb' = (KB.calls kb + requests_for scraper [video])%nat.
Proof.
  rewrite process_video_steps. unfold requests_for, has_transcript. simpl filter.
  destruct (get_transcript scraper (Video.video_id video)) as [td |].
  - cbv zeta.
    destruct (aggregate_extracted _ _ _ _) as [kb1 |] eqn:H1; [| discriminate].
    cbn [Py.bind]. intros H2.
    apply aggregate_extracted_calls in H1. apply aggregate_description_calls in H2.
    rewrite H2. destruct kb1 as [f b j r c1]. simpl in *. clear H1 H2.
    unfold extract_businesses_from_description, extract_facts_with_llm.
    destruct (Scraper.anthropic scraper) as [client |]; simpl; [| lia].
    destruct (client (KB.calls kb) _) as [| [parsed |]]; simpl;
      destruct (client _ (BusinessPrompt _)) as [| [parsed' |]]; simpl; lia.
  - intros H. injection H as <-. destruct (Scraper.anthropic scraper); simpl; lia.
Qed.

Lemma requests_for_cons (scraper : Scraper.t) (video : Video.t) (rest : list Video.t) :
  requests_for scraper (video :: rest)
  = (requests_for scraper [video] + requests_for scraper rest)%nat.
Proof.
  unfold requests_for. destruct (Scraper.anthropic scraper); [| reflexivity].
  simpl. destruct (has_transcript scraper video); simpl; lia.
Qed.

(** X14.  A run that ends without an exception has sent the language
    model exactly two requests for each video with a transcript, one per
    prompt, when a client is configured, and none otherwise; so never more
    than two per video of the list. *)
Theorem requests_per_video (scraper : Scraper.t) (videos : list Video.t) (kb kb' : KB.t) :
  run_videos scraper videos kb = Ok kb' ->
  KB.calls kb' = (KB.calls kb + requests_for scraper videos)%nat /\
  (requests_for scraper videos <= 2 * length videos)%nat /\
  (Scraper.anthropic scraper = None -> KB.calls kb' = KB.calls kb) /\
  (forall client, Scraper.anthropic scraper = Some client ->
     KB.calls kb'
     = (KB.calls kb + 2 * length (filter (has_transcript scraper) videos))%nat).
Proof.
  intros Hrun.
  assert (Hcalls : KB.calls kb' = (KB.calls kb + requests_for scraper videos)%nat).
  { revert kb Hrun. induction videos as [| video rest IH]; intros kb.
    - intros H. injection H as <-. unfold requests_for.
      destruct (Scraper.anthropic scraper); simpl; lia.
    - unfold run_videos. simpl.
      destruct (process_video video scraper kb) as [kb1 |] eqn:Hturn; [| discriminate].
      simpl. intros Hrest. apply IH in Hrest. apply process_video_calls in Hturn.
      rewrite requests_for_cons. lia. }
  split; [exact Hcalls |]. split; [| split].
  - unfold requests_for. destruct (Scraper.anthropic scraper); [| lia].
    pose proof (filter_length_le (has_transcript scraper) videos). lia.
  - intros Hnone. rewrite Hcalls. unfold requests_for. rewrite Hnone. lia.
  - intros client Hclient. rewrite Hcalls. unfold requests_for. rewrite Hclient.
    reflexivity.
Qed.

Lemma requests_per_video_witness :
  exists kb',
    run_videos (Sample.scraper Sample.model_tips)
      [Sample.video1; Sample.video2; Sample.video3] empty_kb = Ok kb' /\
    KB.calls kb' = 4%nat.
Proof.
  destruct (run_videos (Sample.scraper Sample.model_tips)
              [Sample.video1; Sample.video2; Sample.video3] empty_kb)
    as [kb' |] eqn:Hrun; [| vm_compute in Hrun; discriminate].
  exists kb'. split; [reflexivity |].
  destruct (requests_per_video _ _ _ _ Hrun) as (Hcalls & _).
  rewrite Hcalls. reflexivity.
Defined.

(** ** Malformed extractions *)

Lemma gather_strings_only {R : Type} (emit : value -> result (list R))
    (items : list value) (rs : list R) :
  (forall x, is_str x = false -> exists e, emit x = Raise e) ->
  gather emit items = Ok rs -> Forall (fun x => is_str x = true) items.
Proof.
  intros Hemit. revert rs. induction items as [| x rest IH]; intros rs; simpl.
  - constructor.
  - destruct (emit x) as [r |] eqn:Hx; simpl; [| discriminate].
    destruct (gather emit rest) as [rs' |]; simpl; [| discriminate].
    intros _. constructor; [| eapply IH; reflexivity].
    destruct (is_str x) eqn:Hstr; [reflexivity |].
    destruct (Hemit x Hstr) as [e He]. congruence.
Qed.

Lemma emit_fact_needs_string (video : Video.t) (type category : string)
    (tags : list string) (x : value) :
  is_str x = false -> exists e, emit_fact video type category tags x = Raise e.
Proof. destruct x; try discriminate; intros _; exists AttributeError; reflexivity. Qed.

Lemma emit_joke_needs_string (video : Video.t) (x : value) :
  is_str x = false -> exists e, emit_joke video x = Raise e.
Proof. destruct x; try discriminate; intros _; exists AttributeError; reflexivity. Qed.

Lemma gathered_items {R : Type} (emit : value -> result (list R))
    (d : list (string * value)) (key : string) (rs : list R) :
  gathered d key emit = Ok rs ->
  exists items,
    Py.iter (dict_get d key (VList [])) = Ok items /\ gather emit items = Ok rs.
Proof.
  unfold gathered. destruct (Py.iter _) as [items |]; simpl; [| discriminate].
  intros H. exists items. split; [reflexivity | exact H].
Qed.

(** A turn part that ends without an exception has read a mapping whose
    eight fields could be looped over, those of texts holding strings
    only. *)
Lemma aggregate_extracted_well_formed (video : Video.t) (extracted : value)
    (category : string) (kb kb1 : KB.t) :
  aggregate_extracted video extracted category kb = Ok kb1 ->
  exists d,
    extracted = VDict d /\
    forall key, In key read_fields ->
      exists items,
        Py.iter (dict_get d key (VList [])) = Ok items /\
        (In key text_fields -> Forall (fun x => is_str x = true) items).
Proof.
  destruct extracted as [| b | n | shown nz | s | l | d | sb sl sa]; try discriminate.
  rewrite aggregate_extracted_mapping.
  destruct (gathered d "survival_tips" _) as [r1 |] eqn:H1; [| discriminate].
  destruct (gathered d "building_techniques" _) as [r2 |] eqn:H2; [| discriminate].
  destruct (gathered d "life_lessons" _) as [r3 |] eqn:H3; [| discriminate].
  destruct (gathered d "fishing_tips" _) as [r4 |] eqn:H4; [| discriminate].
  destruct (gathered d "gear_recommendations" _) as [r5 |] eqn:H5; [| discriminate].
  destruct (gathered d "dad_jokes" _) as [r6 |] eqn:H6; [| discriminate].
  destruct (gathered d "recipes" _) as [r7 |] eqn:H7; [| discriminate].
  destruct (gathered d "businesses_mentioned" _) as [r8 |] eqn:H8; [| discriminate].
  intros _. exists d. split; [reflexivity |].
  apply gathered_items in H1, H2, H3, H4, H5, H6, H7, H8.
  destruct H1 as (i1 & Hi1 & Hg1). destruct H2 as (i2 & Hi2 & Hg2).
  destruct H3 as (i3 & Hi3 & Hg3). destruct H4 as (i4 & Hi4 & Hg4).
  destruct H5 as (i5 & Hi5 & _). destruct H6 as (i6 & Hi6 & Hg6).
  destruct H7 as (i7 & Hi7 & _). destruct H8 as (i8 & Hi8 & _).
  apply gather_strings_only in Hg1, Hg2, Hg3, Hg4, Hg6;
    try apply emit_fact_needs_string; try apply emit_joke_needs_string.
  intros key Hkey. simpl in Hkey.
  destruct Hkey as [<- | [<- | [<- | [<- | [<- | [<- | [<- | [<- | []]]]]]]]];
    eexists; (split; [eassumption |]); try (intros _; assumption);
    simpl; intros Hin; repeat (destruct Hin as [Hin | Hin]; [discriminate |]);
    destruct Hin.
Qed.

Lemma gather_raises {R : Type} (emit : value -> result (list R))
    (items : list value) (e : exn) :
  (forall x e', emit x = Raise e' -> item_exception e') ->
  gather emit items = Raise e -> item_exception e.
Proof.
  intros Hemit. induction items as [| x rest IH]; simpl; [discriminate |].
  destruct (emit x) as [r |] eqn:Hx; simpl.
  - destruct (gather emit rest) as [rs |]; simpl; [discriminate |].
    intros H. injection H as <-. apply IH. reflexivity.
  - intros H. injection H as <-. eapply Hemit. exact Hx.
Qed.

Lemma iter_raises (x : value) (e : exn) : Py.iter x = Raise e -> e = TypeError.
Proof. destruct x; simpl; intros H; try discriminate; injection H as <-; reflexivity. Qed.

Lemma item_is_turn_exception (e : exn) : item_exception e -> turn_exception e.
Proof. unfold item_exception, turn_exception. tauto. Qed.

Lemma gathered_raises {R : Type} (emit : value -> result (list R))
    (d : list (string * value)) (key : string) (e : exn) :
  (forall x e', emit x = Raise e' -> item_exception e') ->
  gathered d key emit = Raise e -> turn_exception e.
Proof.
  intros Hemit. unfold gathered.
  destruct (Py.iter (dict_get d key (VList []))) as [items | e'] eqn:Hiter;
    cbn [Py.bind].
  - intros H. apply item_is_turn_exception. eapply gather_raises; eauto.
  - intros H. injection H as <-. apply iter_raises in Hiter. subst e'.
    unfold turn_exception. tauto.
Qed.

Lemma generate_id_of_raises (x : value) (e : exn) :
  generate_id_of x = Raise e -> item_exception e.
Proof.
  unfold item_exception.
  destruct x; simpl; intros H; try discriminate; injection H as <-; tauto.
Qed.

Lemma emit_fact_raises (video : Video.t) (type category : string) (tags : list string)
    (x : value) (e : exn) :
  emit_fact video type category tags x = Raise e -> item_exception e.
Proof.
  unfold emit_fact. destruct (generate_id_of x) as [id | e'] eqn:Hid; simpl;
    [discriminate |].
  intros H. injection H as <-. eapply generate_id_of_raises. exact Hid.
Qed.

Lemma emit_gear_raises (video : Video.t) (x : value) (e : exn) :
  emit_gear video x = Raise e -> item_exception e.
Proof.
  unfold emit_gear. destruct (generate_id_of (gear_content x)) as [id | e'] eqn:Hid;
    simpl; [discriminate |].
  intros H. injection H as <-. eapply generate_id_of_raises. exact Hid.
Qed.

Lemma emit_joke_raises (video : Video.t) (x : value) (e : exn) :
  emit_joke video x = Raise e -> item_exception e.
Proof.
  unfold emit_joke. destruct (generate_id_of x) as [id | e'] eqn:Hid; simpl;
    [discriminate |].
  intros H. injection H as <-. eapply generate_id_of_raises. exact Hid.
Qed.

Lemma emit_recipe_raises (video : Video.t) (x : value) (e : exn) :
  emit_recipe video x = Raise e -> item_exception e.
Proof.
  unfold emit_recipe, add_recipe. destruct x; try discriminate.
  destruct (generate_id_of _) as [id | e'] eqn:Hid; simpl; [discriminate |].
  intros H. injection H as <-. eapply generate_id_of_raises. exact Hid.
Qed.

Lemma emit_business_raises (video : Video.t) (described : string) (x : value) (e : exn) :
  emit_business video described x = Raise e -> item_exception e.
Proof.
  unfold emit_business. intros H.
  destruct (add_business_cases video described [] x)
    as [(d & name & _ & _ & _ & Heq) | [Hsame | (d & v & _ & _ & _ & _ & e' & Hid & Hraise)]];
    try congruence.
  rewrite Hraise in H. injection H as <-. eapply generate_id_of_raises. exact Hid.
Qed.

Lemma aggregate_description_raises (video : Video.t) (answer : value) (kb : KB.t)
    (e : exn) :
  aggregate_description video answer kb = Raise e -> turn_exception e.
Proof.
  rewrite aggregate_description_gathered.
  destruct (Py.iter answer) as [items | e'] eqn:Hiter; cbn [Py.bind].
  - destruct (gather _ items) as [rs | e'] eqn:Hg; cbn [Py.bind]; [discriminate |].
    intros H. injection H as <-. apply item_is_turn_exception.
    eapply gather_raises; [apply emit_business_raises | exact Hg].
  - intros H. injection H as <-. apply iter_raises in Hiter. subst e'.
    unfold turn_exception. tauto.
Qed.

Lemma aggregate_extracted_raises (video : Video.t) (extracted : value)
    (category : string) (kb : KB.t) (e : exn) :
  aggregate_extracted video extracted category kb = Raise e -> turn_exception e.
Proof.
  destruct (Py.is_dict extracted) eqn:Hdict.
  - destruct extracted as [| b | n | shown nz | s | l | d | sb sl sa]; try discriminate.
    rewrite aggregate_extracted_mapping.
    destruct (gathered d "survival_tips" _) as [r1 | e1] eqn:E1; cbn [Py.bind];
      [| intros H; injection H as <-;
         eapply gathered_raises; [apply emit_fact_raises | exact E1]].
    destruct (gathered d "building_techniques" _) as [r2 | e2] eqn:E2; cbn [Py.bind];
      [| intros H; injection H as <-;
         eapply gathered_raises; [apply emit_fact_raises | exact E2]].
    destruct (gathered d "life_lessons" _) as [r3 | e3] eqn:E3; cbn [Py.bind];
      [| intros H; injection H as <-;
         eapply gathered_raises; [apply emit_fact_raises | exact E3]].
    destruct (gathered d "fishing_tips" _) as [r4 | e4] eqn:E4; cbn [Py.bind];
      [| intros H; injection H as <-;
         eapply gathered_raises; [apply emit_fact_raises | exact E4]].
    destruct (gathered d "gear_recommendations" _) as [r5 | e5] eqn:E5; cbn [Py.bind];
      [| intros H; injection H as <-;
         eapply gathered_raises; [apply emit_gear_raises | exact E5]].
    destruct (gathered d "dad_jokes" _) as [r6 | e6] eqn:E6; cbn [Py.bind];
      [| intros H; injection H as <-;
         eapply gathered_raises; [apply emit_joke_raises | exact E6]].
    destruct (gathered d "recipes" _) as [r7 | e7] eqn:E7; cbn [Py.bind];
      [| intros H; injection H as <-;
         eapply gathered_raises; [apply emit_recipe_raises | exact E7]].
    destruct (gathered d "businesses_mentioned" _) as [r8 | e8] eqn:E8; cbn [Py.bind];
      [| intros H; injection H as <-;
         eapply gathered_raises; [apply emit_business_raises | exact E8]].
    discriminate.
  - rewrite (aggregate_extracted_not_mapping _ _ _ _ Hdict).
    intros H. injection H as <-. unfold turn_exception. tauto.
Qed.

(** X15.  The only exceptions a turn of the video loop raises are
    [AttributeError] (a method of dicts or of strs called on a value of
    another type), [TypeError] (a loop over a value that cannot be looped
    over) and [UnicodeEncodeError] (the id of a str with a lone
    surrogate). *)
Theorem turn_exceptions (video : Video.t) (scraper : Scraper.t) (kb : KB.t) (e : exn) :
  process_video video scraper kb = Raise e ->
  e = AttributeError \/ e = TypeError \/ e = UnicodeEncodeError.
Proof.
  rewrite process_video_steps.
  destruct (get_transcript scraper (Video.video_id video)) as [td |]; [| discriminate].
  cbv zeta.
  destruct (aggregate_extracted _ _ _ _) as [kb1 | e1] eqn:H1; cbn [Py.bind].
  - apply aggregate_description_raises.
  - intros H. injection H as <-. eapply aggregate_extracted_raises. exact H1.
Qed.

Lemma turn_exceptions_witness :
  process_video Sample.video1 (Sample.scraper Cases.model_lone_tip) empty_kb
  = Raise UnicodeEncodeError /\
  (UnicodeEncodeError = AttributeError \/ UnicodeEncodeError = TypeError \/
   UnicodeEncodeError = UnicodeEncodeError).
Proof.
  assert (H : process_video Sample.video1 (Sample.scraper Cases.model_lone_tip) empty_kb
              = Raise UnicodeEncodeError) by reflexivity.
  split; [exact H |].
  exact (turn_exceptions Sample.video1 (Sample.scraper Cases.model_lone_tip) empty_kb
           UnicodeEncodeError H).
Defined.

(** X16.  A field of the extraction that cannot be looped over ([null], a
    number, a boolean), and a field of texts (tips, techniques, lessons,
    jokes) one of whose items is not a string, make the turn of the video
    raise: no collection is returned for the video, and the exception is
    not caught by the loop. *)
Theorem malformed_field_aborts (video : Video.t) (scraper : Scraper.t) (kb : KB.t)
    (td : Transcript.t) (d : list (string * value)) (key : string) :
  get_transcript scraper (Video.video_id video) = Some td ->
  fst (extract_facts_with_llm scraper (KB.calls kb) video (Transcript.full_text td))
  = VDict d ->
  In key read_fields ->
  iterable (dict_get d key (VList [])) = false \/
  (In key text_fields /\
   exists items item,
     Py.iter (dict_get d key (VList [])) = Ok items /\
     In item items /\ is_str item = false) ->
  (exists e, process_video video scraper kb = Raise e) /\
  forall rest, exists e, run_videos scraper (video :: rest) kb = Raise e.
Proof.
  intros Htd Hd Hkey Hbad.
  assert (Hturn : exists e, process_video video scraper kb = Raise e).
  { destruct (process_video video scraper kb) as [kb' | e] eqn:Hok; [| eauto].
    exfalso. rewrite process_video_steps, Htd in Hok. cbv zeta in Hok.
    destruct (aggregate_extracted _ _ _ _) as [kb1 |] eqn:H1; [| discriminate].
    apply aggregate_extracted_well_formed in H1.
    destruct H1 as (d' & Hd' & Hfields). rewrite Hd in Hd'. injection Hd' as <-.
    destruct (Hfields key Hkey) as (items & Hiter & Hstrings).
    destruct Hbad as [Hnot | (Htext & items' & item & Hiter' & Hin & Hitem)].
    - unfold iterable in Hnot. rewrite Hiter in Hnot. discriminate.
    - rewrite Hiter in Hiter'. injection Hiter' as <-.
      specialize (Hstrings Htext). rewrite Forall_forall in Hstrings.
      rewrite (Hstrings item Hin) in Hitem. discriminate. }
  split; [exact Hturn |].
  intros rest. destruct Hturn as [e He]. exists e.
  unfold run_videos. simpl. rewrite He. reflexivity.
Qed.

Lemma malformed_field_aborts_witness :
  (exists e, process_video Sample.video1 (Sample.scraper Cases.model_number_tip) empty_kb
             = Raise e) /\
  (exists e, process_video Sample.video1 (Sample.scraper Cases.model_null_jokes) empty_kb
             = Raise e).
Proof.
  split.
  - apply (malformed_field_aborts Sample.video1 (Sample.scraper Cases.model_number_tip)
             empty_kb
             (Transcript.Build "vid1" ["when the lake is frozen"; "drink the first melt"]
                "when the lake is frozen drink the first melt")
             [("survival_tips", VList [VStr "stay dry"; VInt 3])] "survival_tips");
      [reflexivity | reflexivity | simpl; tauto |].
    right. split; [simpl; tauto |].
    exists [VStr "stay dry"; VInt 3], (VInt 3).
    split; [reflexivity |]. split; [simpl; tauto | reflexivity].
  - apply (malformed_field_aborts Sample.video1 (Sample.scraper Cases.model_null_jokes)
             empty_kb
             (Transcript.Build "vid1" ["when the lake is frozen"; "drink the first melt"]
                "when the lake is frozen drink the first melt")
             [("dad_jokes", VNone)] "dad_jokes");
      [reflexivity | reflexivity | simpl; tauto |].
    left. reflexivity.
Defined.

(** ** Strs with a lone surrogate, checked against Python *)

Example repr_lone_surrogate :
  Py.repr (VList [VStrLone "a" Cases.d83d []; VStr "b"]) = "['a\ud83d', 'b']".
Proof. reflexivity. Qed.

Example iter_lone_surrogate :
  Py.iter (VStrLone "a" Cases.d83d (PyStr.of_string "b"))
  = Ok [VStr "a"; VStrLone "" Cases.d83d []; VStr "b"].
Proof. reflexivity. Qed.

Example gear_content_lone_surrogate :
  gear_content (VDict [("name", VStrLone "" Cases.d83d [])])
  = VStrLone "" Cases.d83d (PyStr.of_string ":  - ") /\
  gear_content (VList [VStrLone "" Cases.d83d []]) = VStr "['\ud83d']".
Proof. split; reflexivity. Qed.

(** ** Fields of an unexpected shape that do not raise *)

Lemma gather_texts (video : Video.t) (type category : string) (tags : list string)
    (texts : list string) :
  gather (emit_fact video type category tags) (map VStr texts)
  = Ok (map (fun s => Fact.Build (generate_id s) type (VStr s) category
                        (Video.video_id video) (Video.title video) tags) texts).
Proof.
  induction texts as [| s rest IH]; simpl; [reflexivity |].
  rewrite IH. reflexivity.
Qed.

Lemma chars_length (s : string) : length (PyStr.chars s) = String.length s.
Proof. induction s as [| c s IH]; simpl; [reflexivity | rewrite IH; reflexivity]. Qed.

Lemma chars_of_string (s : string) :
  map Py.of_char (PyStr.of_string s) = map VStr (PyStr.chars s).
Proof. induction s as [| c s IH]; simpl; [reflexivity | rewrite IH; reflexivity]. Qed.

Lemma gather_stops {R : Type} (emit : value -> result (list R))
    (done : list value) (rs : list R) (x : value) (rest : list value) (e : exn) :
  gather emit done = Ok rs -> emit x = Raise e ->
  gather emit (done ++ x :: rest) = Raise e.
Proof.
  revert rs. induction done as [| y done IH]; intros rs; simpl.
  - intros _ ->. reflexivity.
  - destruct (emit y) as [r |]; simpl; [| discriminate].
    destruct (gather emit done) as [rs' |] eqn:Hdone; simpl; [| discriminate].
    intros _ Hx. rewrite (IH rs' eq_refl Hx). reflexivity.
Qed.

(** X17.  When the model gives the survival tips as one str instead of a
    list of strs, the loop runs over the characters of the str.  For a str
    without lone surrogate one survival tip is appended per character; for
    a str that holds a lone surrogate the id of that character cannot be
    generated and the loop raises [UnicodeEncodeError]. *)
Theorem tips_given_as_string (video : Video.t) (category : string)
    (d : list (string * value)) (acc : list Fact.t) :
  (forall s,
     dict_get d "survival_tips" (VList []) = VStr s ->
     exists added,
       loop_over (Py.get (VDict d) "survival_tips" (VList []))
         (add_survival_tip video category) acc = Ok (acc ++ added)%list /\
       added = map (survival_tip_of video category) (PyStr.chars s) /\
       length added = String.length s) /\
  (forall before lone after,
     dict_get d "survival_tips" (VList []) = VStrLone before lone after ->
     loop_over (Py.get (VDict d) "survival_tips" (VList []))
       (add_survival_tip video category) acc = Raise UnicodeEncodeError).
Proof.
  split.
  - intros s Hs. eexists. split; [| split; [reflexivity |]].
    + rewrite (loop_over_field _ _ d "survival_tips" _
                 (add_survival_tip_appends video category)).
      unfold gathered. rewrite Hs. simpl Py.iter. cbn [Py.bind].
      rewrite gather_texts. reflexivity.
    + rewrite length_map. apply chars_length.
  - intros before lone after Hlone.
    rewrite (loop_over_field _ _ d "survival_tips" _
               (add_survival_tip_appends video category)).
    unfold gathered. rewrite Hlone. simpl Py.iter. cbn [Py.bind].
    unfold Py.lone_text. rewrite map_app, chars_of_string. cbn [map Py.of_char].
    erewrite gather_stops; [reflexivity | apply gather_texts | reflexivity].
Qed.

Lemma tips_given_as_string_witness :
  loop_over (Py.get (VDict [("survival_tips", VStr "dry")]) "survival_tips" (VList []))
    (add_survival_tip Sample.video3 "general") []
  = Ok [survival_tip_of Sample.video3 "general" "d";
        survival_tip_of Sample.video3 "general" "r";
        survival_tip_of Sample.video3 "general" "y"] /\
  loop_over (Py.get (VDict [("survival_tips", VStrLone "dr" Cases.d83d [])])
               "survival_tips" (VList []))
    (add_survival_tip Sample.video3 "general") []
  = Raise UnicodeEncodeError.
Proof.
  split.
  - destruct (proj1 (tips_given_as_string Sample.video3 "general"
                       [("survival_tips", VStr "dry")] []) "dry" eq_refl)
      as (added & Hloop & -> & _).
    exact Hloop.
  - apply (proj2 (tips_given_as_string Sample.video3 "general"
                    [("survival_tips", VStrLone "dr" Cases.d83d [])] [])
             "dr" Cases.d83d []).
    reflexivity.
Defined.

Lemma gather_no_mapping {R : Type} (emit : value -> result (list R))
    (items : list value) :
  (forall x, Py.is_dict x = false -> emit x = Ok []) ->
  Forall (fun x => Py.is_dict x = false) items ->
  gather emit items = Ok [].
Proof.
  intros Hemit Hitems. induction Hitems as [| x rest Hx _ IH]; simpl; [reflexivity |].
  rewrite (Hemit x Hx), IH. reflexivity.
Qed.

Lemma emit_business_no_mapping (video : Video.t) (described : string) (x : value) :
  Py.is_dict x = false -> emit_business video described x = Ok [].
Proof. destruct x; try discriminate; reflexivity. Qed.

(** X18.  The answer to the description prompt is looped over whatever
    its type.  A list without mappings, a string (looped over by character)
    and a mapping (looped over by key) add no business and raise nothing;
    [null], a number or a boolean raises [TypeError]. *)
Theorem description_answer_shapes (video : Video.t) (kb : KB.t) (answer : value) :
  ((exists items, answer = VList items /\ Forall (fun x => Py.is_dict x = false) items) \/
   (exists s, answer = VStr s) \/ (exists fields, answer = VDict fields) ->
   aggregate_description video answer kb = Ok kb) /\
  (iterable answer = false ->
   aggregate_description video answer kb = Raise TypeError).
Proof.
  split.
  - intros Hshape. rewrite aggregate_description_gathered.
    assert (Hnone : exists items,
               Py.iter answer = Ok items /\
               Forall (fun x => Py.is_dict x = false) items).
    { destruct Hshape as [(items & -> & Hitems) | [(s & ->) | (fields & ->)]].
      - exists items. split; [reflexivity | exact Hitems].
      - eexists. split; [reflexivity |]. apply Forall_map, Forall_forall. reflexivity.
      - eexists. split; [reflexivity |]. apply Forall_map, Forall_forall. reflexivity. }
    destruct Hnone as (items & -> & Hitems). cbn [Py.bind].
    rewrite (gather_no_mapping _ items (emit_business_no_mapping video _) Hitems).
    cbn [Py.bind]. rewrite app_nil_r. destruct kb. reflexivity.
  - unfold iterable. intros Hnot. rewrite aggregate_description_gathered.
    destruct answer; simpl in Hnot; try discriminate; reflexivity.
Qed.

Lemma description_answer_shapes_witness :
  aggregate_description Sample.video1 (VDict [("name", VStr "Acme Charters")])
    Sample.earlier = Ok Sample.earlier /\
  aggregate_description Sample.video1 VNone Sample.earlier = Raise TypeError.
Proof.
  split.
  - apply (proj1 (description_answer_shapes Sample.video1 Sample.earlier
                    (VDict [("name", VStr "Acme Charters")]))).
    right. right. eexists. reflexivity.
  - apply (proj2 (description_answer_shapes Sample.video1 Sample.earlier VNone)).
    reflexivity.
Defined.

(** ** Gear and recipes *)

Lemma of_text_str (t : PyStr.text) : is_str (Py.of_text t) = true.
Proof.
  induction t as [| [c | lone] rest IH]; simpl; try reflexivity.
  destruct (Py.of_text rest); try discriminate; reflexivity.
Qed.

Lemma gear_content_str (gear : value) : is_str (gear_content gear) = true.
Proof. destruct gear; try reflexivity. apply of_text_str. Qed.

Lemma emit_gear_cases (video : Video.t) (gear : value) :
  (has_lone_surrogate (gear_content gear) = false /\
   exists content,
     gear_content gear = VStr content /\
     emit_gear video gear = Ok [gear_fact_of video content])
  \/ (has_lone_surrogate (gear_content gear) = true /\
      emit_gear video gear = Raise UnicodeEncodeError).
Proof.
  unfold emit_gear. pose proof (gear_content_str gear) as Hstr.
  destruct (gear_content gear) as [| b | n | shown nz | s | l | d | sb sl sa];
    try discriminate.
  - left. split; [reflexivity |]. exists s. split; reflexivity.
  - right. split; reflexivity.
Qed.

Lemma gather_gear (video : Video.t) (items : list value) :
  Forall (fun gear => has_lone_surrogate (gear_content gear) = false) items ->
  exists contents,
    map gear_content items = map VStr contents /\
    gather (emit_gear video) items = Ok (map (gear_fact_of video) contents).
Proof.
  induction 1 as [| gear rest Hgear _ (contents & Hmap & Hgather)].
  - exists []. split; reflexivity.
  - destruct (emit_gear_cases video gear) as [(_ & content & Hc & Hemit) | [Hlone _]];
      [| congruence].
    exists (content :: contents). simpl. rewrite Hc, Hmap, Hemit, Hgather.
    split; reflexivity.
Qed.

Lemma gather_gear_raises (video : Video.t) (items : list value) :
  Exists (fun gear => has_lone_surrogate (gear_content gear) = true) items ->
  gather (emit_gear video) items = Raise UnicodeEncodeError.
Proof.
  induction items as [| gear rest IH]; intros Hex; [inversion Hex |].
  simpl. destruct (emit_gear_cases video gear) as [(Hplain & content & _ & Hemit) | [_ Hemit]].
  - rewrite Hemit. simpl. rewrite IH; [reflexivity |].
    inversion Hex as [? ? Hhere | ? ? Hlater]; subst; [congruence | exact Hlater].
  - rewrite Hemit. reflexivity.
Qed.

(** X19.  The gear loop never skips an item of a list, and it raises for
    one reason only.  When the content made of every item can be encoded,
    one gear fact is appended per item, in order, whatever the items are;
    when the content of some item holds a lone surrogate, the loop raises
    [UnicodeEncodeError].  The content of an item that is not a mapping
    holds a lone surrogate exactly when the item is a str that does (inside
    a list it is shown by its escape); a mapping without any of the three
    fields gives the content ["Unknown:  - "]. *)
Theorem gear_loop_total (video : Video.t) (d : list (string * value))
    (items : list value) (acc : list Fact.t) :
  dict_get d "gear_recommendations" (VList []) = VList items ->
  (Forall (fun gear => has_lone_surrogate (gear_content gear) = false) items ->
   exists contents,
     map gear_content items = map VStr contents /\
     loop_over (Py.get (VDict d) "gear_recommendations" (VList [])) (add_gear video) acc
     = Ok (acc ++ map (gear_fact_of video) contents)%list) /\
  (Exists (fun gear => has_lone_surrogate (gear_content gear) = true) items ->
   loop_over (Py.get (VDict d) "gear_recommendations" (VList [])) (add_gear video) acc
   = Raise UnicodeEncodeError) /\
  (forall gear, Py.is_dict gear = false ->
     has_lone_surrogate (gear_content gear) = has_lone_surrogate gear) /\
  (forall fields,
     dict_lookup fields "name" = None -> dict_lookup fields "use" = None ->
     dict_lookup fields "recommendation" = None ->
     gear_content (VDict fields) = VStr "Unknown:  - ").
Proof.
  intros Hitems.
  assert (Hloop : loop_over (Py.get (VDict d) "gear_recommendations" (VList []))
                    (add_gear video) acc
                  = (rs <- gather (emit_gear video) items ;; Ok (acc ++ rs)%list)).
  { rewrite (loop_over_field _ _ d "gear_recommendations" _ (add_gear_appends video)).
    unfold gathered. rewrite Hitems. reflexivity. }
  split; [| split; [| split]].
  - intros Hplain. destruct (gather_gear video items Hplain) as (contents & Hmap & Hg).
    exists contents. split; [exact Hmap |]. rewrite Hloop, Hg. reflexivity.
  - intros Hlone. rewrite Hloop, (gather_gear_raises video items Hlone). reflexivity.
  - intros gear Hnot. destruct gear; try discriminate; reflexivity.
  - intros fields Hname Huse Hrec. unfold gear_content.
    rewrite !dict_get_lookup, Hname, Huse, Hrec. reflexivity.
Qed.

Lemma gear_loop_total_witness :
  (exists contents,
     map gear_content
       [VStr "wool socks"; VDict [("name", VStr "Axe"); ("use", VStr "splitting wood")]]
     = map VStr contents /\
     loop_over (Py.get Sample.mixed_items "gear_recommendations" (VList []))
       (add_gear Sample.video1) []
     = Ok ([] ++ map (gear_fact_of Sample.video1) contents)%list) /\
  loop_over (Py.get (VDict [("gear_recommendations",
                             VList [VStr "wool socks"; VStrLone "" Cases.d83d []])])
               "gear_recommendations" (VList []))
    (add_gear Sample.video1) []
  = Raise UnicodeEncodeError.
Proof.
  split.
  - apply (proj1 (gear_loop_total Sample.video1
             [("gear_recommendations",
               VList [VStr "wool socks";
                      VDict [("name", VStr "Axe"); ("use", VStr "splitting wood")]]);
              ("recipes",
               VList [VStr "pancakes"; VDict [("name", VStr "Trout chowder")]])]
             [VStr "wool socks";
              VDict [("name", VStr "Axe"); ("use", VStr "splitting wood")]] [] eq_refl)).
    constructor; [reflexivity |]. constructor; [reflexivity | constructor].
  - apply (proj1 (proj2 (gear_loop_total Sample.video1
             [("gear_recommendations",
               VList [VStr "wool socks"; VStrLone "" Cases.d83d []])]
             [VStr "wool socks"; VStrLone "" Cases.d83d []] [] eq_refl))).
    right. left. reflexivity.
Defined.

(** X20.  What the name of a mapping does in the recipe loop and in the
    business loops.  A recipe raises exactly when its name is set to
    something that is not a str ([null] included), with [AttributeError],
    or to a str with a lone surrogate, with [UnicodeEncodeError]; a recipe
    without a name is appended as ["Unknown Recipe"] with the id of the
    empty string.  A business raises in the same two cases when its name is
    true as well; a name that is [null], zero, false or empty drops the
    business instead. *)
Theorem names_that_raise (video : Video.t) (described : string)
    (all_recipes : list Recipe.t) (all_businesses : list Business.t) (item : value)
    (e : exn) :
  let bad v := (is_str v = false /\ e = AttributeError) \/
               (has_lone_surrogate v = true /\ e = UnicodeEncodeError) in
  (add_recipe video all_recipes item = Raise e <->
   exists d v, item = VDict d /\ dict_lookup d "name" = Some v /\ bad v) /\
  (add_business video described all_businesses item = Raise e <->
   exists d v, item = VDict d /\ dict_lookup d "name" = Some v /\
               Py.truthy v = true /\ bad v) /\
  (forall d, item = VDict d -> dict_lookup d "name" = None ->
     exists r,
       add_recipe video all_recipes item = Ok (all_recipes ++ [r])%list /\
       Recipe.name r = VStr "Unknown Recipe" /\
       Recipe.id r = generate_id "" /\
       Recipe.ingredients r = dict_get d "ingredients" (VList []) /\
       Recipe.steps r = dict_get d "steps" (VList []) /\
       Recipe.cookingMethod r = dict_get d "cooking_method" (VStr "campfire")).
Proof.
  intros bad.
  assert (Hid : forall v, generate_id_of v = Raise e <-> bad v).
  { intros v. subst bad.
    destruct v as [| b | n | shown nz | s | l | d | sb sl sa]; simpl; split;
      try (intros H; injection H as <-; tauto);
      try (intros [[_ ->] | [H _]]; (reflexivity || discriminate));
      try (intros [[H _] | [_ ->]]; (reflexivity || discriminate));
      try discriminate.
    intros [[H _] | [H _]]; discriminate. }
  split; [| split].
  - split.
    + intros He. destruct item as [| b | n | shown nz | s | l | d | sb sl sa];
        try discriminate.
      unfold add_recipe in He. rewrite (dict_get_lookup d "name") in He.
      destruct (dict_lookup d "name") as [v |] eqn:Hname; [| discriminate].
      exists d, v. split; [reflexivity |]. split; [exact Hname |].
      apply Hid. destruct (generate_id_of v); [discriminate |].
      simpl in He. injection He as ->. reflexivity.
    + intros (d & v & -> & Hname & Hbad). apply Hid in Hbad.
      unfold add_recipe. rewrite (dict_get_lookup d "name"), Hname, Hbad. reflexivity.
  - split.
    + intros He.
      destruct (add_business_cases video described all_businesses item)
        as [(d & name & _ & _ & _ & Heq) | [Hsame
           | (d & v & -> & Hname & Ht & _ & e' & Hgen & Hraise)]];
        try congruence.
      exists d, v. split; [reflexivity |]. split; [exact Hname |]. split; [exact Ht |].
      apply Hid. rewrite Hraise in He. injection He as ->. exact Hgen.
    + intros (d & v & -> & Hname & Ht & Hbad). apply Hid in Hbad.
      unfold add_business. rewrite !(dict_get_lookup d "name"), Hname, Ht, Hbad.
      reflexivity.
  - intros d -> Hname. eexists. split.
    + unfold add_recipe. rewrite !(dict_get_lookup d "name"), Hname. reflexivity.
    + repeat split.
Qed.

Lemma names_that_raise_witness :
  add_recipe Sample.video1 [] (VDict [("name", VNone)]) = Raise AttributeError /\
  add_recipe Sample.video1 [] (VDict [("name", VStrLone "" Cases.d83d [])])
  = Raise UnicodeEncodeError /\
  add_business Sample.video1 "Mentioned in " [] (VDict [("name", VNone)]) = Ok [] /\
  add_business Sample.video1 "Mentioned in " []
    (VDict [("name", VStrLone "" Cases.d83d [])]) = Raise UnicodeEncodeError.
Proof.
  split; [| split; [| split]].
  - apply (proj1 (names_that_raise Sample.video1 "Mentioned in " [] []
                    (VDict [("name", VNone)]) AttributeError)).
    exists [("name", VNone)], VNone. split; [reflexivity |]. split; [reflexivity |].
    left. split; reflexivity.
  - apply (proj1 (names_that_raise Sample.video1 "Mentioned in " [] []
                    (VDict [("name", VStrLone "" Cases.d83d [])]) UnicodeEncodeError)).
    exists [("name", VStrLone "" Cases.d83d [])], (VStrLone "" Cases.d83d []).
    split; [reflexivity |]. split; [reflexivity |]. right. split; reflexivity.
  - reflexivity.
  - apply (proj1 (proj2 (names_that_raise Sample.video1 "Mentioned in " [] []
                    (VDict [("name", VStrLone "" Cases.d83d [])]) UnicodeEncodeError))).
    exists [("name", VStrLone "" Cases.d83d [])], (VStrLone "" Cases.d83d []).
    split; [reflexivity |]. split; [reflexivity |]. split; [reflexivity |].
    right. split; reflexivity.
Defined.

(** ** The categories dict, read back *)

Lemma dict_find_set {V : Type} (d : list (string * V)) (key key' : string) (v : V) :
  dict_find (dict_set d key v) key'
  = if String.eqb key key' then Some v else dict_find d key'.
Proof.
  unfold dict_find. induction d as [| [k old] rest IH]; simpl.
  - destruct (String.eqb key key'); reflexivity.
  - destruct (String.eqb_spec k key) as [-> | Hne]; simpl.
    + destruct (String.eqb key key'); reflexivity.
    + destruct (String.eqb_spec k key') as [-> | Hne'].
      * destruct (String.eqb_spec key key') as [-> | _]; [contradiction | reflexivity].
      * exact IH.
Qed.

Lemma find_last {A : Type} (f : A -> bool) (xs : list A) (x : A) :
  find f (rev (x :: xs)) =
  match find f (rev xs) with
  | Some y => Some y
  | None => if f x then Some x else None
  end.
Proof.
  simpl. induction (rev xs) as [| y ys IH]; simpl; [reflexivity |].
  destruct (f y); [reflexivity | exact IH].
Qed.

Lemma fill_categories_find (playlists : list Playlist.t)
    (d : list (string * Category.t)) (key : string) :
  dict_find (fill_categories d playlists) key =
  match find (fun p => String.eqb (Playlist.id p) key) (rev playlists) with
  | Some p => Some (category_of_playlist p)
  | None => dict_find d key
  end.
Proof.
  revert d. induction playlists as [| p rest IH]; intros d; [reflexivity |].
  change (fill_categories d (p :: rest))
    with (fill_categories (dict_set d (Playlist.id p) (category_of_playlist p)) rest).
  rewrite IH, find_last.
  destruct (find _ (rev rest)); [reflexivity |].
  rewrite dict_find_set. destruct (String.eqb (Playlist.id p) key); reflexivity.
Qed.

Lemma fill_categories_length (playlists : list Playlist.t)
    (d : list (string * Category.t)) :
  (length (fill_categories d playlists) <= length d + length playlists)%nat.
Proof.
  revert d. induction playlists as [| p rest IH]; intros d; simpl; [lia |].
  specialize (IH (dict_set d (Playlist.id p) (category_of_playlist p))).
  assert (Hset : (length (dict_set d (Playlist.id p) (category_of_playlist p))
                  <= S (length d))%nat).
  { clear IH. induction d as [| [k old] d' IHd]; simpl; [lia |].
    destruct (String.eqb k (Playlist.id p)); simpl; lia. }
  lia.
Qed.

(** X21.  The categories are kept in a dict under the playlist id, so a
    playlist id that comes twice leaves one entry: reading the dict under
    an id gives the category made of the last playlist with that id, and
    nothing for an id no playlist has; the dict never holds more entries
    than there are playlists. *)
Theorem categories_last_playlist_wins (playlists : list Playlist.t) (key : string) :
  dict_find (collect_categories playlists) key
  = option_map category_of_playlist
      (find (fun p => String.eqb (Playlist.id p) key) (rev playlists)) /\
  (length (dict_values (collect_categories playlists)) <= length playlists)%nat /\
  map Category.name (dict_values (collect_categories Cases.twice))
  = ["Cabin builds"; "Catch and cook"].
Proof.
  split; [| split].
  - change (collect_categories playlists) with (fill_categories [] playlists).
    rewrite fill_categories_find.
    destruct (find _ (rev playlists)); reflexivity.
  - unfold dict_values. rewrite length_map.
    exact (fill_categories_length playlists []).
  - reflexivity.
Qed.

(** ** The number of videos asked for *)

Lemma run_no_video (scraper : Scraper.t) (kb kb' : KB.t) :
  run_videos scraper [] kb = Ok kb' -> kb' = kb.
Proof. intros H. injection H as <-. reflexivity. Qed.

(** X22.  What [max_videos] selects at its edges.  A count of zero
    selects no video and the run writes four empty collections.  A
    negative count does not select nothing: it drops that many uploads
    from the end of the list and keeps the others.  A count that is at
    least the number of uploads selects them all. *)
Theorem max_videos_edges (scraper : Scraper.t) (now : string) (max_videos : Z)
    (out : Output.t) :
  build_knowledge_base scraper now max_videos = Ok out ->
  exists uploads,
    get_all_channel_videos scraper = Ok uploads /\
    (max_videos = 0 ->
     Metadata.totalVideos (Output.metadata out) = 0 /\
     Output.facts out = [] /\ Output.businesses out = [] /\
     Output.jokes out = [] /\ Output.recipes out = []) /\
    (max_videos < 0 ->
     Metadata.totalVideos (Output.metadata out)
     = Z.max 0 (Z.of_nat (length uploads) + max_videos) /\
     exists dropped,
       uploads = (Py.slice_to max_videos uploads ++ dropped)%list /\
       Z.of_nat (length dropped) = Z.min (Z.of_nat (length uploads)) (- max_videos)) /\
    (Z.of_nat (length uploads) <= max_videos ->
     Py.slice_to max_videos uploads = uploads /\
     Metadata.totalVideos (Output.metadata out) = Z.of_nat (length uploads)).
Proof.
  intros Hok.
  destruct (build_knowledge_base_Ok _ _ _ _ Hok)
    as (playlists & uploads & kb & _ & Huploads & Hrun & ->).
  exists uploads. split; [exact Huploads |]. simpl. split; [| split].
  - intros ->. change (Py.slice_to 0 uploads) with (@nil Video.t) in *.
    apply run_no_video in Hrun. subst kb. repeat split.
  - intros Hneg. unfold Py.slice_to.
    destruct (Z.leb_spec 0 max_videos); [lia |].
    split.
    + rewrite length_firstn. lia.
    + exists (skipn (Z.to_nat (Z.of_nat (length uploads) + max_videos)) uploads).
      split; [symmetry; apply firstn_skipn |].
      rewrite length_skipn. lia.
  - intros Hall. unfold Py.slice_to.
    destruct (Z.leb_spec 0 max_videos); [| lia].
    rewrite firstn_all2 by lia. split; reflexivity.
Qed.

Lemma max_videos_edges_witness :
  exists out,
    build_knowledge_base (Sample.scraper Sample.model_tips) Sample.now (-1) = Ok out /\
    Metadata.totalVideos (Output.metadata out) = 2.
Proof.
  destruct (build_knowledge_base (Sample.scraper Sample.model_tips) Sample.now (-1))
    as [out |] eqn:Hok; [| vm_compute in Hok; discriminate].
  exists out. split; [reflexivity |].
  destruct (max_videos_edges _ _ _ _ Hok) as (uploads & Huploads & _ & Hneg & _).
  destruct (Hneg ltac:(lia)) as (Htotal & _). rewrite Htotal.
  vm_compute in Huploads. injection Huploads as <-. reflexivity.
Defined.

(** ** Failures that end the run *)

(** X23.  A failure of the video platform ends the run with its
    exception, whatever the language model answers and whatever the count
    of videos: a failed page of the playlists, a failed channel request, a
    channel response without the key ['items'] ([KeyError]) or with an
    empty list of items ([IndexError]), and a failed page of the uploads
    each leave the run without a result. *)
Theorem fetch_failure_ends_run (scraper : Scraper.t) (now : string) (max_videos : Z)
    (e : exn) :
  let youtube := Scraper.youtube scraper in
  (listing_error (YouTube.playlists youtube) = Some e ->
   build_knowledge_base scraper now max_videos = Raise e) /\
  (listing_error (YouTube.playlists youtube) = None ->
   (YouTube.channels youtube = Raise e ->
    build_knowledge_base scraper now max_videos = Raise e) /\
   (YouTube.channels youtube = Ok None ->
    build_knowledge_base scraper now max_videos = Raise KeyError) /\
   (YouTube.channels youtube = Ok (Some []) ->
    build_knowledge_base scraper now max_videos = Raise IndexError) /\
   (forall uploads others,
      YouTube.channels youtube = Ok (Some (uploads :: others)) ->
      listing_error (YouTube.playlistItems youtube uploads) = Some e ->
      build_knowledge_base scraper now max_videos = Raise e)).
Proof.
  intros youtube.
  unfold build_knowledge_base, selected_videos, get_channel_playlists,
    get_all_channel_videos, get_playlist_videos.
  fold youtube. rewrite fetch_all_pages. split.
  - intros ->. reflexivity.
  - intros ->. cbn [Py.bind]. split; [| split; [| split]].
    + intros ->. reflexivity.
    + intros ->. reflexivity.
    + intros ->. reflexivity.
    + intros uploads others -> Herr. cbn [Py.bind].
      rewrite fetch_all_pages, Herr. reflexivity.
Qed.

Lemma fetch_failure_ends_run_witness :
  build_knowledge_base Cases.scraper_failing Sample.now 3 = Raise HttpError /\
  build_knowledge_base Cases.scraper_no_channel Sample.now 3 = Raise KeyError.
Proof.
  split.
  - apply (proj1 (fetch_failure_ends_run Cases.scraper_failing Sample.now 3 HttpError)).
    reflexivity.
  - apply (proj2 (fetch_failure_ends_run Cases.scraper_no_channel Sample.now 3 KeyError));
      reflexivity.
Defined.

(** X24.  An exception in the turn of one video ends the whole run with
    that exception: what the turns of the videos before it collected is not
    written, and the videos after it are not looked at. *)
Theorem failing_turn_ends_run (scraper : Scraper.t) (now : string) (max_videos : Z)
    (playlists : list Playlist.t) (before after : list Video.t) (video : Video.t)
    (kb1 : KB.t) (e : exn) :
  get_channel_playlists scraper = Ok playlists ->
  selected_videos scraper max_videos = Ok (before ++ video :: after)%list ->
  run_videos scraper before empty_kb = Ok kb1 ->
  process_video video scraper kb1 = Raise e ->
  run_videos scraper (before ++ video :: after) empty_kb = Raise e /\
  build_knowledge_base scraper now max_videos = Raise e.
Proof.
  intros Hplaylists Hselected Hbefore Hturn.
  assert (Hrun : run_videos scraper (before ++ video :: after) empty_kb = Raise e).
  { rewrite run_videos_app, Hbefore. cbn [Py.bind].
    unfold run_videos. simpl. rewrite Hturn. reflexivity. }
  split; [exact Hrun |].
  unfold build_knowledge_base. rewrite Hplaylists, Hselected. cbn [Py.bind].
  fold (run_videos scraper (before ++ video :: after) empty_kb).
  rewrite Hrun. reflexivity.
Qed.

Lemma failing_turn_ends_run_witness :
  exists kb1,
    run_videos (Sample.scraper Cases.model_fails_later) [Sample.video1] empty_kb = Ok kb1 /\
    length (KB.all_facts kb1) = 1%nat /\
    build_knowledge_base (Sample.scraper Cases.model_fails_later) Sample.now 3
    = Raise AttributeError.
Proof.
  destruct (run_videos (Sample.scraper Cases.model_fails_later) [Sample.video1] empty_kb)
    as [kb1 |] eqn:Hbefore; [| vm_compute in Hbefore; discriminate].
  destruct (get_channel_playlists (Sample.scraper Cases.model_fails_later))
    as [playlists |] eqn:Hplaylists; [| discriminate].
  exists kb1. split; [reflexivity |].
  assert (Hkb1 : kb1 = KB.Build
                         [survival_tip_of Sample.video1 "winter_survival"
                            "drink the first melt, not the ice"] [] [] [] 2%nat).
  { vm_compute in Hbefore. injection Hbefore as <-. reflexivity. }
  split; [rewrite Hkb1; reflexivity |].
  apply (failing_turn_ends_run (Sample.scraper Cases.model_fails_later) Sample.now 3
           playlists [Sample.video1] [Sample.video3] Sample.video2 kb1 AttributeError).
  - exact Hplaylists.
  - reflexivity.
  - exact Hbefore.
  - rewrite Hkb1. reflexivity.
Defined.
